(** * Stocky backend: reward ledger, fees, prices and valuations

    A shallow embedding of the Go services of the stock-reward backend
    (packages [utils], [models], [db], [services] and [controllers])
    together with the properties of its reward/ledger/pricing core.

    Conventions of the embedding.
    - [decimal.Decimal] (github.com/shopspring/decimal) is an arbitrary
      precision integer coefficient with a base-ten exponent; it is modelled
      by the record [decimal.Decimal] with the library's own algorithms for
      [rescale], [Add], [Mul], [Cmp] and [Round].  The [int32] range check
      on exponents (a panic in [Mul]) is not modelled: exponents are in [Z].
    - [time.Time] is an instant in nanoseconds since the Unix epoch; every
      computation of the program is done in UTC, where a calendar day is
      86400 seconds.
    - The PostgreSQL store is a record of three tables; columns of type
      [numeric(18,6)] and [numeric(18,4)] hold integers counted in units of
      [10^-6] and [10^-4] (the overflow of their 18 digits is not
      modelled).  An insertion checks the unique index of the live grants
      and the foreign key of the ledger entries to the grants.  Every
      store operation may fail, as decided by a fault schedule carried by
      the state.
    - A Go map is a [gmap]; where the program ranges over a map, the
      embedding visits it in the order of [map_to_list]. *)

From Stdlib Require Import ZArith QArith Qpower Qround Lia Lqa List Bool.
From stdpp Require Import gmap strings list fin_maps.
Import ListNotations.

Local Open Scope Z_scope.

(* ===================================================================== *)
(** * Package decimal (github.com/shopspring/decimal)                     *)
(* ===================================================================== *)

Module decimal.

(** [Decimal{value *big.Int, exp int32}] denotes [value * 10^exp]. *)
Record Decimal : Type := New { value : Z; exp : Z }.

(** [var Zero = New(0, 1)] *)
Definition Zero : Decimal := New 0 1.

Definition NewFromInt (n : Z) : Decimal := New n 0.

(** [rescale]: same number at another exponent; lowering the precision
    truncates towards zero ([big.Int.Quo]). *)
Definition rescale (d : Decimal) (e : Z) : Decimal :=
  if exp d =? e then d
  else
    let diff := Z.abs (e - exp d) in
    let expScale := 10 ^ diff in
    if e >? exp d then New (Z.quot (value d) expScale) e
    else New (value d * expScale) e.

Definition RescalePair (d1 d2 : Decimal) : Decimal * Decimal :=
  if exp d1 =? exp d2 then (d1, d2)
  else
    let baseScale := Z.min (exp d1) (exp d2) in
    if negb (baseScale =? exp d1) then (rescale d1 baseScale, d2)
    else (d1, rescale d2 baseScale).

Definition Add (d d2 : Decimal) : Decimal :=
  let '(rd, rd2) := RescalePair d d2 in
  New (value rd + value rd2) (exp rd).

Definition Neg (d : Decimal) : Decimal := New (- value d) (exp d).

Definition Mul (d d2 : Decimal) : Decimal :=
  New (value d * value d2) (exp d + exp d2).

Definition Cmp (d d2 : Decimal) : comparison :=
  let '(rd, rd2) := RescalePair d d2 in
  value rd ?= value rd2.

Definition Equal (d d2 : Decimal) : bool :=
  match Cmp d d2 with Eq => true | _ => false end.

Definition GreaterThan (d d2 : Decimal) : bool :=
  match Cmp d d2 with Gt => true | _ => false end.

Definition LessThanOrEqual (d d2 : Decimal) : bool :=
  match Cmp d d2 with Gt => false | _ => true end.

(** [Round]: half away from zero at [places] digits after the point.
    [big.Int.DivMod] is Euclidean; for the divisor ten it is [Z.div] and
    [Z.modulo]. *)
Definition Round (d : Decimal) (places : Z) : Decimal :=
  if exp d =? - places then d
  else
    let ret := rescale d (- places - 1) in
    let v := if value ret <? 0 then value ret - 5 else value ret + 5 in
    let q := v / 10 in
    let m := v mod 10 in
    let q' := if (q <? 0) && negb (m =? 0) then q + 1 else q in
    New q' (exp ret + 1).

(** The rational number a decimal denotes. *)
Definition toQ (d : Decimal) : Q := (inject_Z (value d) * 10 ^ exp d)%Q.

End decimal.

(* ===================================================================== *)
(** * Go errors                                                           *)
(* ===================================================================== *)

(** [fmt.Errorf] with and without a wrapped cause ([%w]), the sentinel
    errors of gorm, and any other error reported by the store. *)
Inductive error : Type :=
| ErrRecordNotFound                            (* gorm.ErrRecordNotFound *)
| ErrEmptySlice                                (* gorm.ErrEmptySlice *)
| ErrStore                                     (* any other store error *)
| Errorf (msg : string)
| Wrapf (msg : string) (cause : error).

(** [errors.Is(err, gorm.ErrRecordNotFound)] and, for an error that was
    never wrapped, [err == gorm.ErrRecordNotFound]. *)
Fixpoint errors_Is_RecordNotFound (e : error) : bool :=
  match e with
  | ErrRecordNotFound => true
  | Wrapf _ cause => errors_Is_RecordNotFound cause
  | _ => false
  end.

Definition is_ErrRecordNotFound (e : error) : bool :=
  match e with ErrRecordNotFound => true | _ => false end.

(* ===================================================================== *)
(** * Package utils: helpers.go and time.go                               *)
(* ===================================================================== *)

Module utils.
Import decimal.

(** ** helpers.go *)

(** The [decimal.NewFromFloat] constants of [CalculateFees]:
    [NewFromFloat] returns the shortest digits that denote the float, with
    the matching exponent. *)
Definition rateBrokerage : Decimal := New 3 (-4).   (* 0.0003 *)
Definition rateSTT : Decimal := New 1 (-3).         (* 0.001 *)
Definition rateGST : Decimal := New 18 (-2).        (* 0.18 *)

Record Fees : Type := mkFees
  { brokerage : Decimal; stt : Decimal; gst : Decimal; total : Decimal }.

Definition CalculateFees (pricePerShare quantity : Decimal) : Fees :=
  let totalValue := Mul pricePerShare quantity in
  let brokerage0 := Mul totalValue rateBrokerage in
  let maxBrokerage := NewFromInt 20 in
  let brokerage1 :=
    if GreaterThan brokerage0 maxBrokerage then maxBrokerage else brokerage0 in
  let stt0 := Mul totalValue rateSTT in
  let gst0 := Mul brokerage1 rateGST in
  let total0 := Add (Add brokerage1 stt0) gst0 in
  mkFees (Round brokerage1 4) (Round stt0 4) (Round gst0 4) (Round total0 4).

Definition ValidateQuantity (quantity : Decimal) : option error :=
  if LessThanOrEqual quantity Zero
  then Some (Errorf "quantity must be positive")
  else
    let maxQuantity := NewFromInt 10000 in
    if GreaterThan quantity maxQuantity
    then Some (Errorf "quantity cannot exceed 10000 shares")
    else None.

Definition ValidateStockSymbol (symbol : string) : option error :=
  if (String.length symbol =? 0)%nat || (20 <? String.length symbol)%nat
  then Some (Errorf "invalid stock symbol length")
  else None.

Definition RoundINR (amount : Decimal) : Decimal := Round amount 4.

Definition RoundQuantity (quantity : Decimal) : Decimal := Round quantity 6.

(** ** The price generator *)

Record PriceGenerator : Type :=
  mkPriceGenerator { basePrices : gmap string Decimal }.

Definition NewPriceGenerator : PriceGenerator :=
  mkPriceGenerator
    (list_to_map
       [ ("RELIANCE"%string, New 24505 (-1));
         ("TCS"%string, New 368075 (-2));
         ("INFY"%string, New 15203 (-1));
         ("HDFCBANK"%string, New 16509 (-1));
         ("ICICIBANK"%string, New 98525 (-2));
         ("SBIN"%string, New 6258 (-1));
         ("BHARTIARTL"%string, New 118045 (-2));
         ("ITC"%string, New 4556 (-1));
         ("KOTAKBANK"%string, New 172535 (-2));
         ("LT"%string, New 34207 (-1)) ]).

(** [GeneratePrice]: [variationDecimal] is the decimal made from the
    random draw, [decimal.NewFromFloat(variation / 100)]; the floating
    point draw itself is an input of the embedding. *)
Definition GeneratePrice (pg : PriceGenerator) (symbol : string)
    (variationDecimal : Decimal) : Decimal * PriceGenerator :=
  let '(basePrice, pg) :=
    match basePrices pg !! symbol with
    | Some b => (b, pg)
    | None =>
        let b := New 1 3 in                      (* NewFromFloat(1000.0) *)
        (b, mkPriceGenerator (<[symbol := b]> (basePrices pg)))
    end in
  let newPrice := Mul basePrice (Add (NewFromInt 1) variationDecimal) in
  (Round newPrice 4, pg).

Definition UpdateBasePrice (pg : PriceGenerator) (symbol : string)
    (newPrice : Decimal) : PriceGenerator :=
  mkPriceGenerator (<[symbol := newPrice]> (basePrices pg)).

(** ** time.go *)

(** An instant, in nanoseconds since the Unix epoch. *)
Definition Time : Type := Z.

Definition Hour : Z := 3600 * 1000000000.
Definition nsPerDay : Z := 24 * Hour.

(** [t.UTC()] keeps the instant. *)
Definition UTC (t : Time) : Time := t.

(** [time.Date(year, month, day, 0, 0, 0, 0, loc)] of a UTC time. *)
Definition StartOfDay (t : Time) : Time := t - t mod nsPerDay.

(** [time.Date(year, month, day, 23, 59, 59, 999999999, loc)]. *)
Definition EndOfDay (t : Time) : Time := StartOfDay t + (nsPerDay - 1).

Definition StartOfDayUTC (t : Time) : Time := StartOfDay (UTC t).
Definition EndOfDayUTC (t : Time) : Time := EndOfDay (UTC t).

Definition After (t u : Time) : bool := u <? t.

(** [t.AddDate(0, 0, days)] of a UTC time. *)
Definition AddDate_days (t : Time) (days : Z) : Time := t + days * nsPerDay.

(** The loop of [GetPastDates]:
    [for !current.After(end) { dates = append(dates, current); ... }]. *)
Fixpoint GetPastDates_loop (fuel : nat) (current end_ : Time)
    (dates : list Time) : option (list Time) :=
  match fuel with
  | O => None
  | S fuel' =>
      if negb (After current end_)
      then GetPastDates_loop fuel' (AddDate_days current 1) end_
             (dates ++ [current])
      else Some dates
  end.

Definition GetPastDates_fuel (fuel : nat) (startDate endDate : Time)
    : option (list Time) :=
  let current := StartOfDayUTC startDate in
  let end_ := StartOfDayUTC endDate in
  GetPastDates_loop fuel current end_ [].

(** Enough iterations for the loop to leave: one per day of the range,
    and the one that finds [current] after [end]. *)
Definition GetPastDates_enough (startDate endDate : Time) : nat :=
  S (Z.to_nat ((StartOfDayUTC endDate - StartOfDayUTC startDate) / nsPerDay + 1)).

Definition GetPastDates (startDate endDate : Time) : list Time :=
  match GetPastDates_fuel (GetPastDates_enough startDate endDate)
          startDate endDate with
  | Some dates => dates
  | None => []
  end.

(** [GetYesterday], with the current instant as an argument. *)
Definition GetYesterday (now : Time) : Time :=
  StartOfDayUTC (AddDate_days (UTC now) (-1)).

(** [IsToday], with the current instant as an argument. *)
Definition IsToday (now t : Time) : bool :=
  StartOfDayUTC (UTC now) =? StartOfDayUTC (UTC t).

End utils.

(* ===================================================================== *)
(** * Package models                                                      *)
(* ===================================================================== *)

Module models.
Import decimal utils.

Inductive EntryType : Type := EntryTypeStock | EntryTypeCash | EntryTypeFee.

Definition EntryType_eqb (a b : EntryType) : bool :=
  match a, b with
  | EntryTypeStock, EntryTypeStock
  | EntryTypeCash, EntryTypeCash
  | EntryTypeFee, EntryTypeFee => true
  | _, _ => false
  end.

(** The Go structs ([CreatedAt] and [UpdatedAt], which no service reads,
    are left out). *)
Record RewardEvent : Type := mkRewardEvent
  { RewardEvent_ID : Z;
    UserID : Z;
    RewardEvent_StockSymbol : string;
    RewardEvent_Quantity : Decimal;
    RewardEvent_Timestamp : Time;
    DeletedAt : option Time }.

Record LedgerEntry : Type := mkLedgerEntry
  { LedgerEntry_ID : Z;
    RewardEventID : Z;
    Entry_Type : EntryType;
    StockSymbol : option string;
    Quantity : Decimal;
    AmountINR : Decimal;
    Timestamp : Time }.

Record PriceHistory : Type := mkPriceHistory
  { PriceHistory_ID : Z;
    PriceHistory_StockSymbol : string;
    PriceINR : Decimal;
    PriceHistory_Timestamp : Time }.

End models.

(* ===================================================================== *)
(** * Package db: the store                                               *)
(* ===================================================================== *)

Module db.
Import decimal utils models.

(** A [numeric(18,scale)] column holds an integer number of units
    [10^-scale].  A decimal written to such a column is rounded to the
    column's scale, half away from zero; a column read back is a decimal
    with exponent [-scale]. *)
Definition to_numeric (scale : Z) (d : Decimal) : Z := value (Round d scale).
Definition of_numeric (scale : Z) (n : Z) : Decimal := New n (- scale).

(** Table [reward_events]. *)
Record reward_events_row : Type := mk_reward_events_row
  { re_id : Z;
    re_user_id : Z;
    re_stock_symbol : string;
    re_quantity : Z;                       (* numeric(18,6) *)
    re_timestamp : Time;
    re_deleted_at : option Time }.

(** Table [ledger_entries]. *)
Record ledger_entries_row : Type := mk_ledger_entries_row
  { le_id : Z;
    le_reward_event_id : Z;
    le_entry_type : EntryType;
    le_stock_symbol : option string;
    le_quantity : Z;                       (* numeric(18,6) *)
    le_amount_inr : Z;                     (* numeric(18,4) *)
    le_timestamp : Time }.

(** Table [price_history]. *)
Record price_history_row : Type := mk_price_history_row
  { ph_id : Z;
    ph_stock_symbol : string;
    ph_price_inr : Z;                      (* numeric(18,4) *)
    ph_timestamp : Time }.

Record Store : Type := mkStore
  { reward_events : list reward_events_row;
    ledger_entries : list ledger_entries_row;
    price_history : list price_history_row;
    reward_events_seq : Z;                 (* next primary keys *)
    ledger_entries_seq : Z;
    price_history_seq : Z }.

Definition empty : Store := mkStore [] [] [] 1 1 1.

(** Rows and Go structs. *)
Definition scan_reward (r : reward_events_row) : RewardEvent :=
  mkRewardEvent (re_id r) (re_user_id r) (re_stock_symbol r)
    (of_numeric 6 (re_quantity r)) (re_timestamp r) (re_deleted_at r).

Definition scan_ledger (r : ledger_entries_row) : LedgerEntry :=
  mkLedgerEntry (le_id r) (le_reward_event_id r) (le_entry_type r)
    (le_stock_symbol r) (of_numeric 6 (le_quantity r))
    (of_numeric 4 (le_amount_inr r)) (le_timestamp r).

Definition scan_price (r : price_history_row) : PriceHistory :=
  mkPriceHistory (ph_id r) (ph_stock_symbol r)
    (of_numeric 4 (ph_price_inr r)) (ph_timestamp r).

Definition ledger_row (id : Z) (e : LedgerEntry) : ledger_entries_row :=
  mk_ledger_entries_row id (RewardEventID e) (Entry_Type e) (StockSymbol e)
    (to_numeric 6 (Quantity e)) (to_numeric 4 (AmountINR e)) (Timestamp e).

Definition is_live (r : reward_events_row) : bool :=
  match re_deleted_at r with None => true | Some _ => false end.

(** The columns of the unique index [idx_reward_dedup], which covers the
    rows [WHERE deleted_at IS NULL]. *)
Definition same_dedup_key (a b : reward_events_row) : bool :=
  (re_user_id a =? re_user_id b) && String.eqb (re_stock_symbol a) (re_stock_symbol b)
  && (re_quantity a =? re_quantity b) && (re_timestamp a =? re_timestamp b).

(** [INSERT INTO reward_events]: the new row gets the next primary key;
    the insertion is refused when it would break [idx_reward_dedup]. *)
Definition insert_reward (s : Store) (e : RewardEvent)
    : error + (RewardEvent * Store) :=
  let id := reward_events_seq s in
  let row := mk_reward_events_row id (UserID e) (RewardEvent_StockSymbol e)
               (to_numeric 6 (RewardEvent_Quantity e))
               (RewardEvent_Timestamp e) (DeletedAt e) in
  if is_live row &&
     existsb (fun r => is_live r && same_dedup_key r row) (reward_events s)
  then inl ErrStore
  else
    inr (mkRewardEvent id (UserID e) (RewardEvent_StockSymbol e)
           (RewardEvent_Quantity e) (RewardEvent_Timestamp e) (DeletedAt e),
         mkStore (reward_events s ++ [row]) (ledger_entries s)
           (price_history s) (id + 1) (ledger_entries_seq s)
           (price_history_seq s)).

(** Primary keys [first, first+1, ...] for a batch of rows. *)
Fixpoint number_rows (first : Z) (es : list LedgerEntry)
    : list ledger_entries_row :=
  match es with
  | [] => []
  | e :: es' => ledger_row first e :: number_rows (first + 1) es'
  end.

(** The foreign key of [ledger_entries.reward_event_id], which gorm's
    [AutoMigrate] derives from the relationship fields of the two models
    ([foreignKey:RewardEventID]): the grant an entry names is a row of
    [reward_events], deleted or not. *)
Definition references_reward (s : Store) (e : LedgerEntry) : bool :=
  existsb (fun r => re_id r =? RewardEventID e) (reward_events s).

(** [INSERT INTO ledger_entries] of a slice, one statement; gorm refuses
    an empty slice, and the store refuses the statement when one of its
    rows breaks the foreign key. *)
Definition insert_ledger_entries (s : Store) (es : list LedgerEntry)
    : error + Store :=
  match es with
  | [] => inl ErrEmptySlice
  | _ =>
      if forallb (references_reward s) es then
        inr (mkStore (reward_events s)
               (ledger_entries s ++ number_rows (ledger_entries_seq s) es)
               (price_history s) (reward_events_seq s)
               (ledger_entries_seq s + Z.of_nat (length es))
               (price_history_seq s))
      else inl ErrStore
  end.

Definition insert_price (s : Store) (p : PriceHistory) : Store :=
  let id := price_history_seq s in
  mkStore (reward_events s) (ledger_entries s)
    (price_history s ++
       [mk_price_history_row id (PriceHistory_StockSymbol p)
          (to_numeric 4 (PriceINR p)) (PriceHistory_Timestamp p)])
    (reward_events_seq s) (ledger_entries_seq s) (id + 1).

(** [ORDER BY key ... LIMIT 1] as gorm's [First] issues it: the primary
    key is the second ordering column. *)
Definition first_by {A : Type} (better : A -> A -> bool) (rows : list A)
    : option A :=
  fold_left
    (fun best r =>
       match best with
       | None => Some r
       | Some b => if better r b then Some r else Some b
       end)
    rows None.

Definition price_newer (r b : price_history_row) : bool :=
  (ph_timestamp b <? ph_timestamp r)
  || ((ph_timestamp r =? ph_timestamp b) && (ph_id r <? ph_id b)).

Definition reward_older (r b : reward_events_row) : bool :=
  (re_timestamp r <? re_timestamp b)
  || ((re_timestamp r =? re_timestamp b) && (re_id r <? re_id b)).

(** The join and the [WHERE] clause of the two holdings queries;
    [endDate] is the bound of [re.timestamp <= ?] when there is one.  The
    primary key [re.id] is unique, so a ledger row joins at most one
    grant: the join is the existence of that grant. *)
Definition holdings_where (s : Store) (userID : Z) (endDate : option Time)
    (le : ledger_entries_row) : bool :=
  existsb
    (fun re =>
       (le_reward_event_id le =? re_id re)
       && (re_user_id re =? userID)
       && is_live re
       && match endDate with
          | Some t => re_timestamp re <=? t
          | None => true
          end)
    (reward_events s)
  && EntryType_eqb (le_entry_type le) EntryTypeStock
  && match le_stock_symbol le with Some _ => true | None => false end.

Definition holdings_rows (s : Store) (userID : Z) (endDate : option Time)
    : list ledger_entries_row :=
  List.filter (holdings_where s userID endDate) (ledger_entries s).

Definition has_symbol (symbol : string) (le : ledger_entries_row) : bool :=
  match le_stock_symbol le with
  | Some s => String.eqb s symbol
  | None => false
  end.

(** [SUM(le.quantity)] of one group. *)
Definition sum_quantity (rows : list ledger_entries_row) : Z :=
  fold_right Z.add 0 (map le_quantity rows).

Definition symbols_of (rows : list ledger_entries_row) : list string :=
  remove_dups (omap le_stock_symbol rows).

(** [SELECT le.stock_symbol, SUM(le.quantity) ... GROUP BY le.stock_symbol
    HAVING SUM(le.quantity) > 0]. *)
Definition holdings_query (s : Store) (userID : Z) (endDate : option Time)
    : list (string * Z) :=
  let rows := holdings_rows s userID endDate in
  List.filter (fun h => 0 <? snd h)
    (map (fun sym => (sym, sum_quantity (List.filter (has_symbol sym) rows)))
       (symbols_of rows)).

(** [SELECT DISTINCT ON (stock_symbol) * FROM price_history
     WHERE timestamp >= ? AND timestamp <= ?
     ORDER BY stock_symbol, timestamp DESC]: of the rows of the window,
    one per symbol, the first of its group in the order, a newest one.
    PostgreSQL leaves open which of several rows of one symbol with the
    same timestamp comes first; the embedding takes the one with the
    lowest primary key.  The rows are listed by first occurrence of their
    symbol rather than sorted by symbol: the only caller files them in a
    map. *)
Definition in_window (startOfDay endOfDay : Time) (r : price_history_row) : bool :=
  (startOfDay <=? ph_timestamp r) && (ph_timestamp r <=? endOfDay).

Definition latest_per_symbol (s : Store) (startOfDay endOfDay : Time)
    : list price_history_row :=
  let rows := List.filter (in_window startOfDay endOfDay) (price_history s) in
  omap
    (fun symbol =>
       first_by price_newer
         (List.filter (fun r => String.eqb (ph_stock_symbol r) symbol) rows))
    (remove_dups (map ph_stock_symbol rows)).

End db.

(* ===================================================================== *)
(** * Package services                                                    *)
(* ===================================================================== *)

Module services.
Import decimal utils models db.

(** ** The state the services run in *)

(** The store behind [db.DB], the generator of the price service, the
    random draws still to come ([draws n] is the decimal made from the
    [n]-th draw of [rng]), the clock, which stands still during a call,
    and the fault schedule of the store: each round trip to the store
    takes the next flag, and fails when the flag is set; a schedule that
    has run out means no more faults. *)
Record World : Type := mkWorld
  { store : Store;
    generator : PriceGenerator;
    draws : nat -> Decimal;
    drawn : nat;
    now : Time;
    faults : list bool }.

Definition set_store (w : World) (s : Store) : World :=
  mkWorld s (generator w) (draws w) (drawn w) (now w) (faults w).
Definition set_generator (w : World) (g : PriceGenerator) : World :=
  mkWorld (store w) g (draws w) (drawn w) (now w) (faults w).
Definition set_faults (w : World) (fs : list bool) : World :=
  mkWorld (store w) (generator w) (draws w) (drawn w) (now w) fs.

(** A Go function returning [(A, error)] and acting on the state. *)
Definition M (A : Type) : Type := World -> (error + A) * World.

Definition ret {A} (a : A) : M A := fun w => (inr a, w).
Definition fail {A} (e : error) : M A := fun w => (inl e, w).
Definition bind {A B} (m : M A) (f : A -> M B) : M B :=
  fun w =>
    match m w with
    | (inl e, w') => (inl e, w')
    | (inr a, w') => f a w'
    end.
(** [v, err := f()] followed by a test of [err]. *)
Definition attempt {A} (m : M A) : M (error + A) :=
  fun w => let '(r, w') := m w in (inr r, w').

Notation "x <- m ;; k" := (bind m (fun x => k))
  (at level 100, m at next level, right associativity).

Definition NowUTC : M Time := fun w => (inr (now w), w).

(** One round trip to the store. *)
Definition db_exec {A} (op : Store -> error + (A * Store)) : M A :=
  fun w =>
    let '(fault, rest) :=
      match faults w with
      | [] => (false, [])
      | b :: fs => (b, fs)
      end in
    let w' := set_faults w rest in
    if fault then (inl ErrStore, w')
    else
      match op (store w') with
      | inl e => (inl e, w')
      | inr (a, s') => (inr a, set_store w' s')
      end.

Definition db_query {A} (q : Store -> error + A) : M A :=
  db_exec (fun s => match q s with inl e => inl e | inr a => inr (a, s) end).

Definition first_or_not_found {A} (r : option A) : error + A :=
  match r with Some a => inr a | None => inl ErrRecordNotFound end.

(** ** price_service.go *)

Definition price_of_symbol (symbol : string) (r : price_history_row) : bool :=
  String.eqb (ph_stock_symbol r) symbol.

Definition GeneratePrice (symbol : string) : M Decimal :=
  fun w =>
    let '(price, pg) := utils.GeneratePrice (generator w) symbol (draws w (drawn w)) in
    (inr price,
     mkWorld (store w) pg (draws w) (S (drawn w)) (now w) (faults w)).

Definition SavePrice (symbol : string) (price : Decimal) : M unit :=
  t <- NowUTC ;;
  let priceHistory := mkPriceHistory 0 symbol (RoundINR price) t in
  r <- attempt (db_exec (fun s => inr (tt, insert_price s priceHistory))) ;;
  match r with
  | inl err => fail (Wrapf "failed to save price" err)
  | inr _ =>
      fun w => (inr tt, set_generator w (UpdateBasePrice (generator w) symbol price))
  end.

Definition GetCurrentPrice (symbol : string) : M Decimal :=
  r <- attempt
         (db_query (fun s =>
            first_or_not_found
              (first_by price_newer
                 (List.filter (price_of_symbol symbol) (price_history s))))) ;;
  match r with
  | inl err =>
      if is_ErrRecordNotFound err then
        price <- GeneratePrice symbol ;;
        _ <- attempt (SavePrice symbol price) ;;
        ret price
      else fail (Wrapf "failed to fetch price" err)
  | inr row =>
      let priceHistory := scan_price row in
      t <- NowUTC ;;
      if t - PriceHistory_Timestamp priceHistory >? 2 * Hour then
        price <- GeneratePrice symbol ;;
        _ <- attempt (SavePrice symbol price) ;;
        ret price
      else ret (PriceINR priceHistory)
  end.

Definition GetPriceAtTime (symbol : string) (timestamp : Time) : M Decimal :=
  r <- attempt
         (db_query (fun s =>
            first_or_not_found
              (first_by price_newer
                 (List.filter
                    (fun r => price_of_symbol symbol r && (ph_timestamp r <=? timestamp))
                    (price_history s))))) ;;
  match r with
  | inl err =>
      if is_ErrRecordNotFound err then GetCurrentPrice symbol
      else fail (Wrapf "failed to fetch historical price" err)
  | inr row => ret (PriceINR (scan_price row))
  end.

(** ** ledger_service.go *)

(** [for _, h := range holdings { holdingsMap[h.StockSymbol] = h.TotalQty }] *)
Definition holdingsMap (holdings : list (string * Z)) : gmap string Decimal :=
  fold_left (fun m h => <[fst h := of_numeric 6 (snd h)]> m) holdings ∅.

Definition GetUserStockHoldings (userID : Z) : M (gmap string Decimal) :=
  r <- attempt (db_query (fun s => inr (holdings_query s userID None))) ;;
  match r with
  | inl err => fail (Wrapf "failed to fetch holdings" err)
  | inr holdings => ret (holdingsMap holdings)
  end.

Definition GetUserStockHoldingsUpToDate (userID : Z) (endDate : Time)
    : M (gmap string Decimal) :=
  r <- attempt (db_query (fun s => inr (holdings_query s userID (Some endDate)))) ;;
  match r with
  | inl err => fail (Wrapf "failed to fetch holdings" err)
  | inr holdings => ret (holdingsMap holdings)
  end.

Definition entries_of_reward (id : Z) (s : Store) : list ledger_entries_row :=
  List.filter (fun r => le_reward_event_id r =? id) (ledger_entries s).

Definition reversal_of (t : Time) (entry : LedgerEntry) : LedgerEntry :=
  mkLedgerEntry 0 (RewardEventID entry) (Entry_Type entry) (StockSymbol entry)
    (Neg (Quantity entry)) (Neg (AmountINR entry)) t.

(** [for _, entry := range originalEntries { ... }] of
    [CreateReversalEntries]: every reversal reads the clock for its own
    timestamp. *)
Fixpoint CreateReversalEntries_loop (originalEntries : list LedgerEntry)
    (reversalEntries : list LedgerEntry) : M (list LedgerEntry) :=
  match originalEntries with
  | [] => ret reversalEntries
  | entry :: rest =>
      t <- NowUTC ;;
      let reversal := reversal_of t entry in
      CreateReversalEntries_loop rest (reversalEntries ++ [reversal])
  end.

Definition CreateReversalEntries (rewardEvent : RewardEvent) : M unit :=
  r <- attempt
         (db_query (fun s =>
            inr (map scan_ledger (entries_of_reward (RewardEvent_ID rewardEvent) s)))) ;;
  match r with
  | inl err => fail (Wrapf "failed to fetch original entries" err)
  | inr originalEntries =>
      reversalEntries <- CreateReversalEntries_loop originalEntries [] ;;
      r <- attempt
             (db_exec (fun s =>
                match insert_ledger_entries s reversalEntries with
                | inl e => inl e
                | inr s' => inr (tt, s')
                end)) ;;
      match r with
      | inl err => fail (Wrapf "failed to create reversal entries" err)
      | inr _ => ret tt
      end
  end.

(** ** reward_service.go *)

(** The slice [entries] built by [createLedgerEntriesInTx]. *)
Definition createLedgerEntriesInTx_entries (rewardEvent : RewardEvent)
    (pricePerShare : Decimal) : list LedgerEntry :=
  let quantity := RewardEvent_Quantity rewardEvent in
  let symbol := RewardEvent_StockSymbol rewardEvent in
  let timestamp := RewardEvent_Timestamp rewardEvent in
  let totalValue := RoundINR (Mul pricePerShare quantity) in
  let totalFees := total (CalculateFees pricePerShare quantity) in
  [ mkLedgerEntry 0 (RewardEvent_ID rewardEvent) EntryTypeStock (Some symbol)
      quantity totalValue timestamp;
    mkLedgerEntry 0 (RewardEvent_ID rewardEvent) EntryTypeCash (Some symbol)
      Zero (Neg totalValue) timestamp;
    mkLedgerEntry 0 (RewardEvent_ID rewardEvent) EntryTypeFee (Some symbol)
      Zero (Neg totalFees) timestamp ].

(** [createLedgerEntriesInTx]: the entries above, then
    [tx.Create(&entries)]. *)
Definition createLedgerEntriesInTx (rewardEvent : RewardEvent)
    (pricePerShare : Decimal) : M unit :=
  db_exec (fun s =>
    match insert_ledger_entries s
            (createLedgerEntriesInTx_entries rewardEvent pricePerShare) with
    | inl e => inl e
    | inr s' => inr (tt, s')
    end).

(** [tx.Rollback()]: the rows written since [Begin] are dropped; the
    sequences of primary keys are not wound back. *)
Definition Rollback (snapshot : Store) : M unit :=
  fun w =>
    let s := store w in
    (inr tt,
     set_store w
       (mkStore (reward_events snapshot) (ledger_entries snapshot)
          (price_history s) (reward_events_seq s) (ledger_entries_seq s)
          (price_history_seq s))).

(** [tx.Commit()]: a commit that fails leaves nothing of the transaction. *)
Definition Commit (snapshot : Store) : M unit :=
  r <- attempt (db_exec (fun s => inr (tt, s))) ;;
  match r with
  | inl err => _ <- Rollback snapshot ;; fail err
  | inr _ => ret tt
  end.

Definition duplicate_of (userID : Z) (symbol : string) (quantity : Decimal)
    (timestamp : Time) (r : reward_events_row) : bool :=
  is_live r
  && (re_user_id r =? userID)
  && String.eqb (re_stock_symbol r) symbol
  && Equal (of_numeric 6 (re_quantity r)) quantity
  && (re_timestamp r =? timestamp).

Definition CreateReward (userID : Z) (symbol : string) (quantity : Decimal)
    (timestamp : Time) : M unit :=
  match ValidateStockSymbol symbol with
  | Some err => fail (Wrapf "invalid stock symbol" err)
  | None =>
  match ValidateQuantity quantity with
  | Some err => fail (Wrapf "invalid quantity" err)
  | None =>
  let quantity := Round quantity 6 in
  r <- attempt
         (db_query (fun s =>
            first_or_not_found
              (first_by (fun r b => re_id r <? re_id b)
                 (List.filter (duplicate_of userID symbol quantity timestamp)
                    (reward_events s))))) ;;
  match r with
  | inr _ => fail (Errorf "duplicate reward: identical reward already exists")
  | inl err =>
  if negb (errors_Is_RecordNotFound err)
  then fail (Wrapf "failed to check for duplicates" err)
  else
  r <- attempt (GetCurrentPrice symbol) ;;
  match r with
  | inl err => fail (Wrapf "failed to get stock price" err)
  | inr pricePerShare =>
  fun w =>
  let snapshot := store w in                        (* tx := db.DB.Begin() *)
  (let rewardEvent := mkRewardEvent 0 userID symbol quantity timestamp None in
   r <- attempt (db_exec (fun s => insert_reward s rewardEvent)) ;;
   match r with
   | inl err =>
       _ <- Rollback snapshot ;;
       fail (Wrapf "failed to create reward event" err)
   | inr rewardEvent =>
   r <- attempt (createLedgerEntriesInTx rewardEvent pricePerShare) ;;
   match r with
   | inl err =>
       _ <- Rollback snapshot ;;
       fail (Wrapf "failed to create ledger entries" err)
   | inr _ =>
   r <- attempt (Commit snapshot) ;;
   match r with
   | inl err => fail (Wrapf "failed to commit transaction" err)
   | inr _ => ret tt
   end end end) w
  end end end end.

(** [ORDER BY timestamp DESC]. *)
Fixpoint insert_desc (r : reward_events_row) (l : list reward_events_row)
    : list reward_events_row :=
  match l with
  | [] => [r]
  | x :: l' =>
      if re_timestamp x <? re_timestamp r then r :: l
      else x :: insert_desc r l'
  end.

Definition order_by_timestamp_desc (l : list reward_events_row)
    : list reward_events_row :=
  fold_right insert_desc [] l.

Definition GetTodayRewards (userID : Z) : M (list RewardEvent) :=
  t <- NowUTC ;;
  let startOfDay := StartOfDayUTC t in
  let endOfDay := EndOfDayUTC t in
  r <- attempt
         (db_query (fun s =>
            inr (map scan_reward
                   (order_by_timestamp_desc
                      (List.filter
                         (fun r => is_live r && (re_user_id r =? userID)
                                   && (startOfDay <=? re_timestamp r)
                                   && (re_timestamp r <=? endOfDay))
                         (reward_events s)))))) ;;
  match r with
  | inl err => fail (Wrapf "failed to fetch today's rewards" err)
  | inr rewards => ret rewards
  end.

(** One element of the result of [GetHistoricalINR].  The field [date]
    is the day whose name [utils.GetDateString] formats. *)
Record DailyValue : Type := mkDailyValue { date : Time; valueINR : Decimal }.

(** [for symbol, qty := range holdings { ... }] of [GetHistoricalINR] and
    of [GetStats]: both add [price * qty] for every symbol whose price is
    found and skip the others.  The order in which Go visits a map is
    not fixed; the embedding visits it in the order of [map_to_list]. *)
Fixpoint sum_values (priceOf : string -> M Decimal)
    (holdings : list (string * Decimal)) (totalValue : Decimal) : M Decimal :=
  match holdings with
  | [] => ret totalValue
  | (symbol, qty) :: rest =>
      r <- attempt (priceOf symbol) ;;
      match r with
      | inl _ => sum_values priceOf rest totalValue            (* continue *)
      | inr price =>
          let value := Mul price qty in
          sum_values priceOf rest (Add totalValue value)
      end
  end.

(** [for _, date := range dates { ... }] of [GetHistoricalINR]. *)
Fixpoint GetHistoricalINR_loop (userID : Z) (dates : list Time)
    (result : list DailyValue) : M (list DailyValue) :=
  match dates with
  | [] => ret result
  | date :: rest =>
      let endOfDate := EndOfDayUTC date in
      r <- attempt (GetUserStockHoldingsUpToDate userID endOfDate) ;;
      match r with
      | inl _ => GetHistoricalINR_loop userID rest result      (* continue *)
      | inr holdings =>
          totalValue <- sum_values (fun symbol => GetPriceAtTime symbol endOfDate)
                          (map_to_list holdings) Zero ;;
          GetHistoricalINR_loop userID rest
            (result ++ [mkDailyValue date (RoundINR totalValue)])
      end
  end.

Definition GetHistoricalINR (userID : Z) : M (list DailyValue) :=
  t <- NowUTC ;;
  let yesterday := GetYesterday t in
  r <- attempt
         (db_query (fun s =>
            first_or_not_found
              (first_by reward_older
                 (List.filter (fun r => is_live r && (re_user_id r =? userID))
                    (reward_events s))))) ;;
  match r with
  | inl err =>
      if errors_Is_RecordNotFound err then ret []
      else fail (Wrapf "failed to fetch first reward" err)
  | inr row =>
      let firstReward := scan_reward row in
      let startDate := StartOfDayUTC (RewardEvent_Timestamp firstReward) in
      let dates := GetPastDates startDate yesterday in
      GetHistoricalINR_loop userID dates []
  end.

Record Stats : Type := mkStats
  { Stats_userId : Z;
    todayRewards : gmap string Decimal;
    portfolioValueINR : Decimal }.

Definition GetStats (userID : Z) : M Stats :=
  todayRewards <- GetTodayRewards userID ;;
  let todayRewardsByStock :=
    fold_left
      (fun (m : gmap string Decimal) reward =>
         match m !! RewardEvent_StockSymbol reward with
         | Some current =>
             <[RewardEvent_StockSymbol reward :=
                 Add current (RewardEvent_Quantity reward)]> m
         | None =>
             <[RewardEvent_StockSymbol reward := RewardEvent_Quantity reward]> m
         end)
      todayRewards ∅ in
  r <- attempt (GetUserStockHoldings userID) ;;
  match r with
  | inl err => fail (Wrapf "failed to get holdings" err)
  | inr holdings =>
      totalValue <- sum_values GetCurrentPrice (map_to_list holdings) Zero ;;
      ret (mkStats userID todayRewardsByStock (RoundINR totalValue))
  end.

Record PortfolioItem : Type := mkPortfolioItem
  { item_symbol : string;
    item_quantity : Decimal;
    currentPrice : Decimal;
    currentValue : Decimal }.

Record Portfolio : Type := mkPortfolio
  { Portfolio_userId : Z;
    Portfolio_holdings : list PortfolioItem;
    totalValue : Decimal }.

(** [for symbol, qty := range holdings { ... }] of [GetPortfolio]. *)
Fixpoint GetPortfolio_loop (holdings : list (string * Decimal))
    (portfolioItems : list PortfolioItem) (totalValue : Decimal)
    : M (list PortfolioItem * Decimal) :=
  match holdings with
  | [] => ret (portfolioItems, totalValue)
  | (symbol, qty) :: rest =>
      r <- attempt (GetCurrentPrice symbol) ;;
      match r with
      | inl _ => GetPortfolio_loop rest portfolioItems totalValue   (* continue *)
      | inr price =>
          let value := Mul price qty in
          GetPortfolio_loop rest
            (portfolioItems ++
               [mkPortfolioItem symbol qty (RoundINR price) (RoundINR value)])
            (Add totalValue value)
      end
  end.

Definition GetPortfolio (userID : Z) : M Portfolio :=
  r <- attempt (GetUserStockHoldings userID) ;;
  match r with
  | inl err => fail (Wrapf "failed to get holdings" err)
  | inr holdings =>
      res <- GetPortfolio_loop (map_to_list holdings) [] Zero ;;
      ret (mkPortfolio userID (fst res) (RoundINR (snd res)))
  end.

(** ** price_service.go, the scheduled update and the prices of a day *)

(** [for symbol := range pg.basePrices { prices[symbol] = pg.GeneratePrice(symbol) }] *)
Fixpoint GeneratePricesForAllStocks_loop (symbols : list string)
    (prices : gmap string Decimal) : M (gmap string Decimal) :=
  match symbols with
  | [] => ret prices
  | symbol :: rest =>
      price <- GeneratePrice symbol ;;
      GeneratePricesForAllStocks_loop rest (<[symbol := price]> prices)
  end.

Definition GeneratePricesForAllStocks : M (gmap string Decimal) :=
  fun w =>
    GeneratePricesForAllStocks_loop
      (map fst (map_to_list (basePrices (generator w)))) ∅ w.

(** [for symbol, price := range prices { ... }] of [UpdateAllPrices]: a
    price that cannot be saved is logged and skipped. *)
Fixpoint UpdateAllPrices_loop (prices : list (string * Decimal)) : M unit :=
  match prices with
  | [] => ret tt
  | (symbol, price) :: rest =>
      _ <- attempt (SavePrice symbol price) ;;                (* continue *)
      UpdateAllPrices_loop rest
  end.

Definition UpdateAllPrices : M unit :=
  prices <- GeneratePricesForAllStocks ;;
  UpdateAllPrices_loop (map_to_list prices).

Definition GetPricesForDate (date : Time) : M (gmap string Decimal) :=
  let startOfDay := StartOfDayUTC date in
  let endOfDay := EndOfDayUTC date in
  r <- attempt
         (db_query (fun s =>
            inr (map scan_price (latest_per_symbol s startOfDay endOfDay)))) ;;
  match r with
  | inl err => fail (Wrapf "failed to fetch prices for date" err)
  | inr prices =>
      ret (fold_left
             (fun (priceMap : gmap string Decimal) p =>
                <[PriceHistory_StockSymbol p := PriceINR p]> priceMap)
             prices ∅)
  end.

(** ** ledger_service.go, the entries of a grant outside a transaction *)

Definition CreateLedgerEntries (rewardEvent : RewardEvent)
    (pricePerShare : Decimal) : M unit :=
  let quantity := RewardEvent_Quantity rewardEvent in
  let symbol := RewardEvent_StockSymbol rewardEvent in
  let timestamp := RewardEvent_Timestamp rewardEvent in
  let totalValue := Mul pricePerShare quantity in
  let totalValue := RoundINR totalValue in
  let totalFees := total (CalculateFees pricePerShare quantity) in
  let entries :=
    [ mkLedgerEntry 0 (RewardEvent_ID rewardEvent) EntryTypeStock (Some symbol)
        quantity totalValue timestamp;
      mkLedgerEntry 0 (RewardEvent_ID rewardEvent) EntryTypeCash (Some symbol)
        Zero (Neg totalValue) timestamp;
      mkLedgerEntry 0 (RewardEvent_ID rewardEvent) EntryTypeFee (Some symbol)
        Zero (Neg totalFees) timestamp ] in
  r <- attempt
         (db_exec (fun s =>
            match insert_ledger_entries s entries with
            | inl e => inl e
            | inr s' => inr (tt, s')
            end)) ;;
  match r with
  | inl err => fail (Wrapf "failed to create ledger entries" err)
  | inr _ => ret tt
  end.

End services.

(* ===================================================================== *)
(** * Package controllers                                                 *)
(* ===================================================================== *)

Module controllers.
Import decimal utils models db services.

(** [err.Error()]: [fmt.Errorf("msg: %w", err)] prints its message, a
    colon and the text of the cause; the two errors of gorm have fixed
    texts; [driver] is the text of an error of the store. *)
Fixpoint Error (driver : string) (e : error) : string :=
  match e with
  | ErrRecordNotFound => "record not found"
  | ErrEmptySlice => "empty slice found"
  | ErrStore => driver
  | Errorf msg => msg
  | Wrapf msg cause => String.append msg (String.append ": " (Error driver cause))
  end.

Definition StatusOK : Z := 200.
Definition StatusBadRequest : Z := 400.
Definition StatusConflict : Z := 409.
Definition StatusInternalServerError : Z := 500.

(** The body of [POST /reward] once gin has bound it: the quantity is the
    decimal [decimal.NewFromFloat] makes of the number sent, the
    timestamp is what [time.Parse(time.RFC3339, _)] makes of the text
    sent, [None] when it reports an error. *)
Record CreateRewardRequest : Type := mkCreateRewardRequest
  { Req_UserID : Z;
    Req_Symbol : string;
    Req_Quantity : Decimal;
    Req_Timestamp : option Time }.

(** [CreateReward]: the status of the response; [req] is [None] when
    [ShouldBindJSON] reports an error. *)
Definition CreateReward (driver : string) (req : option CreateRewardRequest)
    : World -> Z * World :=
  fun w =>
    match req with
    | None => (StatusBadRequest, w)
    | Some req =>
        match Req_Timestamp req with
        | None => (StatusBadRequest, w)
        | Some timestamp =>
            let quantity := Req_Quantity req in
            match services.CreateReward (Req_UserID req) (Req_Symbol req)
                    quantity timestamp w with
            | (inl err, w') =>
                if String.eqb (Error driver err)
                     "duplicate reward: identical reward already exists"
                then (StatusConflict, w')
                else (StatusInternalServerError, w')
            | (inr _, w') => (StatusOK, w')
            end
        end
    end.

(** The four [GET] handlers: [userID] is what [strconv.Atoi] makes of the
    path parameter, [None] when it reports an error. *)
Definition GetTodayStocks (userID : option Z) : World -> Z * World :=
  fun w =>
    match userID with
    | None => (StatusBadRequest, w)
    | Some userID =>
        match GetTodayRewards userID w with
        | (inl _, w') => (StatusInternalServerError, w')
        | (inr _, w') => (StatusOK, w')
        end
    end.

Definition GetHistoricalINR (userID : option Z) : World -> Z * World :=
  fun w =>
    match userID with
    | None => (StatusBadRequest, w)
    | Some userID =>
        match services.GetHistoricalINR userID w with
        | (inl _, w') => (StatusInternalServerError, w')
        | (inr _, w') => (StatusOK, w')
        end
    end.

Definition GetStats (userID : option Z) : World -> Z * World :=
  fun w =>
    match userID with
    | None => (StatusBadRequest, w)
    | Some userID =>
        match services.GetStats userID w with
        | (inl _, w') => (StatusInternalServerError, w')
        | (inr _, w') => (StatusOK, w')
        end
    end.

Definition GetPortfolio (userID : option Z) : World -> Z * World :=
  fun w =>
    match userID with
    | None => (StatusBadRequest, w)
    | Some userID =>
        match services.GetPortfolio userID w with
        | (inl _, w') => (StatusInternalServerError, w')
        | (inr _, w') => (StatusOK, w')
        end
    end.

End controllers.

(* ===================================================================== *)
(** * Reference definitions, in the words of the specification            *)
(* ===================================================================== *)

Module spec.
Import decimal utils models db services.

(** Rounding of a rational to [places] decimals, half away from zero:
    the integer number of units [10^-places]. *)
Definition round_half_away (x : Q) (places : Z) : Z :=
  let y := (x * 10 ^ places)%Q in
  if Qle_bool 0 y then Qfloor (y + (1 # 2)) else - Qfloor (- y + (1 # 2)).

(** The same on a coefficient and an exponent: [v * 10^s] rounded to an
    integer, half away from zero. *)
Definition round_units (v s : Z) : Z :=
  if 0 <=? s then v * 10 ^ s
  else let D := 10 ^ (- s) in Z.sgn v * ((2 * Z.abs v + D) / (2 * D)).

(** The fee formula on rationals, before any rounding. *)
Definition fee_brokerage (totalValue : Q) : Q :=
  let b := ((3 # 10000) * totalValue)%Q in
  if Qle_bool b 20 then b else 20%Q.
Definition fee_stt (totalValue : Q) : Q := ((1 # 1000) * totalValue)%Q.
Definition fee_gst (brokerage : Q) : Q := ((18 # 100) * brokerage)%Q.

(** "Each component independently rounded to 4 decimals before summing
    into totalFees; final total also rounded to 4 decimals." *)
Definition total_is_sum_of_rounded_components (f : Fees) : Prop :=
  total f = Round (Add (Add (brokerage f) (stt f)) (gst f)) 4.

(** "Synthesizes one via the generator, persists it, and returns it.
    Persisting a generated price also updates the generator's rolling
    base price for that symbol." *)
Definition synthesize_price (symbol : string) (w : World) : Decimal * World :=
  let '(price, pg) :=
    utils.GeneratePrice (generator w) symbol (draws w (drawn w)) in
  (price,
   mkWorld
     (mkStore (reward_events (store w)) (ledger_entries (store w))
        (price_history (store w) ++
           [mk_price_history_row (price_history_seq (store w)) symbol
              (value price) (now w)])
        (reward_events_seq (store w)) (ledger_entries_seq (store w))
        (price_history_seq (store w) + 1))
     (UpdateBasePrice pg symbol price)
     (draws w) (S (drawn w)) (now w) (faults w)).

(** The grants, the ledger, their sequences and the clock are the same. *)
Definition same_ledger (w w' : World) : Prop :=
  reward_events (store w') = reward_events (store w)
  /\ ledger_entries (store w') = ledger_entries (store w)
  /\ reward_events_seq (store w') = reward_events_seq (store w)
  /\ ledger_entries_seq (store w') = ledger_entries_seq (store w)
  /\ now w' = now w.

(** The live grants with a given deduplication key, and the ledger rows
    that belong to them. *)
Definition grants_with (userID : Z) (symbol : string) (quantity : Decimal)
    (timestamp : Time) (s : Store) : list reward_events_row :=
  List.filter (duplicate_of userID symbol quantity timestamp) (reward_events s).

Definition entries_of_grants_with (userID : Z) (symbol : string)
    (quantity : Decimal) (timestamp : Time) (s : Store)
    : list ledger_entries_row :=
  List.filter
    (fun le =>
       existsb
         (fun re => duplicate_of userID symbol quantity timestamp re
                    && (re_id re =? le_reward_event_id le))
         (reward_events s))
    (ledger_entries s).

(** The error the controller maps to a conflict. *)
Definition DuplicateGrant : error :=
  Errorf "duplicate reward: identical reward already exists".

(** "Submitting the identical (user, symbol, quantity after rounding,
    timestamp) tuple twice yields one success and one DuplicateGrant." *)
Definition one_success_one_duplicate (userID : Z) (symbol : string)
    (q1 q2 : Decimal) (timestamp : Time) (w : World) : Prop :=
  Round q1 6 = Round q2 6 ->
  let '(r1, w1) := CreateReward userID symbol q1 timestamp w in
  let '(r2, w2) := CreateReward userID symbol q2 timestamp w1 in
  r1 = inr tt /\ r2 = inl DuplicateGrant.

(** The store without the ledger rows of one grant. *)
Definition without_reward (id : Z) (s : Store) : Store :=
  mkStore (reward_events s)
    (List.filter (fun le => negb (le_reward_event_id le =? id)) (ledger_entries s))
    (price_history s) (reward_events_seq s) (ledger_entries_seq s)
    (price_history_seq s).

(** "A new entry for each with quantity and amount negated and timestamp
    set to now": the rows a reversal of [rows] writes, numbered from
    [first]. *)
Fixpoint reversal_rows (first : Z) (t : Time) (rows : list ledger_entries_row)
    : list ledger_entries_row :=
  match rows with
  | [] => []
  | o :: rest =>
      mk_ledger_entries_row first (le_reward_event_id o) (le_entry_type o)
        (le_stock_symbol o) (- le_quantity o) (- le_amount_inr o) t
      :: reversal_rows (first + 1) t rest
  end.

Definition sum_amount (rows : list ledger_entries_row) : Z :=
  fold_right Z.add 0 (map le_amount_inr rows).

Definition of_kind (k : EntryType) (rows : list ledger_entries_row)
    : list ledger_entries_row :=
  List.filter (fun le => EntryType_eqb (le_entry_type le) k) rows.

(** [n] invocations of the reversal of one grant, one after the other. *)
Fixpoint reverse_times (n : nat) (rewardEvent : RewardEvent) : M unit :=
  match n with
  | O => ret tt
  | S n' =>
      _ <- CreateReversalEntries rewardEvent ;;
      reverse_times n' rewardEvent
  end.

(** A class of rows: a test that reads only the grant, the kind and the
    symbol of a row. *)
Definition row_class (P : ledger_entries_row -> bool) : Prop :=
  forall a b,
    le_reward_event_id a = le_reward_event_id b ->
    le_entry_type a = le_entry_type b ->
    le_stock_symbol a = le_stock_symbol b ->
    P a = P b.

(** "One entry per UTC day from the first grant's day through yesterday":
    the days from [first] through [last], each by its first instant. *)
Definition days_from_through (first last : Time) : list Time :=
  map (fun i => first + Z.of_nat i * nsPerDay)
    (seq 0 (Z.to_nat ((last - first) / nsPerDay + 1))).

(** "Multiply each symbol's holding by priceAt(symbol, endOfThatDay), sum":
    a failed lookup fails the sum. *)
Fixpoint sum_over (priceAt : string -> M Decimal)
    (holdings : list (string * Decimal)) (acc : Decimal) : M Decimal :=
  match holdings with
  | [] => ret acc
  | (symbol, qty) :: rest =>
      price <- priceAt symbol ;;
      sum_over priceAt rest (Add acc (Mul price qty))
  end.

(** "Compute holdings as of the end of that day (holdingsAsOf), multiply
    each symbol's holding by priceAt(symbol, endOfThatDay), sum, round to
    4 decimals." *)
Definition daily_value (userID : Z) (day : Time) : M DailyValue :=
  holdings <- GetUserStockHoldingsUpToDate userID (EndOfDayUTC day) ;;
  sum <- sum_over (fun symbol => GetPriceAtTime symbol (EndOfDayUTC day))
           (map_to_list holdings) Zero ;;
  ret (mkDailyValue day (Round sum 4)).

Fixpoint for_each_day (f : Time -> M DailyValue) (days : list Time)
    : M (list DailyValue) :=
  match days with
  | [] => ret []
  | day :: rest =>
      v <- f day ;;
      vs <- for_each_day f rest ;;
      ret (v :: vs)
  end.

(** The user's first-ever grant. *)
Definition first_grant (userID : Z) (s : Store) : option reward_events_row :=
  first_by reward_older
    (List.filter (fun r => is_live r && (re_user_id r =? userID)) (reward_events s)).

(** [historicalDailyValue(userId)]. *)
Definition historicalDailyValue (userID : Z) : M (list DailyValue) :=
  fun w =>
    match first_grant userID (store w) with
    | None => (inr [], w)
    | Some g =>
        for_each_day (daily_value userID)
          (days_from_through (StartOfDayUTC (re_timestamp g)) (GetYesterday (now w)))
          w
    end.

(** A lookup that answers whenever the store does. *)
Definition answers (priceOf : string -> M Decimal) : Prop :=
  forall symbol w,
    faults w = [] ->
    exists p wp, priceOf symbol w = (inr p, wp) /\ faults wp = [] /\ same_ledger w wp.

(** "A failed read returns an error rather than partial/zeroed data", for
    the portfolio and a failed price lookup. *)
Definition portfolio_fails_when_price_fails (userID : Z) (w : World) : Prop :=
  forall holdings w1,
    GetUserStockHoldings userID w = (inr holdings, w1) ->
    (exists symbol e,
        is_Some (holdings !! symbol) /\ fst (GetCurrentPrice symbol w1) = inl e) ->
    exists e, fst (GetPortfolio userID w) = inl e.

(** "After the n-th invocation the grant has 3 + 3n entries." *)
Definition has_three_more_per_reversal (n : nat) (rewardEvent : RewardEvent)
    (w : World) : Prop :=
  length (entries_of_reward (RewardEvent_ID rewardEvent)
            (store (snd (reverse_times n rewardEvent w))))
  = (3 + 3 * n)%nat.

(** The samples of a symbol. *)
Definition samples_of (symbol : string) (s : Store) : list price_history_row :=
  List.filter (price_of_symbol symbol) (price_history s).

(** ** Notions used by the further properties of the code *)

(** The messages with which [CreateReward] wraps an error. *)
Definition CreateReward_failures : list string :=
  [ "invalid stock symbol"; "invalid quantity"; "failed to check for duplicates";
    "failed to get stock price"; "failed to create reward event";
    "failed to create ledger entries"; "failed to commit transaction" ]%string.

(** The grants and the ledger are the same, and the price samples of [w]
    are the first price samples of [w']. *)
Definition only_adds_prices (w w' : World) : Prop :=
  same_ledger w w'
  /\ price_history (store w) `prefix_of` price_history (store w').

(** The columns of the unique index [idx_reward_dedup]. *)
Definition dedup_key (r : reward_events_row) : Z * string * Z * Time :=
  (re_user_id r, re_stock_symbol r, re_quantity r, re_timestamp r).

(** The ledger rows of kind [k] that belong to the grant [id]. *)
Definition entries_of_kind (k : EntryType) (id : Z) (s : Store)
    : list ledger_entries_row :=
  of_kind k (entries_of_reward id s).

(** A store as the services keep it: primary keys come from the
    sequences and are not reused; every ledger entry belongs to a grant
    and every grant has a stock, a cash and a fee entry; only stock
    entries carry a quantity; for every grant the amounts of the stock
    and of the cash entries cancel; no two live grants agree on the
    columns of [idx_reward_dedup]; and every grant has a symbol of 1 to 20
    bytes and a quantity of at most 10000 shares. *)
Record Store_wf (s : Store) : Prop := mk_Store_wf
  { reward_ids_issued :
      Forall (fun r => re_id r < reward_events_seq s) (reward_events s);
    reward_ids_unique : NoDup (map re_id (reward_events s));
    ledger_ids_issued :
      Forall (fun le => le_id le < ledger_entries_seq s) (ledger_entries s);
    ledger_ids_unique : NoDup (map le_id (ledger_entries s));
    entries_have_grant :
      Forall
        (fun le => exists r, In r (reward_events s)
                             /\ re_id r = le_reward_event_id le)
        (ledger_entries s);
    grants_have_entries :
      Forall (fun r => forall k, entries_of_kind k (re_id r) s <> [])
        (reward_events s);
    quantity_on_stock_only :
      Forall (fun le => le_entry_type le <> EntryTypeStock -> le_quantity le = 0)
        (ledger_entries s);
    stock_and_cash_cancel :
      forall id,
        sum_amount (entries_of_kind EntryTypeStock id s)
        + sum_amount (entries_of_kind EntryTypeCash id s) = 0;
    live_grants_distinct :
      NoDup (map dedup_key (List.filter is_live (reward_events s)));
    grants_validated :
      Forall
        (fun r => 0 <= re_quantity r <= 10000 * 10 ^ 6
                  /\ (1 <= String.length (re_stock_symbol r) <= 20)%nat)
        (reward_events s) }.

(** The methods of the three services, but [CreateLedgerEntries], which
    writes the entries of a grant it is handed and which no service
    calls. *)
Inductive call : Type :=
| CallCreateReward (userID : Z) (symbol : string) (quantity : Decimal)
    (timestamp : Time)
| CallCreateReversalEntries (rewardEvent : RewardEvent)
| CallGetTodayRewards (userID : Z)
| CallGetHistoricalINR (userID : Z)
| CallGetStats (userID : Z)
| CallGetPortfolio (userID : Z)
| CallGetUserStockHoldings (userID : Z)
| CallGetUserStockHoldingsUpToDate (userID : Z) (endDate : Time)
| CallGetCurrentPrice (symbol : string)
| CallGetPriceAtTime (symbol : string) (timestamp : Time)
| CallSavePrice (symbol : string) (price : Decimal)
| CallUpdateAllPrices
| CallGetPricesForDate (date : Time).

(** The state a call leaves. *)
Definition after (c : call) (w : World) : World :=
  match c with
  | CallCreateReward userID symbol quantity timestamp =>
      snd (CreateReward userID symbol quantity timestamp w)
  | CallCreateReversalEntries rewardEvent =>
      snd (CreateReversalEntries rewardEvent w)
  | CallGetTodayRewards userID => snd (GetTodayRewards userID w)
  | CallGetHistoricalINR userID => snd (GetHistoricalINR userID w)
  | CallGetStats userID => snd (GetStats userID w)
  | CallGetPortfolio userID => snd (GetPortfolio userID w)
  | CallGetUserStockHoldings userID => snd (GetUserStockHoldings userID w)
  | CallGetUserStockHoldingsUpToDate userID endDate =>
      snd (GetUserStockHoldingsUpToDate userID endDate w)
  | CallGetCurrentPrice symbol => snd (GetCurrentPrice symbol w)
  | CallGetPriceAtTime symbol timestamp => snd (GetPriceAtTime symbol timestamp w)
  | CallSavePrice symbol price => snd (SavePrice symbol price w)
  | CallUpdateAllPrices => snd (UpdateAllPrices w)
  | CallGetPricesForDate date => snd (GetPricesForDate date w)
  end.


(** The states the services reach from an empty store: between two calls
    the clock may move and the store may start or stop failing. *)
Inductive reachable : World -> Prop :=
| reachable_empty pg draws drawn t fs :
    reachable (mkWorld db.empty pg draws drawn t fs)
| reachable_call w c t fs :
    reachable w ->
    reachable
      (after c (mkWorld (store w) (generator w) (draws w) (drawn w) t fs)).

(** [SUM(le.quantity)] of the group of [symbol] in the holdings query of
    a user, before [HAVING]: the user's net quantity of the symbol. *)
Definition net_quantity (s : Store) (userID : Z) (endDate : option Time)
    (symbol : string) : Z :=
  sum_quantity (List.filter (has_symbol symbol) (holdings_rows s userID endDate)).

(** The live grants of a user on the UTC day of [now]. *)
Definition today_grants (s : Store) (userID : Z) (now : Time)
    : list reward_events_row :=
  List.filter
    (fun r => is_live r && (re_user_id r =? userID) && IsToday now (re_timestamp r))
    (reward_events s).

(** Instants from the latest to the earliest. *)
Fixpoint descending (ts : list Time) : Prop :=
  match ts with
  | [] => True
  | t :: rest => Forall (fun u => u <= t) rest /\ descending rest
  end.

(** The grants of one symbol, and the quantity they grant together, in
    units of [10^-6]. *)
Definition of_symbol (symbol : string) (rows : list reward_events_row)
    : list reward_events_row :=
  List.filter (fun r => String.eqb (re_stock_symbol r) symbol) rows.

Definition sum_granted (rows : list reward_events_row) : Z :=
  fold_right Z.add 0 (map re_quantity rows).

(** The value of the items of a portfolio: the sum of price times
    quantity, not rounded. *)
Definition items_value (items : list PortfolioItem) : Decimal :=
  fold_left (fun acc it => Add acc (Mul (currentPrice it) (item_quantity it)))
    items Zero.

(** The samples that saving [prices] at the instant [t] adds, numbered
    from [first]. *)
Fixpoint price_rows (first : Z) (t : Time) (prices : list (string * Decimal))
    : list price_history_row :=
  match prices with
  | [] => []
  | (symbol, price) :: rest =>
      mk_price_history_row first symbol (value price) t
      :: price_rows (first + 1) t rest
  end.

(** Instants from the earliest to the latest, none twice. *)
Fixpoint increasing (ts : list Time) : Prop :=
  match ts with
  | [] => True
  | t :: rest => Forall (fun u => t < u) rest /\ increasing rest
  end.

(** ** Notions of the policy of the read queries on a failed lookup *)

(** The store answers the next request, and [fs] is the schedule of
    faults that is left. *)
Definition answered (w : World) (fs : list bool) : Prop :=
  faults w = false :: fs \/ (faults w = [] /\ fs = []).

(** The price the store holds for a symbol at the clock of [w]: that of
    the newest sample of the symbol, when there is one and it is at most
    two hours old. *)
Definition stored_price (symbol : string) (w : World) : option Decimal :=
  match first_by price_newer (samples_of symbol (store w)) with
  | Some row =>
      if now w - ph_timestamp row >? 2 * Hour then None
      else Some (of_numeric 4 (ph_price_inr row))
  | None => None
  end.

(** The newest sample of a symbol at or before an instant. *)
Definition sample_before (symbol : string) (timestamp : Time) (s : Store)
    : option price_history_row :=
  first_by price_newer
    (List.filter
       (fun r => price_of_symbol symbol r && (ph_timestamp r <=? timestamp))
       (price_history s)).

(** The price lookup of one holding and how it ended. *)
Record PriceLookup : Type := mkPriceLookup
  { lookup_symbol : string;
    lookup_quantity : Decimal;
    lookup_outcome : error + Decimal }.

(** The price lookups of the holdings, one after the other, each in the
    state the earlier ones have left. *)
Fixpoint lookup_prices (priceOf : string -> M Decimal)
    (holdings : list (string * Decimal)) (w : World)
    : list PriceLookup * World :=
  match holdings with
  | [] => ([], w)
  | (symbol, qty) :: rest =>
      let '(r, w1) := priceOf symbol w in
      let '(lookups, w') := lookup_prices priceOf rest w1 in
      (mkPriceLookup symbol qty r :: lookups, w')
  end.

(** "A failed price lookup is logged and that symbol is left out": the
    holdings whose price was found, each with its price. *)
Definition priced (lookups : list PriceLookup)
    : list (string * Decimal * Decimal) :=
  omap
    (fun l =>
       match lookup_outcome l with
       | inr price => Some (lookup_symbol l, lookup_quantity l, price)
       | inl _ => None
       end)
    lookups.

(** The sum of price times quantity over the holdings that have a price,
    and the portfolio items made of them. *)
Definition add_priced (acc : Decimal) (h : string * Decimal * Decimal) : Decimal :=
  let '(_, qty, price) := h in Add acc (Mul price qty).

Definition sum_priced (found : list (string * Decimal * Decimal)) : Decimal :=
  fold_left add_priced found Zero.

Definition items_priced (found : list (string * Decimal * Decimal))
    : list PortfolioItem :=
  map (fun '(symbol, qty, price) =>
         mkPortfolioItem symbol qty (RoundINR price) (RoundINR (Mul price qty)))
    found.

(** The holdings lookup of one day and how it ended: an error, or the
    price lookups of the holdings found. *)
Record DayLookup : Type := mkDayLookup
  { lookup_day : Time;
    day_outcome : error + list PriceLookup }.

(** The lookups of the days, one day after the other. *)
Fixpoint lookup_days (userID : Z) (dates : list Time) (w : World)
    : list DayLookup * World :=
  match dates with
  | [] => ([], w)
  | day :: rest =>
      let endOfDate := EndOfDayUTC day in
      match GetUserStockHoldingsUpToDate userID endOfDate w with
      | (inl e, w1) =>
          let '(days, w') := lookup_days userID rest w1 in
          (mkDayLookup day (inl e) :: days, w')
      | (inr holdings, w1) =>
          let '(lookups, w2) :=
            lookup_prices (fun symbol => GetPriceAtTime symbol endOfDate)
              (map_to_list holdings) w1 in
          let '(days, w') := lookup_days userID rest w2 in
          (mkDayLookup day (inr lookups) :: days, w')
      end
  end.

(** "A failed holdings lookup leaves that day out": the days whose
    holdings were found, each with the rounded sum over the holdings that
    have a price. *)
Definition days_valued (days : list DayLookup) : list DailyValue :=
  omap
    (fun d =>
       match day_outcome d with
       | inr lookups =>
           Some (mkDailyValue (lookup_day d) (RoundINR (sum_priced (priced lookups))))
       | inl _ => None
       end)
    days.

(** ** Notions of the valuation at the prices the store holds *)

(** The sum of a list of rationals. *)
Definition Qsum (l : list Q) : Q := fold_right Qplus 0%Q l.

(** The value of a holding at the price the store holds for its symbol. *)
Definition stored_value (w : World) (h : string * Decimal) : Q :=
  match stored_price (fst h) w with
  | Some price => (toQ price * toQ (snd h))%Q
  | None => 0%Q
  end.

End spec.

(* ===================================================================== *)
(** * Scenarios                                                           *)
(* ===================================================================== *)

Module scenario.
Import decimal utils models db services spec.

(** 2025-01-23T10:30:00Z and 2025-01-24T10:10:00Z. *)
Definition T : Time := 1737628200 * 1000000000.
Definition day_2025_01_23 : Time := 1737590400 * 1000000000.
Definition next_morning : Time := 1737713400 * 1000000000.

(** A fresh process on an empty store, the morning after [T]; every
    random draw is a variation of zero, so that a synthesized price is
    the base price. *)
Definition fresh : World :=
  mkWorld db.empty NewPriceGenerator (fun _ => New 0 0) 0 next_morning [].

(** Scenario A: reward(user 1, RELIANCE, 2.5, T) at the price 2450.50. *)
Definition after_A : World :=
  snd (CreateReward 1 "RELIANCE" (New 25 (-1)) T fresh).

(** The grant recorded by scenario A. *)
Definition grant_A : RewardEvent :=
  mkRewardEvent 1 1 "RELIANCE" (New 2500000 (-6)) T None.

(** The grant of scenario A reversed once, and twice, the morning
    after. *)
Definition after_reversal : World :=
  snd (CreateReversalEntries grant_A after_A).
Definition after_two_reversals : World :=
  snd (reverse_times 2 grant_A after_A).

(** Scenario D, second half: scenario A recorded on 2025-01-23 itself, the
    clock one hour after [T]. *)
Definition same_day : World :=
  snd (CreateReward 1 "RELIANCE" (New 25 (-1)) T
         (mkWorld db.empty NewPriceGenerator (fun _ => New 0 0) 0 (T + Hour) [])).

(** The state after scenario A with a store that answers the first
    request and fails the second, and one that answers two and fails the
    third. *)
Definition second_request_fails : World :=
  mkWorld (store after_A) (generator after_A) (draws after_A) (drawn after_A)
    (now after_A) [false; true].
Definition third_request_fails : World :=
  mkWorld (store after_A) (generator after_A) (draws after_A) (drawn after_A)
    (now after_A) [false; false; true].

(** Scenario C: the only sample of TCS is 3 hours old. *)
Definition stale_TCS : World :=
  mkWorld
    (mkStore [] []
       [mk_price_history_row 1 "TCS" 36807500 (next_morning - 3 * Hour)]
       1 1 2)
    NewPriceGenerator (fun _ => New 1 (-2)) 0 next_morning [].

(** The same sample, 2 hours old to the nanosecond. *)
Definition fresh_TCS : World :=
  mkWorld
    (mkStore [] []
       [mk_price_history_row 1 "TCS" 36807500 (next_morning - 2 * Hour)]
       1 1 2)
    NewPriceGenerator (fun _ => New 1 (-2)) 0 next_morning [].

(** A fresh process whose store answers four requests and fails the
    fifth: in [CreateReward] that is the insertion of the ledger
    entries. *)
Definition ledger_write_fails : World :=
  mkWorld db.empty NewPriceGenerator (fun _ => New 0 0) 0 next_morning
    [false; false; false; false; true].

(** Scenario A, then, the morning after and with a store that fails its
    second request, the reversal of the grant, then the reversal of a
    grant that does not exist. *)
Definition granted : World :=
  after (CallCreateReward 1 "RELIANCE" (New 25 (-1)) T)
    (mkWorld db.empty NewPriceGenerator (fun _ => New 0 0) 0 T []).
Definition granted_and_reversed : World :=
  after (CallCreateReversalEntries grant_A)
    (mkWorld (store granted) (generator granted) (draws granted) (drawn granted)
       next_morning []).
Definition three_calls : World :=
  after (CallCreateReversalEntries (mkRewardEvent 7 1 "TCS" (New 1 0) T None))
    (mkWorld (store granted_and_reversed) (generator granted_and_reversed)
       (draws granted_and_reversed) (drawn granted_and_reversed)
       next_morning [false; true]).

(** Two grants of one day, of 2.5 RELIANCE at [T] and of 1 TCS and of 0.5
    RELIANCE an hour later, the clock two hours after [T]. *)
Definition two_today : World :=
  let w0 := mkWorld db.empty NewPriceGenerator (fun _ => New 0 0) 0 (T + 2 * Hour) [] in
  let w1 := snd (CreateReward 1 "RELIANCE" (New 25 (-1)) T w0) in
  let w2 := snd (CreateReward 1 "TCS" (New 1 0) (T + Hour) w1) in
  snd (CreateReward 1 "RELIANCE" (New 5 (-1)) (T + Hour) w2).

(** The same state with a store that answers the first request and fails
    the second: in [GetPortfolio] that is the first price lookup. *)
Definition first_price_lookup_fails : World :=
  mkWorld (store two_today) (generator two_today) (draws two_today)
    (drawn two_today) (now two_today) [false; true].

End scenario.

Import decimal utils models db services spec.

(* ===================================================================== *)
(** * Facts about decimals                                                *)
(* ===================================================================== *)

(** Closed goals: split the conjunctions, then evaluate each part. *)
Ltac evaluate_conjuncts :=
  repeat match goal with |- _ /\ _ => split end; vm_compute; reflexivity.

Section DecimalFacts.

Lemma exp_rescale d e : exp (rescale d e) = e.
Proof.
  unfold rescale.
  destruct (Z.eqb_spec (exp d) e) as [Heq|Hne]; [exact Heq|].
  now destruct (e >? exp d).
Qed.

Lemma exp_Round d places : exp (Round d places) = - places.
Proof.
  unfold Round.
  destruct (Z.eqb_spec (exp d) (- places)) as [H|H]; [exact H|].
  cbn [exp]. rewrite exp_rescale. lia.
Qed.

Lemma Round_same_exp d places : exp d = - places -> Round d places = d.
Proof. intros H. unfold Round. now rewrite H, Z.eqb_refl. Qed.

Lemma Round_Round d places : Round (Round d places) places = Round d places.
Proof. apply Round_same_exp, exp_Round. Qed.

Lemma Qten_pow_pos (e : Z) : (0 < 10 ^ e)%Q.
Proof. now apply Qpower_0_lt. Qed.

Lemma Qten_pow_inject (n : Z) : 0 <= n -> (inject_Z (10 ^ n) == 10 ^ n)%Q.
Proof. intros H. now rewrite Zpower_Qpower. Qed.

Lemma toQ_Mul a b : (toQ (Mul a b) == toQ a * toQ b)%Q.
Proof.
  unfold toQ, Mul; cbn [value exp].
  rewrite inject_Z_mult, Qpower_plus by discriminate. ring.
Qed.

Lemma toQ_Neg a : (toQ (Neg a) == - toQ a)%Q.
Proof. unfold toQ, Neg; cbn [value exp]. rewrite inject_Z_opp. ring. Qed.

(** Rescaling to a finer exponent keeps the number. *)
Lemma toQ_rescale_exact d e : e <= exp d -> (toQ (rescale d e) == toQ d)%Q.
Proof.
  intros Hle. unfold rescale.
  destruct (Z.eqb_spec (exp d) e) as [Heq|Hne]; [reflexivity|].
  destruct (Z.gtb_spec e (exp d)) as [Hgt|_]; [lia|].
  unfold toQ; cbn [value exp].
  rewrite inject_Z_mult, Qten_pow_inject by lia.
  replace (Z.abs (e - exp d)) with (exp d - e) by lia.
  rewrite <- Qmult_assoc, <- Qpower_plus by discriminate.
  now replace (exp d - e + e) with (exp d) by lia.
Qed.

Lemma RescalePair_spec d1 d2 :
  let '(rd1, rd2) := RescalePair d1 d2 in
  exp rd1 = Z.min (exp d1) (exp d2) /\ exp rd2 = Z.min (exp d1) (exp d2) /\
  (toQ rd1 == toQ d1)%Q /\ (toQ rd2 == toQ d2)%Q.
Proof.
  unfold RescalePair.
  destruct (Z.eqb_spec (exp d1) (exp d2)) as [Heq|Hne].
  - repeat split; try reflexivity; lia.
  - destruct (Z.eqb_spec (Z.min (exp d1) (exp d2)) (exp d1)) as [Hmin|Hmin]; cbn [negb].
    + rewrite exp_rescale. repeat split; try reflexivity; try lia.
      apply toQ_rescale_exact; lia.
    + rewrite exp_rescale. repeat split; try reflexivity; try lia.
      apply toQ_rescale_exact; lia.
Qed.

Lemma toQ_same_exp v1 v2 e :
  (toQ (New v1 e) ?= toQ (New v2 e))%Q = (v1 ?= v2).
Proof.
  unfold toQ; cbn [value exp].
  pose proof (Qten_pow_pos e) as Hpos.
  destruct (Z.compare_spec v1 v2) as [Heq|Hlt|Hgt].
  - subst. apply Qeq_alt. reflexivity.
  - apply Qlt_alt. apply Qmult_lt_compat_r; [exact Hpos|].
    now rewrite <- Zlt_Qlt.
  - apply Qgt_alt. apply Qmult_lt_compat_r; [exact Hpos|].
    now rewrite <- Zlt_Qlt.
Qed.

(** [Cmp] compares the numbers denoted. *)
Lemma Cmp_toQ a b : Cmp a b = (toQ a ?= toQ b)%Q.
Proof.
  unfold Cmp. pose proof (RescalePair_spec a b) as H.
  destruct (RescalePair a b) as [ra rb].
  destruct H as (Ha & Hb & Hqa & Hqb).
  rewrite <- Hqa, <- Hqb.
  destruct ra as [va ea], rb as [vb eb]; cbn [value exp] in *.
  subst ea eb. symmetry. apply toQ_same_exp.
Qed.

Lemma toQ_Add a b : (toQ (Add a b) == toQ a + toQ b)%Q.
Proof.
  unfold Add. pose proof (RescalePair_spec a b) as H.
  destruct (RescalePair a b) as [ra rb].
  destruct H as (Ha & Hb & Hqa & Hqb).
  rewrite <- Hqa, <- Hqb.
  destruct ra as [va ea], rb as [vb eb]; cbn [value exp] in *.
  subst ea eb. unfold toQ; cbn [value exp].
  rewrite inject_Z_plus. ring.
Qed.

Lemma GreaterThan_toQ a b : GreaterThan a b = true <-> (toQ b < toQ a)%Q.
Proof.
  unfold GreaterThan. rewrite Cmp_toQ, Qgt_alt.
  destruct (toQ a ?= toQ b)%Q; split; congruence.
Qed.

Lemma GreaterThan_false_toQ a b : GreaterThan a b = false <-> (toQ a <= toQ b)%Q.
Proof.
  unfold GreaterThan. rewrite Cmp_toQ, Qle_alt.
  destruct (toQ a ?= toQ b)%Q; split; congruence.
Qed.

Lemma LessThanOrEqual_toQ a b : LessThanOrEqual a b = true <-> (toQ a <= toQ b)%Q.
Proof.
  unfold LessThanOrEqual. rewrite Cmp_toQ, Qle_alt.
  destruct (toQ a ?= toQ b)%Q; split; congruence.
Qed.

Lemma Equal_toQ a b : Equal a b = true <-> (toQ a == toQ b)%Q.
Proof.
  unfold Equal. rewrite Cmp_toQ, Qeq_alt.
  destruct (toQ a ?= toQ b)%Q; split; congruence.
Qed.

Lemma Equal_refl a : Equal a a = true.
Proof. apply Equal_toQ. reflexivity. Qed.

(** Two decimals with the same exponent are equal numbers only when
    they are the same decimal. *)
Lemma Equal_same_exp a b : exp a = exp b -> Equal a b = true -> a = b.
Proof.
  intros He H. unfold Equal in H. rewrite Cmp_toQ in H.
  destruct a as [va ea], b as [vb eb]; cbn [exp] in He; subst eb.
  rewrite toQ_same_exp in H.
  destruct (Z.compare_spec va vb); try discriminate. now subst.
Qed.

(** The last step of [Round]: a number of tenths to a number of units. *)
Lemma round_tenths x :
  (let v := if x <? 0 then x - 5 else x + 5 in
   let q := v / 10 in
   let m := v mod 10 in
   if (q <? 0) && negb (m =? 0) then q + 1 else q)
  = Z.sgn x * ((Z.abs x + 5) / 10).
Proof.
  cbv zeta.
  destruct (Z.ltb_spec x 0) as [Hx|Hx].
  - assert (Hq : (x - 5) / 10 < 0) by (apply Z.div_lt_upper_bound; lia).
    apply Z.ltb_lt in Hq as Hq'. rewrite Hq'. cbn [andb].
    rewrite Z.sgn_neg, Z.abs_neq by lia.
    destruct (Z.eqb_spec ((x - 5) mod 10) 0) as [Hm|Hm]; cbn [negb];
      Z.div_mod_to_equations; lia.
  - assert (Hq : 0 <= (x + 5) / 10) by (apply Z.div_pos; lia).
    apply Z.ltb_ge in Hq as Hq'. rewrite Hq'. cbn [andb].
    rewrite Z.abs_eq by lia.
    destruct (Z.eq_dec x 0) as [->|Hnz]; [reflexivity|].
    rewrite Z.sgn_pos by lia. lia.
Qed.

Lemma abs_quot a b : 0 < b -> Z.abs (Z.quot a b) = Z.abs a / b.
Proof.
  intros Hb. destruct (Z.le_gt_cases 0 a) as [Ha|Ha].
  - rewrite Z.quot_div_nonneg by lia.
    rewrite !Z.abs_eq; try lia. apply Z.div_pos; lia.
  - replace a with (- (- a)) at 1 by lia.
    rewrite Z.quot_opp_l by lia. rewrite Z.abs_opp.
    rewrite Z.quot_div_nonneg by lia.
    rewrite Z.abs_eq by (apply Z.div_pos; lia).
    now rewrite (Z.abs_neq a) by lia.
Qed.

Lemma sgn_quot_abs a b :
  0 < b -> Z.sgn (Z.quot a b) * (Z.abs a / b) = Z.sgn a * (Z.abs a / b).
Proof.
  intros Hb. destruct (Z.eq_dec (Z.abs a / b) 0) as [Hz|Hz]; [rewrite Hz; lia|].
  f_equal.
  assert (Hpos : 0 < Z.abs a / b).
  { assert (0 <= Z.abs a / b) by (apply Z.div_pos; lia). lia. }
  destruct (Z.le_gt_cases 0 a) as [Ha|Ha].
  - rewrite Z.quot_div_nonneg by lia.
    rewrite Z.abs_eq in Hpos by lia.
    assert (a <> 0) by (intros ->; rewrite Z.div_0_l in Hpos; lia).
    rewrite !Z.sgn_pos; lia.
  - assert (Hq : Z.quot a b = - Z.quot (- a) b).
    { replace a with (- (- a)) at 1 by lia. apply Z.quot_opp_l. lia. }
    rewrite (Z.quot_div_nonneg (- a) b) in Hq by lia.
    rewrite Z.abs_neq in Hpos by lia.
    rewrite !Z.sgn_neg; lia.
Qed.

(** The coefficient [Round] returns. *)
Lemma value_Round d places :
  value (Round d places) = round_units (value d) (exp d + places).
Proof.
  unfold Round, round_units.
  destruct (Z.eqb_spec (exp d) (- places)) as [He|He].
  - replace (exp d + places) with 0 by lia. cbn. lia.
  - cbn [value]. rewrite round_tenths.
    unfold rescale.
    destruct (Z.eqb_spec (exp d) (- places - 1)) as [He1|He1].
    + (* already in tenths of a unit *)
      replace (exp d + places) with (-1) by lia. cbn [Z.leb Z.compare Z.opp].
      change (10 ^ (- (-1))) with 10.
      f_equal. replace (2 * Z.abs (value d) + 10) with ((Z.abs (value d) + 5) * 2) by lia.
      change (2 * 10) with (10 * 2). now rewrite Z.div_mul_cancel_r by lia.
    + destruct (Z.gtb_spec (- places - 1) (exp d)) as [Hgt|Hle]; cbn [value].
      * (* finer than tenths: truncate, then round *)
        destruct (Z.leb_spec 0 (exp d + places)) as [Hs|Hs]; [lia|].
        replace (Z.abs (- places - 1 - exp d)) with (- (exp d + places) - 1) by lia.
        set (k := - (exp d + places) - 1).
        replace (- (exp d + places)) with (k + 1) by lia.
        assert (Hk : 0 <= k) by lia.
        assert (HK : 0 < 10 ^ k) by (apply Z.pow_pos_nonneg; lia).
        rewrite Z.pow_add_r, Z.pow_1_r by lia.
        rewrite abs_quot by lia.
        transitivity (Z.sgn (value d) * ((Z.abs (value d) / 10 ^ k + 5) / 10)).
        { destruct (Z.eq_dec ((Z.abs (value d) / 10 ^ k + 5) / 10) 0) as [Hz|Hz];
            [rewrite Hz; lia|].
          f_equal.
          assert (Hq : Z.abs (value d) / 10 ^ k <> 0).
          { intros Hq. apply Hz. rewrite Hq. reflexivity. }
          rewrite <- abs_quot in Hq by lia.
          pose proof (sgn_quot_abs (value d) (10 ^ k) HK) as Hsq.
          rewrite <- abs_quot in Hsq by lia.
          apply Z.mul_cancel_r in Hsq; [exact Hsq|exact Hq]. }
        f_equal.
        replace (2 * Z.abs (value d) + 10 ^ k * 10)
          with ((Z.abs (value d) + 5 * 10 ^ k) * 2) by lia.
        replace (2 * (10 ^ k * 10)) with ((10 ^ k * 10) * 2) by lia.
        rewrite Z.div_mul_cancel_r by lia.
        rewrite <- Z.div_div by lia.
        now rewrite Z.div_add by lia.
      * (* coarser than tenths: exact *)
        destruct (Z.leb_spec 0 (exp d + places)) as [Hs|Hs]; [|lia].
        replace (Z.abs (- places - 1 - exp d)) with (exp d + places + 1) by lia.
        rewrite Z.pow_add_r, Z.pow_1_r by lia.
        assert (HK : 0 < 10 ^ (exp d + places)) by (apply Z.pow_pos_nonneg; lia).
        set (K := 10 ^ (exp d + places)) in *.
        rewrite Z.abs_mul, (Z.abs_eq (K * 10)) by lia.
        replace (Z.abs (value d) * (K * 10) + 5)
          with (5 + (Z.abs (value d) * K) * 10) by lia.
        rewrite Z.div_add by lia. change (5 / 10) with 0.
        rewrite Z.sgn_mul, (Z.sgn_pos (K * 10)) by lia.
        pose proof (Z.abs_sgn (value d)). nia.
Qed.

Lemma Qfloor_half (n : Z) : Qfloor (inject_Z n + (1 # 2)) = n.
Proof.
  assert (H : (inject_Z n + (1 # 2) == inject_Z (2 * n + 1) / inject_Z 2)%Q).
  { rewrite inject_Z_plus, inject_Z_mult. field. }
  rewrite (Qfloor_comp _ _ H), <- Zdiv_Qdiv.
  Z.div_mod_to_equations; lia.
Qed.

Lemma Qfloor_frac_half (a D : Z) :
  0 < D ->
  Qfloor (inject_Z a / inject_Z D + (1 # 2)) = (2 * a + D) / (2 * D).
Proof.
  intros HD.
  assert (HDq : ~ (inject_Z D == 0)%Q).
  { intros H. unfold Qeq in H. cbn in H. lia. }
  assert (H : (inject_Z a / inject_Z D + (1 # 2)
               == inject_Z (2 * a + D) / inject_Z (2 * D))%Q).
  { rewrite inject_Z_plus, !inject_Z_mult. field. exact HDq. }
  now rewrite (Qfloor_comp _ _ H), <- Zdiv_Qdiv.
Qed.

Lemma toQ_scaled d places :
  (toQ d * 10 ^ places == inject_Z (value d) * 10 ^ (exp d + places))%Q.
Proof.
  unfold toQ. rewrite Qpower_plus by discriminate. ring.
Qed.

Lemma Qle_bool_scaled v e :
  Qle_bool 0 (inject_Z v * 10 ^ e) = (0 <=? v).
Proof.
  pose proof (Qten_pow_pos e) as Hpos.
  destruct (Z.leb_spec 0 v) as [Hv|Hv].
  - apply Qle_bool_iff. apply Qmult_le_0_compat; [|now apply Qlt_le_weak].
    change 0%Q with (inject_Z 0). now rewrite <- Zle_Qle.
  - destruct (Qle_bool 0 (inject_Z v * 10 ^ e)) eqn:E; [|reflexivity].
    apply Qle_bool_iff in E. exfalso.
    assert (Hneg : (inject_Z v * 10 ^ e < 0 * 10 ^ e)%Q).
    { apply Qmult_lt_compat_r; [exact Hpos|].
      change 0%Q with (inject_Z 0). now rewrite <- Zlt_Qlt. }
    rewrite Qmult_0_l in Hneg.
    apply (Qlt_irrefl 0). eapply Qle_lt_trans; eassumption.
Qed.

(** The library's rounding is rounding half away from zero. *)
Lemma round_units_spec d places :
  round_half_away (toQ d) places = round_units (value d) (exp d + places).
Proof.
  unfold round_half_away, round_units. cbv zeta.
  pose proof (toQ_scaled d places) as Hy.
  rewrite (Qleb_comp _ _ (reflexivity 0%Q) _ _ Hy), Qle_bool_scaled.
  set (s := exp d + places) in *. set (v := value d) in *.
  destruct (Z.leb_spec 0 s) as [Hs|Hs].
  - (* a whole number of units *)
    assert (Hint : (toQ d * 10 ^ places == inject_Z (v * 10 ^ s))%Q).
    { rewrite Hy, inject_Z_mult, Qten_pow_inject by lia. reflexivity. }
    destruct (0 <=? v).
    + rewrite (Qfloor_comp _ (inject_Z (v * 10 ^ s) + (1 # 2))) by now rewrite Hint.
      apply Qfloor_half.
    + rewrite (Qfloor_comp _ (inject_Z (- (v * 10 ^ s)) + (1 # 2)))
        by now rewrite Hint, <- inject_Z_opp.
      rewrite Qfloor_half. lia.
  - assert (HD : 0 < 10 ^ (- s)) by (apply Z.pow_pos_nonneg; lia).
    set (D := 10 ^ (- s)) in *.
    assert (HDq : ~ (inject_Z D == 0)%Q).
    { intros H. unfold Qeq in H. cbn in H. lia. }
    assert (Hfrac : (toQ d * 10 ^ places == inject_Z v / inject_Z D)%Q).
    { rewrite Hy. unfold D. rewrite Qten_pow_inject by lia.
      rewrite Qpower_opp. field. apply Qpower_not_0. discriminate. }
    destruct (Z.leb_spec 0 v) as [Hv|Hv].
    + rewrite (Qfloor_comp _ (inject_Z v / inject_Z D + (1 # 2))) by now rewrite Hfrac.
      rewrite Qfloor_frac_half by exact HD.
      rewrite Z.abs_eq by lia.
      destruct (Z.eq_dec v 0) as [Hz|Hnz].
      * rewrite Hz. cbn [Z.sgn Z.mul Z.add]. rewrite Z.div_small; lia.
      * rewrite Z.sgn_pos by lia. lia.
    + rewrite (Qfloor_comp _ (inject_Z (- v) / inject_Z D + (1 # 2))).
      * rewrite Qfloor_frac_half by exact HD.
        rewrite Z.abs_neq, Z.sgn_neg by lia. lia.
      * rewrite Hfrac, inject_Z_opp. field. exact HDq.
Qed.

Theorem Round_half_away d places :
  Round d places = New (round_half_away (toQ d) places) (- places).
Proof.
  rewrite round_units_spec, <- value_Round, <- (exp_Round d places).
  now destruct (Round d places).
Qed.

Lemma round_half_away_comp x y places :
  (x == y)%Q -> round_half_away x places = round_half_away y places.
Proof.
  intros H. unfold round_half_away. cbv zeta.
  assert (Hy : (x * 10 ^ places == y * 10 ^ places)%Q) by now rewrite H.
  rewrite (Qleb_comp _ _ (reflexivity 0%Q) _ _ Hy).
  rewrite (Qfloor_comp (x * 10 ^ places + (1 # 2)) (y * 10 ^ places + (1 # 2)))
    by now rewrite Hy.
  rewrite (Qfloor_comp (- (x * 10 ^ places) + (1 # 2)) (- (y * 10 ^ places) + (1 # 2)))
    by now rewrite Hy.
  reflexivity.
Qed.

Lemma round_half_away_mono x y places :
  (x <= y)%Q -> round_half_away x places <= round_half_away y places.
Proof.
  intros H. unfold round_half_away. cbv zeta.
  pose proof (Qten_pow_pos places) as Hpos.
  assert (Hxy : (x * 10 ^ places <= y * 10 ^ places)%Q).
  { apply Qmult_le_compat_r; [exact H|now apply Qlt_le_weak]. }
  set (a := (x * 10 ^ places)%Q) in *. set (b := (y * 10 ^ places)%Q) in *.
  destruct (Qle_bool 0 a) eqn:Ea, (Qle_bool 0 b) eqn:Eb.
  - apply Qfloor_resp_le. lra.
  - apply Qle_bool_iff in Ea.
    assert (~ (0 <= b)%Q) by (rewrite <- Qle_bool_iff; congruence). lra.
  - assert (Ha : ~ (0 <= a)%Q) by (rewrite <- Qle_bool_iff; congruence).
    apply Qle_bool_iff in Eb.
    assert (0 <= Qfloor (- a + (1 # 2))).
    { change 0 with (Qfloor 0). apply Qfloor_resp_le. lra. }
    assert (0 <= Qfloor (b + (1 # 2))).
    { change 0 with (Qfloor 0). apply Qfloor_resp_le. lra. }
    lia.
  - assert (Qfloor (- b + (1 # 2)) <= Qfloor (- a + (1 # 2)))
      by (apply Qfloor_resp_le; lra).
    lia.
Qed.

Lemma toQ_Round d places :
  (toQ (Round d places)
   == inject_Z (round_half_away (toQ d) places) * 10 ^ (- places))%Q.
Proof. rewrite Round_half_away. reflexivity. Qed.

Lemma Round_mono a b places :
  (toQ a <= toQ b)%Q -> value (Round a places) <= value (Round b places).
Proof.
  intros H. rewrite !Round_half_away. cbn [value].
  now apply round_half_away_mono.
Qed.

(** Decimals that denote the same number round to the same decimal. *)
Lemma Round_comp a b places :
  (toQ a == toQ b)%Q -> Round a places = Round b places.
Proof.
  intros H. rewrite !Round_half_away. f_equal.
  now apply round_half_away_comp.
Qed.

End DecimalFacts.

(* ===================================================================== *)
(** * Fees                                                                *)
(* ===================================================================== *)

Section Fees.

Lemma toQ_rateBrokerage : (toQ rateBrokerage == 3 # 10000)%Q.
Proof. reflexivity. Qed.

Lemma toQ_rateSTT : (toQ rateSTT == 1 # 1000)%Q.
Proof. reflexivity. Qed.

Lemma toQ_rateGST : (toQ rateGST == 18 # 100)%Q.
Proof. reflexivity. Qed.

Lemma toQ_NewFromInt n : (toQ (NewFromInt n) == inject_Z n)%Q.
Proof. unfold toQ, NewFromInt; cbn [value exp]. rewrite Qpower_0_r. ring. Qed.

(** The brokerage before rounding: the lower of 0.03% and 20. *)
Lemma capped_brokerage_toQ p q :
  let b0 := Mul (Mul p q) rateBrokerage in
  (toQ (if GreaterThan b0 (NewFromInt 20) then NewFromInt 20 else b0)
   == fee_brokerage (toQ p * toQ q))%Q.
Proof.
  cbv zeta. unfold fee_brokerage. cbv zeta.
  assert (Hb0 : (toQ (Mul (Mul p q) rateBrokerage) == (3 # 10000) * (toQ p * toQ q))%Q).
  { rewrite !toQ_Mul, toQ_rateBrokerage. ring. }
  destruct (GreaterThan _ _) eqn:E.
  - apply GreaterThan_toQ in E. rewrite toQ_NewFromInt, Hb0 in E.
    destruct (Qle_bool _ _) eqn:E'.
    + apply Qle_bool_iff in E'. change (inject_Z 20) with 20%Q in E. lra.
    + apply toQ_NewFromInt.
  - apply GreaterThan_false_toQ in E. rewrite toQ_NewFromInt, Hb0 in E.
    destruct (Qle_bool _ _) eqn:E'.
    + exact Hb0.
    + exfalso. assert (H : ~ ((3 # 10000) * (toQ p * toQ q) <= 20)%Q)
        by (rewrite <- Qle_bool_iff; congruence).
      apply H. exact E.
Qed.

(** The four fees are the rational formula, rounded half away from zero
    to 4 decimals, the total from the unrounded components. *)
Lemma CalculateFees_rounds_formula p q :
  let tv := (toQ p * toQ q)%Q in
  let b := fee_brokerage tv in
  let s := fee_stt tv in
  let g := fee_gst b in
  CalculateFees p q =
    mkFees (New (round_half_away b 4) (-4)) (New (round_half_away s 4) (-4))
           (New (round_half_away g 4) (-4))
           (New (round_half_away (b + s + g) 4) (-4)).
Proof.
  cbv zeta. unfold CalculateFees. cbv zeta.
  pose proof (capped_brokerage_toQ p q) as Hb. cbv zeta in Hb.
  set (b1 := if GreaterThan _ _ then _ else _) in *.
  assert (Hs : (toQ (Mul (Mul p q) rateSTT) == fee_stt (toQ p * toQ q))%Q).
  { unfold fee_stt. rewrite !toQ_Mul, toQ_rateSTT. ring. }
  assert (Hg : (toQ (Mul b1 rateGST) == fee_gst (fee_brokerage (toQ p * toQ q)))%Q).
  { unfold fee_gst. rewrite toQ_Mul, toQ_rateGST, Hb. ring. }
  rewrite !Round_half_away. f_equal; f_equal; apply round_half_away_comp; try assumption.
  rewrite !toQ_Add, Hb, Hs, Hg. reflexivity.
Qed.

(** C3 (as amended).  For every price and quantity, with
    [totalValue = price * quantity]: the brokerage returned is
    [min(0.03% * totalValue, 20)] rounded to 4 decimals, the STT is
    [0.10% * totalValue] rounded to 4 decimals, the GST is 18% of the
    unrounded brokerage rounded to 4 decimals, and the total is the sum
    of the three unrounded components, rounded once to 4 decimals.  For
    the price 2450.50 and the quantity 2.5 the total is 8.2949, so the
    FEE entry amount is -8.2949. *)
Theorem CalculateFees_formula p q :
  let tv := (toQ p * toQ q)%Q in
  let b := fee_brokerage tv in
  let s := fee_stt tv in
  let g := fee_gst b in
  CalculateFees p q =
    mkFees (New (round_half_away b 4) (-4)) (New (round_half_away s 4) (-4))
           (New (round_half_away g 4) (-4))
           (New (round_half_away (b + s + g) 4) (-4))
  /\ total (CalculateFees (New 24505 (-1)) (New 25 (-1))) = New 82949 (-4)
  /\ Neg (total (CalculateFees (New 24505 (-1)) (New 25 (-1)))) = New (-82949) (-4).
Proof.
  cbv zeta. split; [apply CalculateFees_rounds_formula|split; reflexivity].
Qed.

(** C3, counterexample.  For the price 2450.50 and the quantity 2.5 the
    rounded components are 1.8379, 6.1263 and 0.3308, whose sum is
    8.2950, while the total returned is 8.2949: the total is not the sum
    of the rounded components. *)
Lemma CalculateFees_total_not_sum_of_rounded :
  let f := CalculateFees (New 24505 (-1)) (New 25 (-1)) in
  brokerage f = New 18379 (-4) /\ stt f = New 61263 (-4) /\ gst f = New 3308 (-4)
  /\ Round (Add (Add (brokerage f) (stt f)) (gst f)) 4 = New 82950 (-4)
  /\ total f = New 82949 (-4)
  /\ ~ total_is_sum_of_rounded_components f.
Proof.
  cbv zeta. repeat split. unfold total_is_sum_of_rounded_components.
  vm_compute. discriminate.
Qed.

Lemma round_half_away_20 : round_half_away 20 4 = 200000.
Proof. reflexivity. Qed.

(** C9.  The brokerage never exceeds 20; for a total value of at most
    66,666.67 it is 0.03% of the total value rounded to 4 decimals, and
    above 66,666.67 it is exactly 20. *)
Theorem brokerage_capped p q :
  let f := CalculateFees p q in
  let totalValue := (toQ p * toQ q)%Q in
  (toQ (brokerage f) <= 20)%Q
  /\ ((totalValue <= 6666667 # 100)%Q ->
      brokerage f = Round (Mul (Mul p q) rateBrokerage) 4)
  /\ ((6666667 # 100 < totalValue)%Q -> brokerage f = New 200000 (-4)).
Proof.
  cbv zeta.
  pose proof (CalculateFees_rounds_formula p q) as Hf. cbv zeta in Hf.
  rewrite Hf. cbn [brokerage].
  assert (Hb0 : (toQ (Mul (Mul p q) rateBrokerage) == (3 # 10000) * (toQ p * toQ q))%Q).
  { rewrite !toQ_Mul, toQ_rateBrokerage. ring. }
  set (tv := (toQ p * toQ q)%Q) in *.
  assert (Hle20 : (fee_brokerage tv <= 20)%Q).
  { unfold fee_brokerage. cbv zeta. destruct (Qle_bool _ _) eqn:E.
    - now apply Qle_bool_iff. 
    - apply Qle_refl. }
  assert (Hcap : round_half_away (fee_brokerage tv) 4 <= 200000).
  { rewrite <- round_half_away_20. now apply round_half_away_mono. }
  split; [|split].
  - unfold toQ; cbn [value exp].
    apply Qle_trans with (inject_Z 200000 * 10 ^ (-4))%Q.
    + apply Qmult_le_compat_r; [now rewrite <- Zle_Qle|].
      apply Qlt_le_weak, Qten_pow_pos.
    + apply Qle_lteq. right. reflexivity.
  - intros Htv. rewrite Round_half_away. f_equal.
    rewrite (round_half_away_comp _ _ 4 Hb0).
    unfold fee_brokerage. cbv zeta. destruct (Qle_bool _ _) eqn:E; [reflexivity|].
    assert (Hgt : ~ ((3 # 10000) * tv <= 20)%Q) by (rewrite <- Qle_bool_iff; congruence).
    apply Z.le_antisymm.
    + rewrite round_half_away_20. 
      change 200000 with (round_half_away 20 4).
      apply round_half_away_mono. lra.
    + change (round_half_away 20 4) with (round_half_away (20000001 # 1000000) 4).
      apply round_half_away_mono. lra.
  - intros Htv. f_equal. unfold fee_brokerage. cbv zeta.
    destruct (Qle_bool _ _) eqn:E; [|reflexivity].
    apply Qle_bool_iff in E. lra.
Qed.

(** The two cases of C9 at work: a total value of 6126.25 and one of
    100,000. *)
Lemma brokerage_capped_witness :
  brokerage (CalculateFees (New 24505 (-1)) (New 25 (-1)))
    = Round (Mul (Mul (New 24505 (-1)) (New 25 (-1))) rateBrokerage) 4
  /\ brokerage (CalculateFees (New 10000 0) (New 10 0)) = New 200000 (-4).
Proof.
  split.
  - apply (brokerage_capped (New 24505 (-1)) (New 25 (-1))).
    vm_compute. discriminate.
  - apply (brokerage_capped (New 10000 0) (New 10 0)).
    vm_compute. reflexivity.
Defined.

End Fees.

(* ===================================================================== *)
(** * The store when it answers every request                             *)
(* ===================================================================== *)

Section NoFaults.

Lemma set_faults_nil w : faults w = [] -> set_faults w [] = w.
Proof. destruct w; cbn; intros ->; reflexivity. Qed.

Lemma set_store_same w : set_store w (store w) = w.
Proof. now destruct w. Qed.

Lemma db_exec_ok {A} (op : Store -> error + (A * Store)) w :
  faults w = [] ->
  db_exec op w =
    match op (store w) with
    | inl e => (inl e, w)
    | inr (a, s') => (inr a, set_store w s')
    end.
Proof.
  intros H. unfold db_exec. rewrite H, (set_faults_nil w H). reflexivity.
Qed.

Lemma db_query_ok {A} (q : Store -> error + A) w :
  faults w = [] -> db_query q w = (q (store w), w).
Proof.
  intros H. unfold db_query. rewrite db_exec_ok by exact H.
  destruct (q (store w)); [reflexivity|]. now rewrite set_store_same.
Qed.

(** A faulty round trip changes nothing but the schedule. *)
Lemma db_exec_fault {A} (op : Store -> error + (A * Store)) w fs :
  faults w = true :: fs -> db_exec op w = (inl ErrStore, set_faults w fs).
Proof. intros H. unfold db_exec. now rewrite H. Qed.

Lemma GeneratePrice_rounded pg symbol v :
  exp (fst (utils.GeneratePrice pg symbol v)) = -4.
Proof.
  unfold utils.GeneratePrice.
  destruct (basePrices pg !! symbol); cbn [fst]; apply exp_Round.
Qed.

Lemma to_numeric_same_exp scale d : exp d = - scale -> to_numeric scale d = value d.
Proof. intros H. unfold to_numeric. now rewrite Round_same_exp. Qed.

Lemma of_to_numeric scale d : exp d = - scale -> of_numeric scale (to_numeric scale d) = d.
Proof.
  intros H. rewrite to_numeric_same_exp by exact H.
  unfold of_numeric. rewrite <- H. now destruct d.
Qed.

Lemma to_of_numeric scale n : to_numeric scale (of_numeric scale n) = n.
Proof. now rewrite to_numeric_same_exp. Qed.

Lemma generate_and_save symbol w :
  faults w = [] ->
  (price <- GeneratePrice symbol ;;
   _ <- attempt (SavePrice symbol price) ;;
   ret price) w
  = (inr (fst (synthesize_price symbol w)), snd (synthesize_price symbol w)).
Proof.
  intros Hf. unfold bind, GeneratePrice, synthesize_price.
  pose proof (GeneratePrice_rounded (generator w) symbol (draws w (drawn w))) as Hexp.
  destruct (utils.GeneratePrice (generator w) symbol (draws w (drawn w)))
    as [price pg] eqn:Egen. cbn [fst snd] in *.
  unfold attempt, SavePrice, bind, NowUTC, attempt.
  rewrite db_exec_ok by exact Hf.
  cbn. unfold ret, insert_price, RoundINR. cbn.
  rewrite Round_same_exp by exact Hexp.
  rewrite to_numeric_same_exp by exact Hexp.
  rewrite Hf. reflexivity.
Qed.

(** [GetCurrentPrice] when the store answers. *)
Lemma GetCurrentPrice_ok symbol w :
  faults w = [] ->
  GetCurrentPrice symbol w =
    match first_by price_newer (samples_of symbol (store w)) with
    | Some row =>
        if now w - ph_timestamp row >? 2 * Hour
        then (inr (fst (synthesize_price symbol w)), snd (synthesize_price symbol w))
        else (inr (of_numeric 4 (ph_price_inr row)), w)
    | None => (inr (fst (synthesize_price symbol w)), snd (synthesize_price symbol w))
    end.
Proof.
  intros Hf. unfold GetCurrentPrice.
  unfold bind at 1. unfold attempt at 1. rewrite db_query_ok by exact Hf.
  fold (samples_of symbol (store w)).
  destruct (first_by price_newer (samples_of symbol (store w))) as [row|];
    cbn [first_or_not_found is_ErrRecordNotFound].
  - unfold bind at 1. unfold NowUTC at 1. cbn [scan_price PriceHistory_Timestamp PriceINR].
    destruct (now w - ph_timestamp row >? 2 * Hour).
    + now apply generate_and_save.
    + reflexivity.
  - now apply generate_and_save.
Qed.

End NoFaults.

(* ===================================================================== *)
(** * The price oracle                                                    *)
(* ===================================================================== *)

Section PriceOracle.

Lemma first_by_step_In {A} (better : A -> A -> bool) rows acc r :
  fold_left
    (fun best x =>
       match best with
       | None => Some x
       | Some b => if better x b then Some x else Some b
       end) rows acc = Some r ->
  In r rows \/ acc = Some r.
Proof.
  revert acc. induction rows as [|x rows IH]; cbn; intros acc H; [now right|].
  apply IH in H as [H|H]; [now left; right|].
  destruct acc as [b|].
  - revert H. destruct (better x b); intros H; injection H as H; subst;
      [left; now left|now right].
  - injection H as H; subst. left; now left.
Qed.

Lemma first_by_In {A} (better : A -> A -> bool) rows r :
  first_by better rows = Some r -> In r rows.
Proof.
  intros H. apply first_by_step_In in H as [H|H]; [exact H|discriminate].
Qed.

Lemma first_by_None {A} (better : A -> A -> bool) rows :
  first_by better rows = None <-> rows = [].
Proof.
  split; [|now intros ->].
  destruct rows as [|x rows]; [reflexivity|]. unfold first_by. cbn.
  generalize x. intros b H. exfalso.
  revert b H. induction rows as [|y rows IH]; cbn; intros b H.
  - discriminate.
  - destruct (better y b); eapply IH; eassumption.
Qed.

Lemma latest_price_step rows acc r :
  fold_left
    (fun best x =>
       match best with
       | None => Some x
       | Some b => if price_newer x b then Some x else Some b
       end) rows acc = Some r ->
  (forall x, In x rows -> ph_timestamp x <= ph_timestamp r)
  /\ (forall b, acc = Some b -> ph_timestamp b <= ph_timestamp r).
Proof.
  revert acc. induction rows as [|x rows IH]; cbn; intros acc H.
  - split; [tauto|]. intros b ->. injection H as ->. lia.
  - apply IH in H as [Hrows Hacc]. split.
    + intros y [Hxy|Hy]; [subst y|now apply Hrows].
      destruct acc as [b|]; [|now apply Hacc].
      destruct (price_newer x b) eqn:E; [now apply Hacc|].
      specialize (Hacc b eq_refl). unfold price_newer in E.
      apply orb_false_iff in E as [E _]. apply Z.ltb_ge in E. lia.
    + intros b ->. destruct (price_newer x b) eqn:E.
      * specialize (Hacc x eq_refl). unfold price_newer in E.
        apply orb_true_iff in E as [E|E].
        -- apply Z.ltb_lt in E. lia.
        -- apply andb_true_iff in E as [E _]. apply Z.eqb_eq in E. lia.
      * now apply Hacc.
Qed.

(** [ORDER BY timestamp DESC] then [First]: no sample is more recent. *)
Lemma latest_price_most_recent rows r :
  first_by price_newer rows = Some r ->
  In r rows /\ forall x, In x rows -> ph_timestamp x <= ph_timestamp r.
Proof.
  intros H. split; [now apply first_by_In in H|].
  now apply latest_price_step in H as [H _].
Qed.

(** C7.  When the store answers: if the most recent sample of the symbol
    is at most 2 hours old, [GetCurrentPrice] returns its price and
    changes nothing; if it is older than 2 hours, or there is no sample,
    it returns the synthesized price and the store holds one more
    sample, the synthesized price at the current instant.  In particular
    a sample 3 hours old is not what is returned. *)
Theorem GetCurrentPrice_staleness symbol w :
  faults w = [] ->
  let samples := samples_of symbol (store w) in
  let synthesized := synthesize_price symbol w in
  (forall row,
      first_by price_newer samples = Some row ->
      (In row samples /\ forall x, In x samples -> ph_timestamp x <= ph_timestamp row)
      /\ (now w - ph_timestamp row <= 2 * Hour ->
          GetCurrentPrice symbol w = (inr (of_numeric 4 (ph_price_inr row)), w))
      /\ (2 * Hour < now w - ph_timestamp row ->
          GetCurrentPrice symbol w = (inr (fst synthesized), snd synthesized)))
  /\ (samples = [] ->
      GetCurrentPrice symbol w = (inr (fst synthesized), snd synthesized))
  /\ price_history (store (snd synthesized))
     = price_history (store w) ++
         [mk_price_history_row (price_history_seq (store w)) symbol
            (value (fst synthesized)) (now w)]
  /\ fst synthesized
     = fst (utils.GeneratePrice (generator w) symbol (draws w (drawn w))).
Proof.
  intros Hf. cbv zeta. rewrite (GetCurrentPrice_ok symbol w Hf).
  split; [|split; [|split]].
  - intros row Hrow. rewrite Hrow. split; [now apply latest_price_most_recent|].
    split; intros Hage.
    + destruct (Z.gtb_spec (now w - ph_timestamp row) (2 * Hour)); [lia|reflexivity].
    + destruct (Z.gtb_spec (now w - ph_timestamp row) (2 * Hour)); [reflexivity|lia].
  - intros Hnone. now rewrite Hnone.
  - unfold synthesize_price. now destruct (utils.GeneratePrice _ _ _).
  - unfold synthesize_price. now destruct (utils.GeneratePrice _ _ _).
Qed.

(** The theorem at work, scenario C: the 3-hour-old sample of TCS is not
    returned, a sample 2 hours old is. *)
Lemma GetCurrentPrice_staleness_witness :
  GetCurrentPrice "TCS" scenario.stale_TCS
    = (inr (fst (synthesize_price "TCS" scenario.stale_TCS)),
       snd (synthesize_price "TCS" scenario.stale_TCS))
  /\ GetCurrentPrice "TCS" scenario.fresh_TCS
     = (inr (New 36807500 (-4)), scenario.fresh_TCS).
Proof.
  split.
  - pose proof (GetCurrentPrice_staleness "TCS" scenario.stale_TCS eq_refl) as H.
    cbv zeta in H. destruct H as (H & _).
    specialize (H (mk_price_history_row 1 "TCS" 36807500
                     (scenario.next_morning - 3 * Hour)) eq_refl).
    destruct H as (_ & _ & H). apply H. vm_compute. reflexivity.
  - pose proof (GetCurrentPrice_staleness "TCS" scenario.fresh_TCS eq_refl) as H.
    cbv zeta in H. destruct H as (H & _).
    specialize (H (mk_price_history_row 1 "TCS" 36807500
                     (scenario.next_morning - 2 * Hour)) eq_refl).
    destruct H as (_ & H & _). apply H. vm_compute. discriminate.
Defined.

(** Scenario C, evaluated: with a draw of +1% the price returned is
    3680.75 * 1.01 = 3717.5575, and the store holds it as a second
    sample. *)
Example scenario_C :
  fst (GetCurrentPrice "TCS" scenario.stale_TCS) = inr (New 37175575 (-4))
  /\ price_history (store (snd (GetCurrentPrice "TCS" scenario.stale_TCS)))
     = [ mk_price_history_row 1 "TCS" 36807500 (scenario.next_morning - 3 * Hour);
         mk_price_history_row 2 "TCS" 37175575 scenario.next_morning ].
Proof. evaluate_conjuncts. Qed.

End PriceOracle.

(* ===================================================================== *)
(** * What an operation leaves alone                                      *)
(* ===================================================================== *)

Section Frames.

Lemma same_ledger_refl w : same_ledger w w.
Proof. repeat split. Qed.

Lemma same_ledger_trans w1 w2 w3 :
  same_ledger w1 w2 -> same_ledger w2 w3 -> same_ledger w1 w3.
Proof. unfold same_ledger. intuition congruence. Qed.

Lemma db_exec_cases {A} (op : Store -> error + (A * Store)) w :
  (exists fs, faults w = true :: fs /\ db_exec op w = (inl ErrStore, set_faults w fs))
  \/ (exists fs, (faults w = false :: fs \/ (faults w = [] /\ fs = []))
        /\ db_exec op w =
             match op (store w) with
             | inl e => (inl e, set_faults w fs)
             | inr (a, s') => (inr a, set_store (set_faults w fs) s')
             end).
Proof.
  unfold db_exec. destruct (faults w) as [|[|] fs].
  - right. exists []. split; [now right|reflexivity].
  - left. now exists fs.
  - right. exists fs. split; [now left|reflexivity].
Qed.

Lemma db_query_cases {A} (q : Store -> error + A) w :
  exists fs, store (snd (db_query q w)) = store w
    /\ snd (db_query q w) = set_faults w fs
    /\ (fst (db_query q w) = inl ErrStore \/ fst (db_query q w) = q (store w)).
Proof.
  unfold db_query.
  destruct (db_exec_cases
              (fun s => match q s with inl e => inl e | inr a => inr (a, s) end) w)
    as [(fs & _ & ->)|(fs & _ & ->)]; exists fs; cbn.
  - auto.
  - destruct (q (store w)); cbn; repeat split; auto.
Qed.

Lemma NowUTC_run w : NowUTC w = (inr (now w), w).
Proof. reflexivity. Qed.

(** The clock stands still during a call: the reversals built by one call
    carry one timestamp. *)
Lemma CreateReversalEntries_loop_run originalEntries : forall reversalEntries w,
  CreateReversalEntries_loop originalEntries reversalEntries w
  = (inr (reversalEntries ++ map (reversal_of (now w)) originalEntries), w).
Proof.
  induction originalEntries as [|entry rest IH]; intros reversalEntries w.
  - cbn [CreateReversalEntries_loop map]. now rewrite app_nil_r.
  - cbn [CreateReversalEntries_loop map]. unfold bind. rewrite NowUTC_run.
    cbv zeta. rewrite IH, <- app_assoc. reflexivity.
Qed.

Lemma SavePrice_same_ledger symbol price w :
  same_ledger w (snd (SavePrice symbol price w)).
Proof.
  unfold SavePrice, bind, attempt, NowUTC.
  destruct (db_exec_cases
              (fun s => inr (tt, insert_price s
                 (mkPriceHistory 0 symbol (RoundINR price) (now w)))) w)
    as [(fs & _ & ->)|(fs & _ & ->)]; cbn; repeat split.
Qed.

Lemma generate_and_save_same_ledger symbol w :
  same_ledger w
    (snd ((price <- GeneratePrice symbol ;;
           _ <- attempt (SavePrice symbol price) ;;
           ret price) w)).
Proof.
  unfold bind at 1. unfold GeneratePrice.
  destruct (utils.GeneratePrice _ _ _) as [price pg].
  unfold bind, attempt, ret.
  match goal with |- context [SavePrice symbol price ?w0] =>
    pose proof (SavePrice_same_ledger symbol price w0) as H;
    destruct (SavePrice symbol price w0) as [r w1] end.
  cbn [snd] in *. exact H.
Qed.

Lemma GetCurrentPrice_same_ledger symbol w :
  same_ledger w (snd (GetCurrentPrice symbol w)).
Proof.
  unfold GetCurrentPrice. unfold bind at 1. unfold attempt at 1.
  match goal with |- context [db_query ?q w] =>
    destruct (db_query_cases q w) as (fs & Hs & Hw & _);
    destruct (db_query q w) as [r w1] end.
  cbn [snd] in *. subst w1.
  assert (Hfr : same_ledger w (set_faults w fs)) by (repeat split).
  destruct r as [err|row].
  - destruct (is_ErrRecordNotFound err).
    + eapply same_ledger_trans; [exact Hfr|apply generate_and_save_same_ledger].
    + exact Hfr.
  - unfold bind at 1. rewrite NowUTC_run.
    destruct (_ >? _).
    + eapply same_ledger_trans; [exact Hfr|apply generate_and_save_same_ledger].
    + exact Hfr.
Qed.

End Frames.

(* ===================================================================== *)
(** * Recording a reward                                                  *)
(* ===================================================================== *)

Section RewardRecorder.

Lemma Add_same_exp a b :
  exp a = exp b -> Add a b = New (value a + value b) (exp a).
Proof.
  intros H. unfold Add, RescalePair.
  destruct (Z.eqb_spec (exp a) (exp b)); [reflexivity|contradiction].
Qed.

Lemma value_Neg d : value (Neg d) = - value d.
Proof. reflexivity. Qed.

Lemma to_numeric_Neg scale d :
  exp d = - scale -> to_numeric scale (Neg d) = - value d.
Proof. intros H. now rewrite to_numeric_same_exp. Qed.

Lemma to_numeric_Zero scale : to_numeric scale Zero = 0.
Proof.
  unfold to_numeric. rewrite value_Round. unfold round_units. cbn [value Zero].
  destruct (0 <=? _); [lia|]. cbn [Z.abs Z.mul Z.sgn]. lia.
Qed.

(** The three entries of a grant keep the foreign key when the grant is
    in the store, as it is once [CreateReward] has inserted it. *)
Lemma entries_reference_reward s rewardEvent p :
  forallb (references_reward s) (createLedgerEntriesInTx_entries rewardEvent p)
  = existsb (fun r => re_id r =? RewardEvent_ID rewardEvent) (reward_events s).
Proof.
  unfold createLedgerEntriesInTx_entries, references_reward.
  cbn [forallb RewardEventID]. now destruct (existsb _ _).
Qed.

Lemma new_reward_referenced rows row id :
  re_id row = id -> existsb (fun r => re_id r =? id) (rows ++ [row]) = true.
Proof.
  intros <-. rewrite List.existsb_app. cbn [existsb]. rewrite Z.eqb_refl.
  now rewrite orb_true_r.
Qed.

(** The rows written for the three entries of a grant. *)
Lemma number_rows_createLedgerEntriesInTx_entries n id u sym q ts p :
  exp q = -6 ->
  let tv := Round (Mul p q) 4 in
  let fees := total (CalculateFees p q) in
  number_rows n (createLedgerEntriesInTx_entries (mkRewardEvent id u sym q ts None) p)
  = [ mk_ledger_entries_row n id EntryTypeStock (Some sym) (value q) (value tv) ts;
      mk_ledger_entries_row (n + 1) id EntryTypeCash (Some sym) 0 (- value tv) ts;
      mk_ledger_entries_row (n + 1 + 1) id EntryTypeFee (Some sym) 0 (- value fees) ts ].
Proof.
  intros Hq. cbv zeta. unfold createLedgerEntriesInTx_entries, number_rows, ledger_row.
  cbn [RewardEvent_ID RewardEvent_Quantity RewardEvent_StockSymbol
       RewardEvent_Timestamp RewardEventID Entry_Type StockSymbol Quantity
       AmountINR Timestamp].
  unfold RoundINR.
  assert (Hfees : exp (total (CalculateFees p q)) = -4) by apply exp_Round.
  rewrite !to_numeric_Zero.
  rewrite (to_numeric_same_exp 6 q) by exact Hq.
  rewrite (to_numeric_same_exp 4 (Round (Mul p q) 4)) by apply exp_Round.
  rewrite (to_numeric_Neg 4 (Round (Mul p q) 4)) by apply exp_Round.
  rewrite (to_numeric_Neg 4 (total (CalculateFees p q))) by exact Hfees.
  reflexivity.
Qed.


Lemma GetCurrentPrice_answers symbol w :
  faults w = [] ->
  exists p wp,
    GetCurrentPrice symbol w = (inr p, wp) /\ faults wp = [] /\ same_ledger w wp.
Proof.
  intros Hf. pose proof (GetCurrentPrice_same_ledger symbol w) as Hframe.
  rewrite (GetCurrentPrice_ok symbol w Hf) in *.
  assert (Hsyn : faults (snd (synthesize_price symbol w)) = []).
  { unfold synthesize_price. now destruct (utils.GeneratePrice _ _ _). }
  destruct (first_by _ _) as [row|]; [destruct (_ >? _)|]; eauto.
Qed.

Lemma duplicate_of_same_key userID symbol q6 timestamp r :
  exp q6 = -6 ->
  is_live r = true ->
  same_dedup_key r
    (mk_reward_events_row (re_id r) userID symbol (value q6) timestamp None) = true ->
  duplicate_of userID symbol q6 timestamp r = true.
Proof.
  intros Hexp Hlive H. unfold same_dedup_key in H. cbn in H.
  unfold duplicate_of. rewrite Hlive.
  apply andb_true_iff in H as [H Hts]. apply andb_true_iff in H as [H Hq].
  apply andb_true_iff in H as [Hu Hs].
  rewrite Hu, Hs, Hts. cbn [andb]. rewrite andb_true_r.
  apply Z.eqb_eq in Hq. rewrite Hq. unfold of_numeric.
  destruct q6 as [v e]; cbn [value exp] in *. subst e.
  change (- (6)) with (-6). now rewrite Equal_refl.
Qed.

Lemma no_duplicate_no_conflict userID symbol q6 timestamp id rows :
  exp q6 = -6 ->
  List.filter (duplicate_of userID symbol q6 timestamp) rows = [] ->
  existsb
    (fun r => is_live r
              && same_dedup_key r
                   (mk_reward_events_row id userID symbol (value q6) timestamp None))
    rows = false.
Proof.
  intros Hexp Hnone. destruct (existsb _ _) eqn:E; [|reflexivity]. exfalso.
  apply existsb_exists in E as (r & Hin & Hr).
  apply andb_true_iff in Hr as [Hlive Hkey].
  assert (Hdup : duplicate_of userID symbol q6 timestamp r = true).
  { apply duplicate_of_same_key; assumption. }
  assert (Hf : In r (List.filter (duplicate_of userID symbol q6 timestamp) rows))
    by (apply List.filter_In; now split).
  rewrite Hnone in Hf. exact Hf.
Qed.

(** [CreateReward] on a valid and new request, when the store answers. *)
Lemma CreateReward_ok userID symbol quantity timestamp w :
  faults w = [] ->
  ValidateStockSymbol symbol = None ->
  ValidateQuantity quantity = None ->
  grants_with userID symbol (Round quantity 6) timestamp (store w) = [] ->
  exists p wp,
    GetCurrentPrice symbol w = (inr p, wp) /\ faults wp = [] /\ same_ledger w wp
    /\ CreateReward userID symbol quantity timestamp w
       = (inr tt,
          set_store wp
            (mkStore
               (reward_events (store w) ++
                  [mk_reward_events_row (reward_events_seq (store w)) userID symbol
                     (value (Round quantity 6)) timestamp None])
               (ledger_entries (store w) ++
                  number_rows (ledger_entries_seq (store w))
                    (createLedgerEntriesInTx_entries
                       (mkRewardEvent (reward_events_seq (store w)) userID symbol
                          (Round quantity 6) timestamp None) p))
               (price_history (store wp))
               (reward_events_seq (store w) + 1)
               (ledger_entries_seq (store w) + 3)
               (price_history_seq (store wp)))).
Proof.
  intros Hf Hsym Hqty Hnew.
  destruct (GetCurrentPrice_answers symbol w Hf) as (p & wp & Hprice & Hfp & Hframe).
  exists p, wp. repeat split; try assumption; try apply Hframe.
  unfold CreateReward. rewrite Hsym, Hqty.
  unfold bind at 1, attempt at 1. rewrite db_query_ok by exact Hf.
  unfold grants_with in Hnew. rewrite Hnew.
  cbn [first_by fold_left first_or_not_found errors_Is_RecordNotFound negb].
  unfold bind at 1, attempt at 1. rewrite Hprice.
  unfold bind at 1, attempt at 1. rewrite db_exec_ok by exact Hfp.
  destruct Hframe as (Hre & Hle & Hrs & Hls & _).
  unfold insert_reward.
  cbn [UserID RewardEvent_StockSymbol RewardEvent_Quantity RewardEvent_Timestamp
       DeletedAt].
  rewrite to_numeric_same_exp by apply exp_Round.
  rewrite Hre, Hrs.
  rewrite no_duplicate_no_conflict by (try apply exp_Round; exact Hnew).
  rewrite andb_false_r.
  unfold bind at 1, attempt at 1, createLedgerEntriesInTx.
  rewrite db_exec_ok by exact Hfp.
  unfold insert_ledger_entries. rewrite entries_reference_reward.
  cbn [store set_store reward_events RewardEvent_ID].
  rewrite new_reward_referenced by reflexivity.
  cbn [createLedgerEntriesInTx_entries].
  unfold bind at 1, attempt at 1, Commit.
  unfold bind at 1, attempt at 1.
  rewrite db_exec_ok by exact Hfp.
  cbn. rewrite Hle, Hls. reflexivity.
Qed.

Lemma filter_nil_iff {A} (f : A -> bool) l :
  List.filter f l = [] <-> forall x, In x l -> f x = false.
Proof.
  induction l as [|a l IH]; cbn; [tauto|].
  destruct (f a) eqn:E; split.
  - discriminate.
  - intros H. rewrite (H a) in E by now left. discriminate.
  - intros H x [<-|Hx]; [exact E|]. now apply IH.
  - intros H. apply IH. auto.
Qed.

Lemma duplicate_of_new_row id userID symbol q6 timestamp :
  exp q6 = -6 ->
  duplicate_of userID symbol q6 timestamp
    (mk_reward_events_row id userID symbol (value q6) timestamp None) = true.
Proof.
  intros Hexp. unfold duplicate_of. cbn.
  rewrite Z.eqb_refl, String.eqb_refl, Z.eqb_refl. cbn [andb]. rewrite andb_true_r.
  unfold of_numeric. destruct q6 as [v e]; cbn [value exp] in *. subst e.
  apply Equal_refl.
Qed.

(** C1 (as amended).  Two [CreateReward] calls, one after the other,
    whose arguments both pass validation and agree on the user, the
    symbol, the quantity rounded to 6 decimals and the timestamp, on a
    store that answers every request and holds no live grant with that
    tuple: the first call succeeds, the second fails with the duplicate
    error and changes nothing; afterwards exactly one grant and exactly
    3 ledger rows exist for the tuple, and the holdings are those after
    the first call. *)
Theorem CreateReward_twice userID symbol q1 q2 timestamp w :
  faults w = [] ->
  ValidateStockSymbol symbol = None ->
  ValidateQuantity q1 = None ->
  ValidateQuantity q2 = None ->
  Round q1 6 = Round q2 6 ->
  grants_with userID symbol (Round q1 6) timestamp (store w) = [] ->
  Forall (fun le => le_reward_event_id le < reward_events_seq (store w))
    (ledger_entries (store w)) ->
  exists w1,
    CreateReward userID symbol q1 timestamp w = (inr tt, w1)
    /\ CreateReward userID symbol q2 timestamp w1 = (inl DuplicateGrant, w1)
    /\ length (grants_with userID symbol (Round q1 6) timestamp (store w1)) = 1%nat
    /\ length (entries_of_grants_with userID symbol (Round q1 6) timestamp (store w1))
       = 3%nat
    /\ forall user,
         GetUserStockHoldings user
           (snd (CreateReward userID symbol q2 timestamp w1))
         = GetUserStockHoldings user w1.
Proof.
  intros Hf Hsym Hq1 Hq2 Hround Hnew Hrefs.
  destruct (CreateReward_ok userID symbol q1 timestamp w Hf Hsym Hq1 Hnew)
    as (p & wp & _ & Hfp & _ & Hrun).
  eexists. split; [exact Hrun|].
  match type of Hrun with _ = (_, ?x) => set (w1 := x) in * end.
  assert (Hf1 : faults w1 = []) by exact Hfp.
  pose proof (exp_Round q1 6) as Hexp.
  set (q6 := Round q1 6) in *.
  set (id := reward_events_seq (store w)) in *.
  set (row := mk_reward_events_row id userID symbol (value q6) timestamp None).
  assert (Hgrants : grants_with userID symbol q6 timestamp (store w1) = [row]).
  { unfold grants_with, w1. cbn [store set_store reward_events].
    unfold grants_with in Hnew. rewrite List.filter_app, Hnew. cbn [List.filter app].
    unfold row. now rewrite duplicate_of_new_row. }
  assert (Hsecond :
    CreateReward userID symbol q2 timestamp w1 = (inl DuplicateGrant, w1)).
  { unfold CreateReward. rewrite Hsym, Hq2, <- Hround. fold q6.
    unfold bind at 1, attempt at 1. rewrite db_query_ok by exact Hf1.
    unfold grants_with in Hgrants. rewrite Hgrants. reflexivity. }
  split; [exact Hsecond|]. split; [now rewrite Hgrants|]. split.
  - unfold entries_of_grants_with, w1.
    cbn [store set_store reward_events ledger_entries].
    rewrite List.filter_app.
    replace (List.filter _ (ledger_entries (store w))) with (@nil ledger_entries_row).
    + assert (Hex : forall n e, RewardEventID e = id ->
                existsb (fun re => duplicate_of userID symbol q6 timestamp re
                                   && (re_id re =? le_reward_event_id (ledger_row n e)))
                  (reward_events (store w) ++ [row]) = true).
      { intros n e He. rewrite existsb_app. apply orb_true_iff. right.
        cbn [existsb]. unfold row at 1. rewrite duplicate_of_new_row by exact Hexp.
        cbn [re_id row ledger_row le_reward_event_id]. rewrite He, Z.eqb_refl.
        reflexivity. }
      unfold createLedgerEntriesInTx_entries.
      cbn [number_rows app List.filter].
      rewrite !Hex by reflexivity. reflexivity.
    + symmetry. apply filter_nil_iff. intros le Hle.
      rewrite existsb_app. apply orb_false_iff. split.
      * apply not_true_is_false. intros Hex.
        apply existsb_exists in Hex as (re & Hin & Hre).
        apply andb_true_iff in Hre as [Hdup _].
        unfold grants_with in Hnew.
        pose proof (proj1 (filter_nil_iff _ _) Hnew re Hin). congruence.
      * cbn [existsb]. rewrite orb_false_r. apply andb_false_iff. right.
        rewrite List.Forall_forall in Hrefs. specialize (Hrefs le Hle).
        cbn [re_id row]. apply Z.eqb_neq. unfold id. lia.
  - intros user. now rewrite Hsecond.
Qed.

(** C1, counterexample.  On a fresh store, a reward of 10000 shares
    succeeds; a second request for 10000.0000001 shares, the same tuple
    once the quantity is rounded to 6 decimals, is refused by the
    validation of the quantity, which runs before the rounding: the
    error is not the duplicate error.  The two quantities are the
    decimals [NewFromFloat] makes of 10000 and of 10000.0000001. *)
Lemma CreateReward_rounded_duplicate_not_reported :
  let q1 := New 1 4 in
  let q2 := New 100000000001 (-7) in
  Round q1 6 = Round q2 6
  /\ fst (CreateReward 1 "RELIANCE" q1 scenario.T scenario.fresh) = inr tt
  /\ fst (CreateReward 1 "RELIANCE" q2 scenario.T
            (snd (CreateReward 1 "RELIANCE" q1 scenario.T scenario.fresh)))
     = inl (Wrapf "invalid quantity" (Errorf "quantity cannot exceed 10000 shares"))
  /\ ~ one_success_one_duplicate 1 "RELIANCE" q1 q2 scenario.T scenario.fresh.
Proof.
  cbv zeta. split; [reflexivity|]. split; [vm_compute; reflexivity|].
  split; [vm_compute; reflexivity|].
  unfold one_success_one_duplicate. intros H. specialize (H eq_refl).
  vm_compute in H. destruct H as [_ H]. discriminate.
Qed.

(** The theorem at work: scenario B, the request of scenario A sent
    twice. *)
Lemma CreateReward_twice_witness :
  exists w1,
    CreateReward 1 "RELIANCE" (New 25 (-1)) scenario.T scenario.fresh = (inr tt, w1)
    /\ CreateReward 1 "RELIANCE" (New 25 (-1)) scenario.T w1 = (inl DuplicateGrant, w1)
    /\ length (grants_with 1 "RELIANCE" (Round (New 25 (-1)) 6) scenario.T (store w1))
       = 1%nat
    /\ length (entries_of_grants_with 1 "RELIANCE" (Round (New 25 (-1)) 6)
                 scenario.T (store w1)) = 3%nat
    /\ forall user,
         GetUserStockHoldings user
           (snd (CreateReward 1 "RELIANCE" (New 25 (-1)) scenario.T w1))
         = GetUserStockHoldings user w1.
Proof.
  apply (CreateReward_twice 1 "RELIANCE" (New 25 (-1)) (New 25 (-1))
           scenario.T scenario.fresh);
    try reflexivity.
  constructor.
Defined.


(** Scenario A, evaluated. *)
Example scenario_A_ledger :
  ledger_entries (store scenario.after_A)
  = [ mk_ledger_entries_row 1 1 EntryTypeStock (Some "RELIANCE"%string)
        2500000 61262500 scenario.T;
      mk_ledger_entries_row 2 1 EntryTypeCash (Some "RELIANCE"%string)
        0 (-61262500) scenario.T;
      mk_ledger_entries_row 3 1 EntryTypeFee (Some "RELIANCE"%string)
        0 (-82949) scenario.T ].
Proof. vm_compute. reflexivity. Qed.

End RewardRecorder.

(* ===================================================================== *)
(** * The ledger: reversal and holdings                                   *)
(* ===================================================================== *)

Section Ledger.

Lemma number_rows_reversal n t rows :
  number_rows n (map (reversal_of t) (map scan_ledger rows))
  = reversal_rows n t rows.
Proof.
  revert n. induction rows as [|o rows IH]; intros n; cbn; [reflexivity|].
  rewrite IH. f_equal.
Qed.

Lemma reversal_rows_length n t rows :
  length (reversal_rows n t rows) = length rows.
Proof. revert n. induction rows; intros n; cbn; auto. Qed.

Lemma sum_quantity_app l1 l2 :
  sum_quantity (l1 ++ l2) = sum_quantity l1 + sum_quantity l2.
Proof.
  unfold sum_quantity. induction l1 as [|a l1 IH]; cbn; [reflexivity|].
  rewrite IH. lia.
Qed.

Lemma sum_amount_app l1 l2 :
  sum_amount (l1 ++ l2) = sum_amount l1 + sum_amount l2.
Proof.
  unfold sum_amount. induction l1 as [|a l1 IH]; cbn; [reflexivity|].
  rewrite IH. lia.
Qed.

Lemma reversal_rows_sums P n t rows :
  row_class P ->
  sum_quantity (List.filter P (reversal_rows n t rows))
    = - sum_quantity (List.filter P rows)
  /\ sum_amount (List.filter P (reversal_rows n t rows))
     = - sum_amount (List.filter P rows)
  /\ length (List.filter P (reversal_rows n t rows))
     = length (List.filter P rows).
Proof.
  intros HP. revert n. induction rows as [|o rows IH]; intros n; cbn [reversal_rows].
  - repeat split.
  - destruct (IH (n + 1)) as (IHq & IHa & IHl). cbn [List.filter].
    rewrite (HP (mk_ledger_entries_row n (le_reward_event_id o) (le_entry_type o)
                   (le_stock_symbol o) (- le_quantity o) (- le_amount_inr o) t) o)
      by reflexivity.
    destruct (P o).
    + unfold sum_quantity, sum_amount in *. cbn. rewrite IHq, IHa, IHl.
      repeat split; lia.
    + repeat split; assumption.
Qed.

(** Splitting a ledger into the rows of one grant and the others. *)
Lemma sum_quantity_split id P rows :
  sum_quantity (List.filter P rows)
  = sum_quantity
      (List.filter P (List.filter (fun le => le_reward_event_id le =? id) rows))
    + sum_quantity
        (List.filter P
           (List.filter (fun le => negb (le_reward_event_id le =? id)) rows)).
Proof.
  unfold sum_quantity. induction rows as [|o rows IH]; cbn; [reflexivity|].
  destruct (le_reward_event_id o =? id); cbn; destruct (P o); cbn; lia.
Qed.

Lemma reversal_rows_same_reward id n t rows :
  Forall (fun le => le_reward_event_id le = id) rows ->
  Forall (fun le => le_reward_event_id le = id) (reversal_rows n t rows).
Proof.
  intros H. revert n. induction H as [|o rows Ho _ IH]; intros n; cbn; constructor; auto.
Qed.

Lemma entries_of_reward_same_reward id s :
  Forall (fun le => le_reward_event_id le = id) (entries_of_reward id s).
Proof.
  unfold entries_of_reward. apply List.Forall_forall. intros le Hle.
  apply List.filter_In in Hle as [_ Hle]. now apply Z.eqb_eq in Hle.
Qed.

Lemma filter_all {A} (f : A -> bool) l :
  Forall (fun x => f x = true) l -> List.filter f l = l.
Proof.
  induction 1 as [|a l Ha _ IH]; cbn; [reflexivity|]. now rewrite Ha, IH.
Qed.

Lemma filter_none {A} (f : A -> bool) l :
  Forall (fun x => f x = false) l -> List.filter f l = [].
Proof.
  induction 1 as [|a l Ha _ IH]; cbn; [reflexivity|]. now rewrite Ha, IH.
Qed.

(** The reversals of rows name the grants the rows name. *)
Lemma reversal_entries_reference s t rows :
  forallb (references_reward s) (map (reversal_of t) (map scan_ledger rows))
  = forallb
      (fun o => existsb (fun r => re_id r =? le_reward_event_id o) (reward_events s))
      rows.
Proof.
  induction rows as [|o rows IH]; [reflexivity|].
  cbn [map forallb]. now rewrite IH.
Qed.

Lemma entries_of_reward_reference id s :
  existsb (fun r => re_id r =? id) (reward_events s) = true ->
  forallb
    (fun o => existsb (fun r => re_id r =? le_reward_event_id o) (reward_events s))
    (entries_of_reward id s) = true.
Proof.
  intros H. apply forallb_forall. intros o Ho.
  pose proof (entries_of_reward_same_reward id s) as Hall.
  rewrite List.Forall_forall in Hall. now rewrite (Hall o Ho).
Qed.

Lemma insert_reversal_entries s t rows :
  insert_ledger_entries s (map (reversal_of t) (map scan_ledger rows))
  = match rows with
    | [] => inl ErrEmptySlice
    | _ =>
        if forallb
             (fun o =>
                existsb (fun r => re_id r =? le_reward_event_id o) (reward_events s))
             rows
        then
          inr (mkStore (reward_events s)
                 (ledger_entries s ++ reversal_rows (ledger_entries_seq s) t rows)
                 (price_history s) (reward_events_seq s)
                 (ledger_entries_seq s + Z.of_nat (length rows))
                 (price_history_seq s))
        else inl ErrStore
    end.
Proof.
  destruct rows as [|o rows]; [reflexivity|].
  rewrite <- number_rows_reversal, <- (reversal_entries_reference s t).
  unfold insert_ledger_entries. cbn [map]. rewrite !length_cons, !length_map.
  reflexivity.
Qed.

(** What a successful reversal does to the store, whatever the faults. *)
Lemma CreateReversalEntries_success rewardEvent w w' :
  CreateReversalEntries rewardEvent w = (inr tt, w') ->
  let id := RewardEvent_ID rewardEvent in
  entries_of_reward id (store w) <> []
  /\ store w'
     = mkStore (reward_events (store w))
         (ledger_entries (store w) ++
            reversal_rows (ledger_entries_seq (store w)) (now w)
              (entries_of_reward id (store w)))
         (price_history (store w)) (reward_events_seq (store w))
         (ledger_entries_seq (store w)
          + Z.of_nat (length (entries_of_reward id (store w))))
         (price_history_seq (store w))
  /\ now w' = now w.
Proof.
  intros H. cbv zeta. unfold CreateReversalEntries in H.
  unfold bind at 1, attempt at 1 in H.
  match type of H with context [db_query ?q w] =>
    destruct (db_query_cases q w) as (fs1 & Hs1 & Hw1 & Hr1);
    destruct (db_query q w) as [r1 w1] end.
  cbn [fst snd] in *.
  destruct r1 as [err|originalEntries]; [discriminate|].
  destruct Hr1 as [Hr1|Hr1]; [discriminate|]. injection Hr1 as ->.
  unfold bind at 1 in H. rewrite CreateReversalEntries_loop_run in H.
  cbn [app] in H.
  unfold bind at 1, attempt at 1 in H.
  match type of H with context [db_exec ?op w1] =>
    destruct (db_exec_cases op w1) as [(fs2 & _ & E2)|(fs2 & _ & E2)];
    rewrite E2 in H; clear E2 end.
  { discriminate. }
  subst w1. cbn [store set_faults now] in H.
  rewrite insert_reversal_entries in H.
  destruct (entries_of_reward (RewardEvent_ID rewardEvent) (store w)) as [|o rows] eqn:E.
  { discriminate. }
  destruct (forallb _ _) in H; [|discriminate].
  cbn in H. injection H as <-.
  split; [discriminate|]. cbn [store set_store set_faults now].
  split; reflexivity.
Qed.

(** ** Holdings as a map *)

Lemma holdingsMap_step_notin (l : list (string * Z)) (m : gmap string Decimal) k :
  k ∉ map fst l ->
  fold_left (fun m h => <[fst h := of_numeric 6 (snd h)]> m) l m !! k = m !! k.
Proof.
  revert m. induction l as [|[k' z'] l IH]; intros m Hk; cbn; [reflexivity|].
  cbn in Hk. apply not_elem_of_cons in Hk as [Hne Hk].
  rewrite IH by exact Hk. now rewrite lookup_insert_ne.
Qed.

Lemma holdingsMap_step_in (l : list (string * Z)) (m : gmap string Decimal) k z :
  NoDup (map fst l) ->
  (k, z) ∈ l ->
  fold_left (fun m h => <[fst h := of_numeric 6 (snd h)]> m) l m !! k
  = Some (of_numeric 6 z).
Proof.
  revert m. induction l as [|[k' z'] l IH]; intros m Hnd Hin; cbn.
  - now apply elem_of_nil in Hin.
  - cbn in Hnd. apply NoDup_cons in Hnd as [Hk' Hnd].
    apply elem_of_cons in Hin as [Heq|Hin].
    + injection Heq as <- <-.
      rewrite holdingsMap_step_notin by exact Hk'. apply lookup_insert_eq.
    + now apply IH.
Qed.

Lemma has_symbol_nonempty sym rows :
  List.filter (has_symbol sym) rows <> [] -> sym ∈ symbols_of rows.
Proof.
  intros H. unfold symbols_of. apply elem_of_remove_dups, list_elem_of_omap.
  destruct (List.filter (has_symbol sym) rows) as [|o l] eqn:E; [contradiction|].
  assert (Ho : In o (List.filter (has_symbol sym) rows)) by (rewrite E; now left).
  apply List.filter_In in Ho as [Hin Hsym].
  exists o. split; [now apply list_elem_of_In|].
  unfold has_symbol in Hsym. destruct (le_stock_symbol o) as [s0|]; [|discriminate].
  apply String.eqb_eq in Hsym. now subst.
Qed.

(** The holdings of a symbol: the sum of its rows when positive. *)
Lemma holdings_lookup s userID endDate sym :
  holdingsMap (holdings_query s userID endDate) !! sym
  = let total :=
      sum_quantity (List.filter (has_symbol sym) (holdings_rows s userID endDate)) in
    if 0 <? total then Some (of_numeric 6 total) else None.
Proof.
  cbv zeta. unfold holdingsMap, holdings_query.
  set (rows := holdings_rows s userID endDate).
  set (tot := fun sym => sum_quantity (List.filter (has_symbol sym) rows)).
  change (sum_quantity (List.filter (has_symbol sym) rows)) with (tot sym).
  set (l := List.filter (fun h : string * Z => 0 <? snd h)
              (map (fun sym => (sym, tot sym)) (symbols_of rows))).
  assert (Hl : forall k z, (k, z) ∈ l <-> k ∈ symbols_of rows /\ z = tot k /\ 0 < z).
  { intros k z. unfold l. rewrite list_elem_of_In, List.filter_In, in_map_iff. cbn.
    rewrite Z.ltb_lt. split.
    - intros [(sym' & Heq & Hin) Hpos]. injection Heq as <- <-.
      now rewrite list_elem_of_In.
    - intros (Hin & -> & Hpos). split; [|exact Hpos].
      exists k. split; [reflexivity|now apply list_elem_of_In]. }
  assert (Hnd : NoDup (map fst l)).
  { unfold l. generalize (NoDup_remove_dups (omap le_stock_symbol rows)).
    fold (symbols_of rows). generalize (symbols_of rows) as syms.
    induction syms as [|a syms IH]; intros Hnd; cbn; [constructor|].
    apply NoDup_cons in Hnd as [Ha Hnd].
    destruct (0 <? tot a); cbn; [|now apply IH].
    apply NoDup_cons. split; [|now apply IH].
    intros Hin. apply Ha. clear - Hin.
    induction syms as [|b syms IH]; cbn in *; [now apply elem_of_nil in Hin|].
    destruct (0 <? tot b); cbn in *.
    - apply elem_of_cons in Hin as [->|Hin]; [apply list_elem_of_here|].
      apply list_elem_of_further. now apply IH.
    - apply list_elem_of_further. now apply IH. }
  destruct (Z.ltb_spec 0 (tot sym)) as [Hpos|Hle].
  - apply holdingsMap_step_in; [exact Hnd|]. apply Hl. repeat split; [|exact Hpos].
    apply has_symbol_nonempty. intros Hnil. unfold tot in Hpos.
    fold rows in Hpos. rewrite Hnil in Hpos. cbn in Hpos. lia.
  - rewrite holdingsMap_step_notin; [apply lookup_empty|].
    intros Hin. apply list_elem_of_In, in_map_iff in Hin as ([k z] & Hk & Hin).
    cbn in Hk. subst k. apply list_elem_of_In, Hl in Hin as (_ & -> & Hpos). lia.
Qed.

(** The test of the holdings queries reads only the grant, the kind and
    the symbol of a row, and only the grants of the store. *)
Lemma holdings_where_class s userID endDate sym :
  row_class (fun le => holdings_where s userID endDate le && has_symbol sym le).
Proof.
  intros a b Hid Hty Hsy. unfold holdings_where, has_symbol.
  now rewrite Hid, Hty, Hsy.
Qed.

Lemma filter_filter {A} (f g : A -> bool) l :
  List.filter f (List.filter g l) = List.filter (fun x => g x && f x) l.
Proof.
  induction l as [|a l IH]; cbn; [reflexivity|].
  destruct (g a); cbn; [destruct (f a)|]; now rewrite IH.
Qed.

(** After a reversal of a grant, the rows of the grant add nothing to any
    holdings query. *)
Lemma holdings_total_after_reversal rewardEvent w w' userID endDate sym :
  CreateReversalEntries rewardEvent w = (inr tt, w') ->
  sum_quantity (List.filter (has_symbol sym) (holdings_rows (store w') userID endDate))
  = sum_quantity
      (List.filter (has_symbol sym)
         (holdings_rows (without_reward (RewardEvent_ID rewardEvent) (store w'))
            userID endDate)).
Proof.
  intros H. apply CreateReversalEntries_success in H as (_ & Hs & _).
  cbv zeta in Hs. rewrite Hs. clear Hs w'.
  set (id := RewardEvent_ID rewardEvent). set (s := store w).
  set (R := reversal_rows (ledger_entries_seq s) (now w) (entries_of_reward id s)).
  unfold holdings_rows, without_reward. cbn [ledger_entries].
  set (hw := holdings_where s userID endDate).
  match goal with
  | |- sum_quantity (List.filter _ (List.filter (holdings_where ?s1 _ _) _))
       = sum_quantity (List.filter _ (List.filter (holdings_where ?s2 _ _) _)) =>
      change (holdings_where s1 userID endDate) with hw;
      change (holdings_where s2 userID endDate) with hw
  end.
  do 2 rewrite (filter_filter (has_symbol sym) hw).
  set (P := fun le => hw le && has_symbol sym le).
  assert (HP : row_class P) by apply holdings_where_class.
  rewrite !List.filter_app, !sum_quantity_app.
  destruct (reversal_rows_sums P (ledger_entries_seq s) (now w)
              (entries_of_reward id s) HP) as (Hq & _ & _).
  fold R in Hq. rewrite Hq.
  assert (HR : List.filter (fun le => negb (le_reward_event_id le =? id)) R = []).
  { apply filter_none.
    eapply List.Forall_impl; [|apply reversal_rows_same_reward, entries_of_reward_same_reward].
    cbn. intros le ->. now rewrite Z.eqb_refl. }
  rewrite HR. cbn [List.filter]. change (sum_quantity []) with 0.
  rewrite (sum_quantity_split id P (ledger_entries s)).
  unfold entries_of_reward. fold s. lia.
Qed.

(** Holdings after a reversal are the holdings of the store without the
    grant, for the query with or without a date bound. *)
Lemma holdings_after_reversal rewardEvent w w' userID endDate :
  CreateReversalEntries rewardEvent w = (inr tt, w') ->
  holdingsMap (holdings_query (store w') userID endDate)
  = holdingsMap
      (holdings_query (without_reward (RewardEvent_ID rewardEvent) (store w'))
         userID endDate).
Proof.
  intros H. apply map_eq. intros sym. rewrite !holdings_lookup. cbv zeta.
  now rewrite (holdings_total_after_reversal rewardEvent w w' userID endDate sym H).
Qed.

Lemma entries_after_reversal rewardEvent w w' :
  CreateReversalEntries rewardEvent w = (inr tt, w') ->
  let id := RewardEvent_ID rewardEvent in
  entries_of_reward id (store w')
  = entries_of_reward id (store w) ++
      reversal_rows (ledger_entries_seq (store w)) (now w)
        (entries_of_reward id (store w)).
Proof.
  intros H. apply CreateReversalEntries_success in H as (_ & Hs & _).
  cbv zeta in *. rewrite Hs. unfold entries_of_reward at 1. cbn [ledger_entries].
  rewrite List.filter_app. f_equal. apply filter_all.
  eapply List.Forall_impl; [|apply reversal_rows_same_reward, entries_of_reward_same_reward].
  cbn. intros le ->. apply Z.eqb_refl.
Qed.

Lemma reversal_rows_negate n t rows :
  Forall2
    (fun o r =>
       le_reward_event_id r = le_reward_event_id o
       /\ le_entry_type r = le_entry_type o
       /\ le_stock_symbol r = le_stock_symbol o
       /\ le_quantity r = - le_quantity o
       /\ le_amount_inr r = - le_amount_inr o
       /\ le_timestamp r = t)
    rows (reversal_rows n t rows).
Proof.
  revert n. induction rows as [|o rows IH]; intros n; cbn; constructor; auto.
  repeat split.
Qed.

Lemma GetUserStockHoldings_ok user w :
  faults w = [] ->
  GetUserStockHoldings user w
  = (inr (holdingsMap (holdings_query (store w) user None)), w).
Proof.
  intros Hf. unfold GetUserStockHoldings, bind, attempt.
  now rewrite db_query_ok by exact Hf.
Qed.

Lemma GetUserStockHoldingsUpToDate_ok user t w :
  faults w = [] ->
  GetUserStockHoldingsUpToDate user t w
  = (inr (holdingsMap (holdings_query (store w) user (Some t))), w).
Proof.
  intros Hf. unfold GetUserStockHoldingsUpToDate, bind, attempt.
  now rewrite db_query_ok by exact Hf.
Qed.

(** C5.  After a successful reversal of a grant, each of the entries the
    grant had (in particular its three original entries) has a
    counterpart with the same kind and symbol and with negated quantity
    and amount; per kind the quantities and the amounts of the grant
    sum to zero; and the holdings of every user are those of the store
    without the grant. *)
Theorem reversal_nullifies rewardEvent w w' :
  CreateReversalEntries rewardEvent w = (inr tt, w') ->
  let id := RewardEvent_ID rewardEvent in
  let originals := entries_of_reward id (store w) in
  let reversals :=
    reversal_rows (ledger_entries_seq (store w)) (now w) originals in
  entries_of_reward id (store w') = originals ++ reversals
  /\ Forall2
       (fun o r =>
          le_reward_event_id r = le_reward_event_id o
          /\ le_entry_type r = le_entry_type o
          /\ le_stock_symbol r = le_stock_symbol o
          /\ le_quantity r = - le_quantity o
          /\ le_amount_inr r = - le_amount_inr o
          /\ le_timestamp r = now w)
       originals reversals
  /\ (forall k,
        sum_quantity (of_kind k (entries_of_reward id (store w'))) = 0
        /\ sum_amount (of_kind k (entries_of_reward id (store w'))) = 0)
  /\ (forall user,
        holdingsMap (holdings_query (store w') user None)
        = holdingsMap (holdings_query (without_reward id (store w')) user None))
  /\ (faults w' = [] ->
      forall user,
        fst (GetUserStockHoldings user w')
        = fst (GetUserStockHoldings user
                 (set_store w' (without_reward id (store w'))))).
Proof.
  intros H. cbv zeta.
  pose proof (entries_after_reversal rewardEvent w w' H) as Hent. cbv zeta in Hent.
  split; [exact Hent|]. split; [apply reversal_rows_negate|]. split; [|split].
  - intros k. rewrite Hent. unfold of_kind.
    rewrite List.filter_app, sum_quantity_app, sum_amount_app.
    match goal with |- context [List.filter ?P (reversal_rows ?n ?t ?rows)] =>
      destruct (reversal_rows_sums P n t rows) as (Hq & Ha & _) end.
    { intros a b _ Hty _. now rewrite Hty. }
    rewrite Hq, Ha. lia.
  - intros user. now apply (holdings_after_reversal rewardEvent w).
  - intros Hf user.
    rewrite !GetUserStockHoldings_ok by exact Hf. cbn [fst store set_store].
    f_equal. now apply (holdings_after_reversal rewardEvent w).
Qed.

(** C10.  After a successful reversal of a grant, [holdingsAsOf] of
    every user at every instant is that of the store without the grant:
    the grant's quantity is excluded at every instant at or after the
    grant's event timestamp, also at instants before the reversal was
    performed.  The rows of the reversal carry the reference of the
    grant and the instant of the reversal as their own timestamp, and the
    test of the query does not read the timestamp of a row. *)
Theorem reversal_is_retroactive rewardEvent w w' :
  CreateReversalEntries rewardEvent w = (inr tt, w') ->
  let id := RewardEvent_ID rewardEvent in
  let reversals :=
    reversal_rows (ledger_entries_seq (store w)) (now w)
      (entries_of_reward id (store w)) in
  (forall user t,
      holdingsMap (holdings_query (store w') user (Some t))
      = holdingsMap (holdings_query (without_reward id (store w')) user (Some t)))
  /\ (faults w' = [] ->
      forall user t,
        fst (GetUserStockHoldingsUpToDate user t w')
        = fst (GetUserStockHoldingsUpToDate user t
                 (set_store w' (without_reward id (store w')))))
  /\ ledger_entries (store w') = ledger_entries (store w) ++ reversals
  /\ Forall (fun r => le_reward_event_id r = id /\ le_timestamp r = now w) reversals
  /\ (forall s user endDate le t,
        holdings_where s user endDate le
        = holdings_where s user endDate
            (mk_ledger_entries_row (le_id le) (le_reward_event_id le)
               (le_entry_type le) (le_stock_symbol le) (le_quantity le)
               (le_amount_inr le) t)).
Proof.
  intros H. cbv zeta. split; [|split; [|split; [|split]]].
  - intros user t. now apply (holdings_after_reversal rewardEvent w).
  - intros Hf user t.
    rewrite !GetUserStockHoldingsUpToDate_ok by exact Hf. cbn [fst store set_store].
    f_equal. now apply (holdings_after_reversal rewardEvent w).
  - apply CreateReversalEntries_success in H as (_ & Hs & _). cbv zeta in Hs.
    now rewrite Hs.
  - pose proof (entries_of_reward_same_reward (RewardEvent_ID rewardEvent) (store w)) as Hall.
    generalize (ledger_entries_seq (store w)).
    induction Hall as [|o rows Ho _ IH]; intros n; cbn; constructor; auto.
  - reflexivity.
Qed.

Lemma CreateReversalEntries_ok rewardEvent w :
  faults w = [] ->
  existsb (fun r => re_id r =? RewardEvent_ID rewardEvent) (reward_events (store w))
  = true ->
  entries_of_reward (RewardEvent_ID rewardEvent) (store w) <> [] ->
  exists w1, CreateReversalEntries rewardEvent w = (inr tt, w1) /\ faults w1 = [].
Proof.
  intros Hf Hgrant Hne. unfold CreateReversalEntries, bind, attempt.
  rewrite db_query_ok by exact Hf. rewrite CreateReversalEntries_loop_run.
  cbn [app].
  rewrite db_exec_ok by exact Hf. rewrite insert_reversal_entries.
  rewrite (entries_of_reward_reference _ _ Hgrant).
  destruct (entries_of_reward _ _); [contradiction|].
  eexists. split; [reflexivity|exact Hf].
Qed.

Lemma sums_zero_after_reversal rewardEvent w w1 k :
  CreateReversalEntries rewardEvent w = (inr tt, w1) ->
  sum_quantity (of_kind k (entries_of_reward (RewardEvent_ID rewardEvent) (store w1))) = 0
  /\ sum_amount (of_kind k (entries_of_reward (RewardEvent_ID rewardEvent) (store w1))) = 0.
Proof.
  intros H. pose proof (entries_after_reversal rewardEvent w w1 H) as Hent.
  cbv zeta in Hent. rewrite Hent. unfold of_kind.
  rewrite List.filter_app, sum_quantity_app, sum_amount_app.
  match goal with |- context [List.filter ?P (reversal_rows ?n ?t ?rows)] =>
    destruct (reversal_rows_sums P n t rows) as (Hq & Ha & _) end.
  { intros a b _ Hty _. now rewrite Hty. }
  rewrite Hq, Ha. lia.
Qed.

(** How far the slip of [CreateReversalEntries] reaches.  The query
    [Where("reward_event_id = ?")] selects every row that names the grant,
    and a reversal row names it too; so, when the store answers, every
    invocation after the first reads the rows of the earlier reversals
    together with the original ones, and the rows of the grant double
    with each invocation while their sums per kind stay at zero. *)
Lemma reverse_times_renegates_all n rewardEvent w :
  faults w = [] ->
  existsb (fun r => re_id r =? RewardEvent_ID rewardEvent) (reward_events (store w))
  = true ->
  entries_of_reward (RewardEvent_ID rewardEvent) (store w) <> [] ->
  let id := RewardEvent_ID rewardEvent in
  let w' := snd (reverse_times n rewardEvent w) in
  fst (reverse_times n rewardEvent w) = inr tt
  /\ (exists w1,
        CreateReversalEntries rewardEvent w' = (inr tt, w1)
        /\ entries_of_reward id (store w1)
           = entries_of_reward id (store w') ++
               reversal_rows (ledger_entries_seq (store w')) (now w')
                 (entries_of_reward id (store w')))
  /\ length (entries_of_reward id (store w'))
     = (2 ^ n * length (entries_of_reward id (store w)))%nat
  /\ ((1 <= n)%nat ->
      forall k,
        sum_quantity (of_kind k (entries_of_reward id (store w'))) = 0
        /\ sum_amount (of_kind k (entries_of_reward id (store w'))) = 0).
Proof.
  cbv zeta. revert w. induction n as [|n IH]; intros w Hf Hgrant Hne.
  - cbn [reverse_times ret fst snd]. split; [reflexivity|]. split; [|split; [cbn; lia|lia]].
    destruct (CreateReversalEntries_ok rewardEvent w Hf Hgrant Hne) as (w1 & Hrun & _).
    exists w1. split; [exact Hrun|]. now apply entries_after_reversal.
  - cbn [reverse_times]. unfold bind.
    destruct (CreateReversalEntries_ok rewardEvent w Hf Hgrant Hne) as (w1 & Hrun & Hf1).
    rewrite Hrun.
    pose proof (entries_after_reversal rewardEvent w w1 Hrun) as Hent.
    cbv zeta in Hent.
    assert (Hne1 : entries_of_reward (RewardEvent_ID rewardEvent) (store w1) <> []).
    { rewrite Hent. intros Happ. apply app_eq_nil in Happ as [Happ _]. contradiction. }
    assert (Hgrant1 : existsb (fun r => re_id r =? RewardEvent_ID rewardEvent)
                        (reward_events (store w1)) = true).
    { pose proof (CreateReversalEntries_success rewardEvent w w1 Hrun) as (_ & Hs & _).
      now rewrite Hs. }
    destruct (IH w1 Hf1 Hgrant1 Hne1) as (Hr & Hnext & Hlen & Hzero).
    split; [exact Hr|]. split; [exact Hnext|]. split.
    + rewrite Hlen, Hent, length_app, reversal_rows_length, Nat.pow_succ_r'. lia.
    + intros _ k. destruct n as [|n].
      * cbn [reverse_times ret snd]. now apply (sums_zero_after_reversal rewardEvent w).
      * apply Hzero. lia.
Qed.

(** The theorem at work: the grant of scenario A, with its three
    original entries, reversed once. *)
Lemma reversal_nullifies_witness :
  length (entries_of_reward 1 (store scenario.after_A)) = 3%nat
  /\ (forall k,
        sum_quantity (of_kind k (entries_of_reward 1 (store scenario.after_reversal))) = 0
        /\ sum_amount (of_kind k (entries_of_reward 1 (store scenario.after_reversal))) = 0)
  /\ (forall user,
        holdingsMap (holdings_query (store scenario.after_reversal) user None)
        = holdingsMap
            (holdings_query (without_reward 1 (store scenario.after_reversal)) user None)).
Proof.
  assert (Hrun : CreateReversalEntries scenario.grant_A scenario.after_A
                 = (inr tt, scenario.after_reversal)) by (vm_compute; reflexivity).
  pose proof (reversal_nullifies scenario.grant_A scenario.after_A
                scenario.after_reversal Hrun) as H.
  cbv zeta in H. destruct H as (_ & _ & Hsum & Hhold & _).
  split; [vm_compute; reflexivity|]. split; assumption.
Defined.

(** Scenario A reversed: the holdings of user 1, 2.5 RELIANCE before the
    reversal, are empty after it. *)
Example holdings_before_and_after_reversal :
  map_to_list (holdingsMap (holdings_query (store scenario.after_A) 1 None))
    = [("RELIANCE"%string, New 2500000 (-6))]
  /\ map_to_list (holdingsMap (holdings_query (store scenario.after_reversal) 1 None))
     = [].
Proof. evaluate_conjuncts. Qed.

(** The theorem at work: the grant of scenario A, of 2025-01-23,
    reversed the next morning; the holdings as of the end of 2025-01-23,
    before the reversal was performed, no longer count the grant. *)
Lemma reversal_is_retroactive_witness :
  (forall user t,
      holdingsMap (holdings_query (store scenario.after_reversal) user (Some t))
      = holdingsMap
          (holdings_query (without_reward 1 (store scenario.after_reversal))
             user (Some t)))
  /\ EndOfDayUTC scenario.T < now scenario.after_A
  /\ map_to_list
       (holdingsMap
          (holdings_query (store scenario.after_A) 1 (Some (EndOfDayUTC scenario.T))))
     = [("RELIANCE"%string, New 2500000 (-6))]
  /\ map_to_list
       (holdingsMap
          (holdings_query (store scenario.after_reversal) 1
             (Some (EndOfDayUTC scenario.T))))
     = [].
Proof.
  assert (Hrun : CreateReversalEntries scenario.grant_A scenario.after_A
                 = (inr tt, scenario.after_reversal)) by (vm_compute; reflexivity).
  pose proof (reversal_is_retroactive scenario.grant_A scenario.after_A
                scenario.after_reversal Hrun) as H.
  cbv zeta in H. destruct H as (Hhold & _).
  split; [exact Hhold|]. evaluate_conjuncts.
Defined.

(** C4.  The code at the input on which it leaves the claim: the grant
    of scenario A, reversed once, is reversed a second time.  The grant
    has 3 entries and the first reversal leaves 6.  The source reads the
    rows to negate into [originalEntries], under the comment "Get original
    ledger entries", but selects them by [reward_event_id] alone, and a
    reversal row carries the [reward_event_id] of the row it negates: the
    second invocation reads back all 6 rows and writes 6 more.  The grant
    then has 12 entries, not [3 + 3 * 2 = 9]; the rows of the second
    reversal are the negation of the 6 rows, not of the 3 original ones;
    and the net STOCK quantity of the grant is zero, not minus the
    original quantity. *)
Theorem reversal_twice_rereads_reversals :
  fst (reverse_times 2 scenario.grant_A scenario.after_A) = inr tt
  /\ length (entries_of_reward 1 (store scenario.after_A)) = 3%nat
  /\ length (entries_of_reward 1 (store scenario.after_reversal)) = 6%nat
  /\ length (entries_of_reward 1 (store scenario.after_two_reversals)) = 12%nat
  /\ skipn 6 (entries_of_reward 1 (store scenario.after_two_reversals))
     = reversal_rows 7 scenario.next_morning
         (entries_of_reward 1 (store scenario.after_reversal))
  /\ skipn 6 (entries_of_reward 1 (store scenario.after_two_reversals))
     <> reversal_rows 7 scenario.next_morning
          (entries_of_reward 1 (store scenario.after_A))
  /\ map le_quantity
       (of_kind EntryTypeStock
          (entries_of_reward 1 (store scenario.after_two_reversals)))
     = [2500000; -2500000; -2500000; 2500000]
  /\ sum_quantity
       (of_kind EntryTypeStock
          (entries_of_reward 1 (store scenario.after_two_reversals))) = 0
  /\ ~ has_three_more_per_reversal 2 scenario.grant_A scenario.after_A.
Proof.
  repeat match goal with |- _ /\ _ => split end; try (vm_compute; reflexivity).
  - vm_compute. discriminate.
  - unfold has_three_more_per_reversal. vm_compute. discriminate.
Qed.

End Ledger.

(* ===================================================================== *)
(** * Historical valuation                                                *)
(* ===================================================================== *)

Section Historical.

Lemma nsPerDay_pos : 0 < nsPerDay.
Proof. reflexivity. Qed.

Lemma StartOfDay_multiple t : exists k, StartOfDayUTC t = k * nsPerDay.
Proof.
  exists (t / nsPerDay). unfold StartOfDayUTC, StartOfDay, UTC.
  pose proof (Z.div_mod t nsPerDay). pose proof nsPerDay_pos. lia.
Qed.

Lemma StartOfDay_idem t : StartOfDayUTC (StartOfDayUTC t) = StartOfDayUTC t.
Proof.
  destruct (StartOfDay_multiple t) as [k Hk]. rewrite Hk.
  unfold StartOfDayUTC, StartOfDay, UTC. rewrite Z.mod_mul; [lia|].
  pose proof nsPerDay_pos. lia.
Qed.

Lemma StartOfDay_le t : StartOfDayUTC t <= t < StartOfDayUTC t + nsPerDay.
Proof.
  unfold StartOfDayUTC, StartOfDay, UTC.
  pose proof (Z.mod_pos_bound t nsPerDay nsPerDay_pos). lia.
Qed.

(** The loop of [GetPastDates] over the days [a, a + 1 day, ..., b]. *)
Lemma GetPastDates_loop_days n : forall m a b acc fuel,
  a = b - m * nsPerDay ->
  n = Z.to_nat (m + 1) ->
  (n < fuel)%nat ->
  GetPastDates_loop fuel a b acc
  = Some (acc ++ map (fun i => a + Z.of_nat i * nsPerDay) (seq 0 n)).
Proof.
  pose proof nsPerDay_pos as HD.
  induction n as [|n IH]; intros m a b acc fuel Ha Hn Hfuel.
  - destruct fuel as [|fuel]; [lia|]. cbn [GetPastDates_loop].
    unfold After. destruct (Z.ltb_spec b a) as [_|Hle]; cbn [negb].
    + now rewrite app_nil_r.
    + exfalso. assert (0 <= m) by nia. lia.
  - destruct fuel as [|fuel]; [lia|]. cbn [GetPastDates_loop].
    unfold After. destruct (Z.ltb_spec b a) as [Hlt|_]; cbn [negb].
    + exfalso. assert (m < 0) by nia. lia.
    + rewrite (IH (m - 1)); unfold AddDate_days; try lia.
      rewrite <- app_assoc. cbn [app seq map]. f_equal. f_equal. f_equal.
      * lia.
      * rewrite <- seq_shift, map_map. apply map_ext. intros i. lia.
Qed.

Lemma GetPastDates_days startDate endDate :
  GetPastDates startDate endDate
  = days_from_through (StartOfDayUTC startDate) (StartOfDayUTC endDate).
Proof.
  unfold GetPastDates, GetPastDates_fuel, GetPastDates_enough, days_from_through.
  destruct (StartOfDay_multiple startDate) as [ka Ha].
  destruct (StartOfDay_multiple endDate) as [kb Hb].
  pose proof nsPerDay_pos as HD.
  assert (Hm : (StartOfDayUTC endDate - StartOfDayUTC startDate) / nsPerDay = kb - ka).
  { rewrite Ha, Hb. replace (kb * nsPerDay - ka * nsPerDay) with ((kb - ka) * nsPerDay) by lia.
    apply Z.div_mul. lia. }
  rewrite Hm.
  rewrite (GetPastDates_loop_days (Z.to_nat (kb - ka + 1)) (kb - ka)); try lia.
  reflexivity.
Qed.

(** The days of the range are whole days, in order, and none is after
    [last]. *)
Lemma days_from_through_bound first last d :
  In d (days_from_through first last) -> first <= d <= last.
Proof.
  unfold days_from_through. intros H. apply in_map_iff in H as (i & <- & Hi).
  apply in_seq in Hi. pose proof nsPerDay_pos as HD.
  assert (Hpos : 0 < (last - first) / nsPerDay + 1) by lia.
  assert (Hi' : Z.of_nat i <= (last - first) / nsPerDay) by lia.
  pose proof (Z.mul_div_le (last - first) nsPerDay HD). nia.
Qed.

Lemma GetYesterday_before_today t :
  GetYesterday t = StartOfDayUTC t - nsPerDay.
Proof.
  unfold GetYesterday, AddDate_days, StartOfDayUTC, StartOfDay, UTC.
  replace (t + -1 * nsPerDay) with (t + (-1) * nsPerDay) by lia.
  rewrite Z.mod_add by (pose proof nsPerDay_pos; lia). lia.
Qed.

(** With enough fuel the loop of [GetPastDates] leaves, and any larger
    amount of fuel gives the same dates. *)
Lemma GetPastDates_fuel_enough startDate endDate fuel :
  (GetPastDates_enough startDate endDate <= fuel)%nat ->
  GetPastDates_fuel fuel startDate endDate = Some (GetPastDates startDate endDate).
Proof.
  intros Hfuel. rewrite GetPastDates_days.
  unfold GetPastDates_fuel, GetPastDates_enough, days_from_through in *.
  destruct (StartOfDay_multiple startDate) as [ka Ha].
  destruct (StartOfDay_multiple endDate) as [kb Hb].
  pose proof nsPerDay_pos as HD.
  assert (Hm : (StartOfDayUTC endDate - StartOfDayUTC startDate) / nsPerDay = kb - ka).
  { rewrite Ha, Hb. replace (kb * nsPerDay - ka * nsPerDay) with ((kb - ka) * nsPerDay) by lia.
    apply Z.div_mul. lia. }
  rewrite Hm in *.
  rewrite (GetPastDates_loop_days (Z.to_nat (kb - ka + 1)) (kb - ka)); try lia.
  reflexivity.
Qed.

Lemma GetPriceAtTime_answers symbol t w :
  faults w = [] ->
  exists p wp,
    GetPriceAtTime symbol t w = (inr p, wp) /\ faults wp = [] /\ same_ledger w wp.
Proof.
  intros Hf. unfold GetPriceAtTime, bind, attempt.
  rewrite db_query_ok by exact Hf.
  destruct (first_by _ _) as [row|]; cbn [first_or_not_found is_ErrRecordNotFound].
  - eexists _, _. split; [reflexivity|]. split; [exact Hf|apply same_ledger_refl].
  - now apply GetCurrentPrice_answers.
Qed.

Lemma sum_values_ok priceOf holdings acc w :
  answers priceOf ->
  faults w = [] ->
  sum_values priceOf holdings acc w = sum_over priceOf holdings acc w
  /\ exists v w', sum_over priceOf holdings acc w = (inr v, w')
                  /\ faults w' = [] /\ same_ledger w w'.
Proof.
  intros Hans. revert acc w.
  induction holdings as [|[symbol qty] rest IH]; intros acc w Hf; cbn [sum_values sum_over].
  - split; [reflexivity|]. eexists _, _. split; [reflexivity|].
    split; [exact Hf|apply same_ledger_refl].
  - unfold bind, attempt.
    destruct (Hans symbol w Hf) as (p & wp & Hp & Hfp & Hframe). rewrite Hp.
    destruct (IH (Add acc (Mul p qty)) wp Hfp) as (Heq & v & w' & Hv & Hf' & Hframe').
    split; [exact Heq|]. exists v, w'. split; [exact Hv|]. split; [exact Hf'|].
    eapply same_ledger_trans; eassumption.
Qed.

Lemma daily_value_ok userID day w :
  faults w = [] ->
  exists v w',
    daily_value userID day w = (inr (mkDailyValue day v), w')
    /\ faults w' = [] /\ same_ledger w w'.
Proof.
  intros Hf. unfold daily_value. unfold bind at 1.
  rewrite GetUserStockHoldingsUpToDate_ok by exact Hf.
  unfold bind at 1.
  match goal with |- context [sum_over ?f ?l ?a w] =>
    destruct (sum_values_ok f l a w) as (_ & v & w' & Hv & Hf' & Hframe) end.
  { intros symbol w0. apply GetPriceAtTime_answers. }
  { exact Hf. }
  rewrite Hv. eexists _, _. split; [reflexivity|]. now split.
Qed.

Lemma GetHistoricalINR_loop_ok userID days result w :
  faults w = [] ->
  exists vs w',
    for_each_day (daily_value userID) days w = (inr vs, w')
    /\ GetHistoricalINR_loop userID days result w = (inr (result ++ vs), w')
    /\ map date vs = days
    /\ faults w' = [].
Proof.
  revert result w. induction days as [|day rest IH]; intros result w Hf;
    cbn [for_each_day GetHistoricalINR_loop].
  - exists [], w. rewrite app_nil_r. repeat split. exact Hf.
  - destruct (daily_value_ok userID day w Hf) as (v & w1 & Hv & Hf1 & _).
    unfold bind at 1. rewrite Hv.
    unfold bind at 2, attempt at 1.
    rewrite GetUserStockHoldingsUpToDate_ok by exact Hf.
    unfold daily_value in Hv. unfold bind at 1 in Hv.
    rewrite GetUserStockHoldingsUpToDate_ok in Hv by exact Hf.
    unfold bind at 1 in Hv. unfold bind at 2.
    match goal with |- context [sum_values ?f ?l ?a w] =>
      destruct (sum_values_ok f l a w) as (Heq & tv & w2 & Htv & _) end.
    { intros symbol w0. apply GetPriceAtTime_answers. }
    { exact Hf. }
    rewrite Heq. rewrite Htv in *. cbn in Hv. injection Hv as <- <-.
    destruct (IH (result ++ [mkDailyValue day (Round tv 4)]) w2 Hf1)
      as (vs & w' & Hvs & Hloop & Hdates & Hf').
    exists (mkDailyValue day (Round tv 4) :: vs), w'.
    unfold bind. rewrite Hvs. unfold RoundINR. rewrite Hloop, <- app_assoc.
    cbn. rewrite Hdates. repeat split. exact Hf'.
Qed.

Lemma earliest_reward_step rows acc g :
  fold_left
    (fun best x =>
       match best with
       | None => Some x
       | Some b => if reward_older x b then Some x else Some b
       end) rows acc = Some g ->
  (forall x, In x rows -> re_timestamp g <= re_timestamp x)
  /\ (forall b, acc = Some b -> re_timestamp g <= re_timestamp b).
Proof.
  revert acc. induction rows as [|x rows IH]; cbn; intros acc H.
  - split; [tauto|]. intros b ->. injection H as ->. lia.
  - apply IH in H as [Hrows Hacc]. split.
    + intros y [Hxy|Hy]; [subst y|now apply Hrows].
      destruct acc as [b|]; [|now apply Hacc].
      destruct (reward_older x b) eqn:E; [now apply Hacc|].
      specialize (Hacc b eq_refl). unfold reward_older in E.
      apply orb_false_iff in E as [E _]. apply Z.ltb_ge in E. lia.
    + intros b ->. destruct (reward_older x b) eqn:E.
      * specialize (Hacc x eq_refl). unfold reward_older in E.
        apply orb_true_iff in E as [E|E].
        -- apply Z.ltb_lt in E. lia.
        -- apply andb_true_iff in E as [E _]. apply Z.eqb_eq in E. lia.
      * now apply Hacc.
Qed.

(** [ORDER BY timestamp ASC] then [First]: no grant of the user is
    earlier. *)
Lemma first_grant_earliest userID s g :
  first_grant userID s = Some g ->
  In g (reward_events s) /\ is_live g = true /\ re_user_id g = userID
  /\ forall r, In r (reward_events s) -> is_live r = true -> re_user_id r = userID ->
               re_timestamp g <= re_timestamp r.
Proof.
  unfold first_grant. intros H.
  pose proof (first_by_In _ _ _ H) as Hin.
  apply List.filter_In in Hin as [Hin Hg]. apply andb_true_iff in Hg as [Hlive Hu].
  apply Z.eqb_eq in Hu. repeat split; try assumption.
  intros r Hr Hlr Hur. apply earliest_reward_step in H as [H _]. apply H.
  apply List.filter_In. split; [exact Hr|]. rewrite Hlr. now apply Z.eqb_eq in Hur as ->.
Qed.

(** C6.  When the store answers every request, [GetHistoricalINR] is
    [historicalDailyValue]: for a user with at least one grant it returns
    exactly one entry per UTC day from the day of the user's earliest grant
    through yesterday, in that order, none of them today or later, each
    with the value of [daily_value]: the holdings as of the end of the day
    times the price at the end of the day, summed over the symbols and
    rounded to 4 decimals; for a user without grants it returns the empty
    list. *)
Theorem GetHistoricalINR_daily userID w :
  faults w = [] ->
  GetHistoricalINR userID w = historicalDailyValue userID w
  /\ (forall g,
        first_grant userID (store w) = Some g ->
        (forall r, In r (reward_events (store w)) -> is_live r = true ->
                   re_user_id r = userID -> re_timestamp g <= re_timestamp r)
        /\ exists values w',
             GetHistoricalINR userID w = (inr values, w')
             /\ for_each_day (daily_value userID)
                  (days_from_through (StartOfDayUTC (re_timestamp g))
                     (StartOfDayUTC (now w) - nsPerDay)) w
                = (inr values, w')
             /\ map date values
                = days_from_through (StartOfDayUTC (re_timestamp g))
                    (StartOfDayUTC (now w) - nsPerDay)
             /\ Forall (fun v => StartOfDayUTC (re_timestamp g) <= date v
                                 /\ date v < StartOfDayUTC (now w)) values)
  /\ (List.filter (fun r => is_live r && (re_user_id r =? userID))
        (reward_events (store w)) = [] ->
      GetHistoricalINR userID w = (inr [], w)).
Proof.
  intros Hf.
  assert (Hrun : GetHistoricalINR userID w =
    match first_grant userID (store w) with
    | None => (inr [], w)
    | Some g =>
        GetHistoricalINR_loop userID
          (days_from_through (StartOfDayUTC (re_timestamp g))
             (StartOfDayUTC (now w) - nsPerDay)) [] w
    end).
  { unfold GetHistoricalINR. unfold bind at 1. rewrite NowUTC_run.
    unfold bind at 1, attempt at 1. rewrite db_query_ok by exact Hf.
    fold (first_grant userID (store w)).
    destruct (first_grant userID (store w)) as [g|];
      cbn [first_or_not_found errors_Is_RecordNotFound]; [|reflexivity].
    cbn [scan_reward RewardEvent_Timestamp].
    rewrite GetPastDates_days, StartOfDay_idem.
    unfold GetYesterday at 1. rewrite StartOfDay_idem.
    fold (GetYesterday (now w)). now rewrite GetYesterday_before_today. }
  split; [|split].
  - rewrite Hrun. unfold historicalDailyValue.
    destruct (first_grant userID (store w)) as [g|]; [|reflexivity].
    rewrite GetYesterday_before_today.
    match goal with |- GetHistoricalINR_loop _ ?days _ _ = _ =>
      destruct (GetHistoricalINR_loop_ok userID days [] w Hf)
        as (vs & w' & Hspec & Hloop & _) end.
    now rewrite Hloop, Hspec.
  - intros g Hg. split; [now apply (first_grant_earliest userID (store w) g Hg)|].
    rewrite Hrun, Hg.
    match goal with |- context [GetHistoricalINR_loop _ ?days _ _] =>
      destruct (GetHistoricalINR_loop_ok userID days [] w Hf)
        as (vs & w' & Hspec & Hloop & Hdates & _) end.
    exists vs, w'. cbn [app] in Hloop. repeat split; try assumption.
    apply List.Forall_forall. intros v Hv.
    assert (Hd : In (date v) (map date vs)) by now apply in_map.
    rewrite Hdates in Hd. apply days_from_through_bound in Hd.
    pose proof nsPerDay_pos. lia.
  - intros Hnone. rewrite Hrun. unfold first_grant. now rewrite Hnone.
Qed.

(** The theorem at work, scenario D: the grant of scenario A on
    2025-01-23 and a call made on 2025-01-24. *)
Lemma GetHistoricalINR_daily_witness :
  exists values w',
    GetHistoricalINR 1 scenario.after_A = (inr values, w')
    /\ map date values = [scenario.day_2025_01_23].
Proof.
  assert (Hf : faults scenario.after_A = []) by (vm_compute; reflexivity).
  pose proof (GetHistoricalINR_daily 1 scenario.after_A Hf) as (_ & H & _).
  specialize (H (mk_reward_events_row 1 1 "RELIANCE" 2500000 scenario.T None)).
  destruct H as (_ & values & w' & Hrun & _ & Hdates & _).
  { vm_compute. reflexivity. }
  exists values, w'. split; [exact Hrun|]. rewrite Hdates. vm_compute. reflexivity.
Defined.

(** Scenario D, evaluated: one entry for 2025-01-23 on a call made on
    2025-01-24, none on a call made on 2025-01-23 itself. *)
Example scenario_D :
  fst (GetHistoricalINR 1 scenario.after_A)
    = inr [mkDailyValue scenario.day_2025_01_23 (New 61262500 (-4))]
  /\ fst (GetHistoricalINR 1 scenario.same_day) = inr [].
Proof. evaluate_conjuncts. Qed.

End Historical.

(* ===================================================================== *)
(** * Failures in the read queries                                        *)
(* ===================================================================== *)

Section ReadFailures.

(** The loops over the holdings skip a symbol whose price lookup fails:
    they never fail themselves. *)
Lemma sum_values_never_fails priceOf holdings acc w :
  exists v, fst (sum_values priceOf holdings acc w) = inr v.
Proof.
  revert acc w. induction holdings as [|[symbol qty] rest IH]; intros acc w;
    cbn [sum_values].
  - now exists acc.
  - unfold bind, attempt. destruct (priceOf symbol w) as [[e|price] w1]; apply IH.
Qed.

Lemma GetPortfolio_loop_never_fails holdings items acc w :
  exists res, fst (GetPortfolio_loop holdings items acc w) = inr res.
Proof.
  revert items acc w. induction holdings as [|[symbol qty] rest IH]; intros items acc w;
    cbn [GetPortfolio_loop].
  - now eexists.
  - unfold bind, attempt. destruct (GetCurrentPrice symbol w) as [[e|price] w1]; apply IH.
Qed.

Lemma GetHistoricalINR_loop_never_fails userID dates result w :
  exists vs, fst (GetHistoricalINR_loop userID dates result w) = inr vs.
Proof.
  revert result w. induction dates as [|day rest IH]; intros result w;
    cbn [GetHistoricalINR_loop].
  - now eexists.
  - unfold bind at 1, attempt at 1.
    destruct (GetUserStockHoldingsUpToDate userID (EndOfDayUTC day) w) as [[e|h] w1];
      [apply IH|].
    unfold bind.
    match goal with |- context [sum_values ?f ?l ?a w1] =>
      destruct (sum_values_never_fails f l a w1) as [v Hv];
      destruct (sum_values f l a w1) as [r w2] end.
    cbn [fst] in Hv. subst r. apply IH.
Qed.

(** A request that the store answers. *)
Lemma db_exec_answered {A} (op : Store -> error + (A * Store)) w fs :
  answered w fs ->
  db_exec op w =
    match op (store w) with
    | inl e => (inl e, set_faults w fs)
    | inr (a, s') => (inr a, set_store (set_faults w fs) s')
    end.
Proof. unfold db_exec. intros [H|[H ->]]; rewrite H; reflexivity. Qed.

Lemma db_query_answered {A} (q : Store -> error + A) w fs :
  answered w fs -> db_query q w = (q (store w), set_faults w fs).
Proof.
  intros H. unfold db_query. rewrite (db_exec_answered _ w fs H).
  destruct (q (store w)); reflexivity.
Qed.

Lemma db_query_fault {A} (q : Store -> error + A) w fs :
  faults w = true :: fs -> db_query q w = (inl ErrStore, set_faults w fs).
Proof. intros H. unfold db_query. now apply db_exec_fault. Qed.

(** The loops of the read queries, by the lookups they make. *)
Lemma sum_values_lookup_prices priceOf holdings : forall acc w,
  sum_values priceOf holdings acc w
  = (inr (fold_left add_priced (priced (fst (lookup_prices priceOf holdings w))) acc),
     snd (lookup_prices priceOf holdings w)).
Proof.
  induction holdings as [|[symbol qty] rest IH]; intros acc w;
    cbn [sum_values lookup_prices]; [reflexivity|].
  unfold bind, attempt.
  destruct (priceOf symbol w) as [[e|price] w1]; rewrite IH;
    destruct (lookup_prices priceOf rest w1) as [lookups w']; reflexivity.
Qed.

Lemma GetPortfolio_loop_lookup_prices holdings : forall items acc w,
  GetPortfolio_loop holdings items acc w
  = (inr (items ++
            items_priced (priced (fst (lookup_prices GetCurrentPrice holdings w))),
          fold_left add_priced
            (priced (fst (lookup_prices GetCurrentPrice holdings w))) acc),
     snd (lookup_prices GetCurrentPrice holdings w)).
Proof.
  induction holdings as [|[symbol qty] rest IH]; intros items acc w;
    cbn [GetPortfolio_loop lookup_prices].
  - unfold ret. cbn. now rewrite app_nil_r.
  - unfold bind, attempt.
    destruct (GetCurrentPrice symbol w) as [[e|price] w1]; rewrite IH;
      destruct (lookup_prices GetCurrentPrice rest w1) as [lookups w'];
      [reflexivity|].
    cbn. now rewrite <- app_assoc.
Qed.

Lemma GetHistoricalINR_loop_lookup_days userID dates : forall result w,
  GetHistoricalINR_loop userID dates result w
  = (inr (result ++ days_valued (fst (lookup_days userID dates w))),
     snd (lookup_days userID dates w)).
Proof.
  induction dates as [|day rest IH]; intros result w;
    cbn [GetHistoricalINR_loop lookup_days].
  - unfold ret. cbn. now rewrite app_nil_r.
  - unfold bind at 1, attempt at 1.
    destruct (GetUserStockHoldingsUpToDate userID (EndOfDayUTC day) w)
      as [[e|holdings] w1].
    + rewrite IH. destruct (lookup_days userID rest w1) as [days w']. reflexivity.
    + unfold bind. rewrite sum_values_lookup_prices.
      destruct (lookup_prices _ (map_to_list holdings) w1) as [lookups w2].
      cbn [fst snd]. rewrite IH.
      destruct (lookup_days userID rest w2) as [days w']. cbn.
      now rewrite <- app_assoc.
Qed.

(** The lookups keep the holdings and the days they are made for. *)
Lemma lookup_prices_symbols priceOf holdings : forall w,
  map lookup_symbol (fst (lookup_prices priceOf holdings w)) = map fst holdings.
Proof.
  induction holdings as [|[symbol qty] rest IH]; intros w; cbn [lookup_prices];
    [reflexivity|].
  destruct (priceOf symbol w) as [r w1]. specialize (IH w1).
  destruct (lookup_prices priceOf rest w1) as [lookups w']. cbn in *. now rewrite IH.
Qed.

Lemma lookup_days_days userID dates : forall w,
  map lookup_day (fst (lookup_days userID dates w)) = dates.
Proof.
  induction dates as [|day rest IH]; intros w; cbn [lookup_days]; [reflexivity|].
  destruct (GetUserStockHoldingsUpToDate userID (EndOfDayUTC day) w)
    as [[e|holdings] w1].
  - specialize (IH w1). destruct (lookup_days userID rest w1) as [days w'].
    cbn in *. now rewrite IH.
  - destruct (lookup_prices _ (map_to_list holdings) w1) as [lookups w2].
    specialize (IH w2). destruct (lookup_days userID rest w2) as [days w'].
    cbn in *. now rewrite IH.
Qed.

(** Where no key occurs twice, a key whose entry is dropped is not the
    key of an entry that is kept. *)
Lemma omap_drops_key {A B K} (key : A -> K) (key' : B -> K) (f : A -> option B) l a :
  (forall x y, f x = Some y -> key' y = key x) ->
  NoDup (map key l) -> In a l -> f a = None ->
  ~ In (key a) (map key' (omap f l)).
Proof.
  intros Hkey Hnd Ha Hnone Hin.
  apply in_map_iff in Hin as (b & Hb & Hin).
  apply list_elem_of_In, list_elem_of_omap in Hin as (x & Hx & Hfx).
  apply list_elem_of_In in Hx.
  assert (Hk : key x = key a) by (rewrite <- Hb; symmetry; now apply Hkey).
  assert (x = a); [|subst x; congruence].
  clear - Hnd Ha Hx Hk. induction l as [|c l IH]; [contradiction|].
  cbn [map] in Hnd. apply NoDup_cons in Hnd as [Hc Hnd].
  destruct Ha as [->|Ha], Hx as [->|Hx]; auto.
  - exfalso. apply Hc. rewrite <- Hk. apply list_elem_of_In, in_map, Hx.
  - exfalso. apply Hc. rewrite Hk. apply list_elem_of_In, in_map, Ha.
Qed.

Lemma days_from_through_NoDup first last : NoDup (days_from_through first last).
Proof.
  unfold days_from_through. apply NoDup_ListNoDup, NoDup_map_NoDup_ForallPairs.
  - intros i j _ _ H. pose proof nsPerDay_pos. nia.
  - apply seq_NoDup.
Qed.

(** How a price lookup ends. *)
Lemma generate_and_save_returns symbol w :
  fst ((price <- GeneratePrice symbol ;;
        _ <- attempt (SavePrice symbol price) ;;
        ret price) w)
  = inr (fst (utils.GeneratePrice (generator w) symbol (draws w (drawn w)))).
Proof.
  unfold bind at 1. unfold GeneratePrice.
  destruct (utils.GeneratePrice _ _ _) as [price pg]. unfold bind, attempt.
  now destruct (SavePrice symbol price _).
Qed.

Lemma GetCurrentPrice_fault symbol w fs :
  faults w = true :: fs ->
  GetCurrentPrice symbol w
  = (inl (Wrapf "failed to fetch price" ErrStore), set_faults w fs).
Proof.
  intros H. unfold GetCurrentPrice, bind, attempt.
  now rewrite (db_query_fault _ w fs H).
Qed.

Lemma GetCurrentPrice_answered symbol w fs :
  answered w fs ->
  match stored_price symbol w with
  | Some price => GetCurrentPrice symbol w = (inr price, set_faults w fs)
  | None =>
      fst (GetCurrentPrice symbol w)
      = inr (fst (utils.GeneratePrice (generator w) symbol (draws w (drawn w))))
  end.
Proof.
  intros H.
  assert (E : GetCurrentPrice symbol w
              = match first_by price_newer (samples_of symbol (store w)) with
                | Some row =>
                    if now w - ph_timestamp row >? 2 * Hour
                    then (price <- GeneratePrice symbol ;;
                          _ <- attempt (SavePrice symbol price) ;;
                          ret price) (set_faults w fs)
                    else (inr (of_numeric 4 (ph_price_inr row)), set_faults w fs)
                | None =>
                    (price <- GeneratePrice symbol ;;
                     _ <- attempt (SavePrice symbol price) ;;
                     ret price) (set_faults w fs)
                end).
  { unfold GetCurrentPrice. unfold bind at 1, attempt at 1.
    rewrite (db_query_answered _ w fs H). fold (samples_of symbol (store w)).
    destruct (first_by price_newer (samples_of symbol (store w))) as [row|];
      cbn [first_or_not_found is_ErrRecordNotFound]; [|reflexivity].
    unfold bind at 1. rewrite NowUTC_run.
    cbn [scan_price PriceHistory_Timestamp PriceINR now set_faults].
    now destruct (now w - ph_timestamp row >? 2 * Hour). }
  rewrite E. unfold stored_price.
  destruct (first_by price_newer (samples_of symbol (store w))) as [row|].
  - destruct (now w - ph_timestamp row >? 2 * Hour); [|reflexivity].
    apply (generate_and_save_returns symbol (set_faults w fs)).
  - apply (generate_and_save_returns symbol (set_faults w fs)).
Qed.

Lemma GetPriceAtTime_fault symbol timestamp w fs :
  faults w = true :: fs ->
  GetPriceAtTime symbol timestamp w
  = (inl (Wrapf "failed to fetch historical price" ErrStore), set_faults w fs).
Proof.
  intros H. unfold GetPriceAtTime, bind, attempt.
  now rewrite (db_query_fault _ w fs H).
Qed.

Lemma GetPriceAtTime_answered symbol timestamp w fs :
  answered w fs ->
  GetPriceAtTime symbol timestamp w
  = match sample_before symbol timestamp (store w) with
    | Some row => (inr (of_numeric 4 (ph_price_inr row)), set_faults w fs)
    | None => GetCurrentPrice symbol (set_faults w fs)
    end.
Proof.
  intros H. unfold GetPriceAtTime, sample_before, bind, attempt.
  rewrite (db_query_answered _ w fs H).
  now destruct (first_by _ _).
Qed.


Lemma GetUserStockHoldings_fault userID w fs :
  faults w = true :: fs ->
  GetUserStockHoldings userID w
  = (inl (Wrapf "failed to fetch holdings" ErrStore), set_faults w fs).
Proof.
  intros H. unfold GetUserStockHoldings, bind, attempt.
  now rewrite (db_query_fault _ w fs H).
Qed.

Lemma GetUserStockHoldingsUpToDate_fault userID endDate w fs :
  faults w = true :: fs ->
  GetUserStockHoldingsUpToDate userID endDate w
  = (inl (Wrapf "failed to fetch holdings" ErrStore), set_faults w fs).
Proof.
  intros H. unfold GetUserStockHoldingsUpToDate, bind, attempt.
  now rewrite (db_query_fault _ w fs H).
Qed.

(** C8 (as amended).  Which failed lookup fails a read query, and what
    the others leave out.

    [GetPortfolio] fails when its holdings lookup fails; otherwise it
    answers with one item for every holding whose price lookup succeeded
    and with the rounded sum over those holdings: a holding whose price
    lookup failed has no item and no part in the sum.  [GetStats] fails
    when the lookup of today's grants or the holdings lookup fails;
    otherwise its portfolio value is that rounded sum.
    [GetHistoricalINR] fails only when the lookup of the first grant
    fails; otherwise it answers with one value for every day whose
    holdings lookup succeeded, the rounded sum over the holdings of the
    day whose price lookup succeeded: a day whose holdings lookup failed
    has no value.

    A lookup fails when the store fails its request.  When the store
    answers, [GetCurrentPrice] returns the stored price of the symbol if
    there is a sample at most two hours old, and otherwise a price drawn
    from the generator, whether or not the store then saves it; and
    [GetPriceAtTime] returns the newest sample at or before the instant,
    and without such a sample what [GetCurrentPrice] returns. *)
Theorem read_queries_error_policy userID w :
  (forall e w1,
      GetUserStockHoldings userID w = (inl e, w1) ->
      GetPortfolio userID w = (inl (Wrapf "failed to get holdings" e), w1))
  /\ (forall h w1,
        GetUserStockHoldings userID w = (inr h, w1) ->
        let lookups := lookup_prices GetCurrentPrice (map_to_list h) w1 in
        GetPortfolio userID w
        = (inr (mkPortfolio userID (items_priced (priced (fst lookups)))
                  (RoundINR (sum_priced (priced (fst lookups))))),
           snd lookups)
        /\ forall l e,
             In l (fst lookups) -> lookup_outcome l = inl e ->
             ~ In (lookup_symbol l)
                 (map item_symbol (items_priced (priced (fst lookups)))))
  /\ (forall e w1,
        GetTodayRewards userID w = (inl e, w1) -> GetStats userID w = (inl e, w1))
  /\ (forall rs w1 e w2,
        GetTodayRewards userID w = (inr rs, w1) ->
        GetUserStockHoldings userID w1 = (inl e, w2) ->
        GetStats userID w = (inl (Wrapf "failed to get holdings" e), w2))
  /\ (forall rs w1 h w2,
        GetTodayRewards userID w = (inr rs, w1) ->
        GetUserStockHoldings userID w1 = (inr h, w2) ->
        let lookups := lookup_prices GetCurrentPrice (map_to_list h) w2 in
        exists st,
          GetStats userID w = (inr st, snd lookups)
          /\ portfolioValueINR st = RoundINR (sum_priced (priced (fst lookups))))
  /\ (forall fs,
        faults w = true :: fs ->
        GetHistoricalINR userID w
        = (inl (Wrapf "failed to fetch first reward" ErrStore), set_faults w fs))
  /\ (forall fs,
        answered w fs ->
        match first_grant userID (store w) with
        | None => GetHistoricalINR userID w = (inr [], set_faults w fs)
        | Some g =>
            let days :=
              lookup_days userID
                (GetPastDates (StartOfDayUTC (re_timestamp g)) (GetYesterday (now w)))
                (set_faults w fs) in
            GetHistoricalINR userID w = (inr (days_valued (fst days)), snd days)
            /\ forall d e,
                 In d (fst days) -> day_outcome d = inl e ->
                 ~ In (lookup_day d) (map date (days_valued (fst days)))
        end)
  /\ (forall w0 fs,
        faults w0 = true :: fs ->
        GetUserStockHoldings userID w0
        = (inl (Wrapf "failed to fetch holdings" ErrStore), set_faults w0 fs)
        /\ (forall endDate,
              GetUserStockHoldingsUpToDate userID endDate w0
              = (inl (Wrapf "failed to fetch holdings" ErrStore), set_faults w0 fs))
        /\ (forall symbol,
              GetCurrentPrice symbol w0
              = (inl (Wrapf "failed to fetch price" ErrStore), set_faults w0 fs))
        /\ (forall symbol timestamp,
              GetPriceAtTime symbol timestamp w0
              = (inl (Wrapf "failed to fetch historical price" ErrStore),
                 set_faults w0 fs)))
  /\ (forall w0 fs symbol,
        answered w0 fs ->
        match stored_price symbol w0 with
        | Some price => GetCurrentPrice symbol w0 = (inr price, set_faults w0 fs)
        | None =>
            fst (GetCurrentPrice symbol w0)
            = inr (fst (utils.GeneratePrice (generator w0) symbol
                          (draws w0 (drawn w0))))
        end)
  /\ (forall w0 fs symbol timestamp,
        answered w0 fs ->
        GetPriceAtTime symbol timestamp w0
        = match sample_before symbol timestamp (store w0) with
          | Some row => (inr (of_numeric 4 (ph_price_inr row)), set_faults w0 fs)
          | None => GetCurrentPrice symbol (set_faults w0 fs)
          end).
Proof.
  repeat match goal with |- _ /\ _ => split end.
  - intros e w1 H. unfold GetPortfolio, bind, attempt. now rewrite H.
  - intros h w1 H. cbv zeta. split.
    + unfold GetPortfolio. unfold bind at 1, attempt at 1. rewrite H.
      unfold bind. rewrite GetPortfolio_loop_lookup_prices. reflexivity.
    + intros l e Hl He. unfold items_priced. rewrite map_map.
      apply (omap_drops_key lookup_symbol
               (fun h : string * Decimal * Decimal =>
                  item_symbol (let '(symbol, qty, price) := h in
                               mkPortfolioItem symbol qty (RoundINR price)
                                 (RoundINR (Mul price qty))))).
      * intros x [[symbol qty] price] Hx. destruct (lookup_outcome x); [discriminate|].
        injection Hx as <- _ _. reflexivity.
      * rewrite lookup_prices_symbols. apply NoDup_fst_map_to_list.
      * exact Hl.
      * now rewrite He.
  - intros e w1 H. unfold GetStats. unfold bind at 1. now rewrite H.
  - intros rs w1 e w2 H1 H2. unfold GetStats. unfold bind at 1. rewrite H1.
    unfold bind at 1, attempt at 1. now rewrite H2.
  - intros rs w1 h w2 H1 H2. cbv zeta. unfold GetStats. unfold bind at 1.
    rewrite H1. unfold bind at 1, attempt at 1. rewrite H2. unfold bind.
    rewrite sum_values_lookup_prices. eexists. split; reflexivity.
  - intros fs H. unfold GetHistoricalINR. unfold bind at 1. rewrite NowUTC_run.
    unfold bind, attempt. now rewrite (db_query_fault _ w fs H).
  - intros fs H.
    assert (E : GetHistoricalINR userID w
                = match first_grant userID (store w) with
                  | None => (inr [], set_faults w fs)
                  | Some g =>
                      GetHistoricalINR_loop userID
                        (GetPastDates (StartOfDayUTC (re_timestamp g))
                           (GetYesterday (now w)))
                        [] (set_faults w fs)
                  end).
    { unfold GetHistoricalINR. unfold bind at 1. rewrite NowUTC_run.
      unfold bind at 1, attempt at 1. rewrite (db_query_answered _ w fs H).
      fold (first_grant userID (store w)).
      now destruct (first_grant userID (store w)). }
    rewrite E. destruct (first_grant userID (store w)) as [g|]; [|reflexivity].
    cbv zeta. rewrite GetHistoricalINR_loop_lookup_days. split; [reflexivity|].
    intros d e Hd He.
    apply (omap_drops_key lookup_day date); try assumption.
    + intros x y Hx. destruct (day_outcome x); [discriminate|].
      injection Hx as <-. reflexivity.
    + rewrite lookup_days_days, GetPastDates_days. apply days_from_through_NoDup.
    + now rewrite He.
  - intros w0 fs H. split; [|split; [|split]].
    + now apply GetUserStockHoldings_fault.
    + intros endDate. now apply GetUserStockHoldingsUpToDate_fault.
    + intros symbol. now apply GetCurrentPrice_fault.
    + intros symbol timestamp. now apply GetPriceAtTime_fault.
  - intros w0 fs symbol H. now apply GetCurrentPrice_answered.
  - intros w0 fs symbol timestamp H. now apply GetPriceAtTime_answered.
Qed.

(** The theorem at work.  With two holdings and a store that fails the
    first price lookup, the portfolio lists the other holding alone; with
    a store that fails the holdings lookup, [GetPortfolio] fails; with a
    store that fails the holdings lookup of the only day, the history is
    empty; with a store that fails the lookup of the first grant,
    [GetHistoricalINR] fails. *)
Lemma read_queries_error_policy_witness :
  fst (GetPortfolio 1 scenario.first_price_lookup_fails)
  = inr (mkPortfolio 1
           [mkPortfolioItem "TCS" (New 1000000 (-6)) (New 36807500 (-4))
              (New 36807500 (-4))]
           (New 36807500 (-4)))
  /\ fst (GetPortfolio 1
            (mkWorld (store scenario.after_A) (generator scenario.after_A)
               (draws scenario.after_A) (drawn scenario.after_A)
               (now scenario.after_A) [true]))
     = inl (Wrapf "failed to get holdings" (Wrapf "failed to fetch holdings" ErrStore))
  /\ fst (GetHistoricalINR 1 scenario.second_request_fails) = inr []
  /\ fst (GetHistoricalINR 1
            (mkWorld (store scenario.after_A) (generator scenario.after_A)
               (draws scenario.after_A) (drawn scenario.after_A)
               (now scenario.after_A) [true]))
     = inl (Wrapf "failed to fetch first reward" ErrStore).
Proof.
  split; [|split; [|split]].
  - destruct (read_queries_error_policy 1 scenario.first_price_lookup_fails)
      as (_ & H & _).
    edestruct H as [Hp _]; [vm_compute; reflexivity|].
    cbv zeta in Hp. rewrite Hp. vm_compute. reflexivity.
  - destruct (read_queries_error_policy 1
                (mkWorld (store scenario.after_A) (generator scenario.after_A)
                   (draws scenario.after_A) (drawn scenario.after_A)
                   (now scenario.after_A) [true]))
      as (H & _).
    erewrite H; [reflexivity|]. vm_compute. reflexivity.
  - destruct (read_queries_error_policy 1 scenario.second_request_fails)
      as (_ & _ & _ & _ & _ & _ & H & _).
    specialize (H [true] (or_introl eq_refl)).
    change (first_grant 1 (store scenario.second_request_fails))
      with (first_grant 1 (store scenario.after_A)) in H.
    destruct (first_grant 1 (store scenario.after_A)) as [g|] eqn:Eg.
    + cbv zeta in H. destruct H as [H _]. rewrite H. cbn [fst].
      injection Eg as <-. vm_compute. reflexivity.
    + now rewrite H.
  - destruct (read_queries_error_policy 1
                (mkWorld (store scenario.after_A) (generator scenario.after_A)
                   (draws scenario.after_A) (drawn scenario.after_A)
                   (now scenario.after_A) [true]))
      as (_ & _ & _ & _ & _ & H & _).
    now rewrite (H [] eq_refl).
Defined.

(** C8, counterexample.  After scenario A, user 1 holds 2.5 RELIANCE.  With
    a store that answers the holdings lookup and fails the price lookup,
    [GetPortfolio] returns no error but a portfolio without holdings and
    a total of zero; [GetStats] likewise returns a portfolio value of zero;
    and [GetHistoricalINR], when the holdings lookup of the only day
    fails, returns no error but an empty list. *)
Lemma failed_lookup_returns_partial_data :
  (exists h w1,
      GetUserStockHoldings 1 scenario.second_request_fails = (inr h, w1)
      /\ map_to_list h = [("RELIANCE"%string, New 2500000 (-6))]
      /\ fst (GetCurrentPrice "RELIANCE" w1)
         = inl (Wrapf "failed to fetch price" ErrStore))
  /\ fst (GetPortfolio 1 scenario.second_request_fails)
     = inr (mkPortfolio 1 [] (New 0 (-4)))
  /\ fst (GetStats 1 scenario.third_request_fails)
     = inr (mkStats 1 ∅ (New 0 (-4)))
  /\ fst (GetHistoricalINR 1 scenario.second_request_fails) = inr []
  /\ fst (GetHistoricalINR 1 scenario.third_request_fails)
     = inr [mkDailyValue scenario.day_2025_01_23 (New 0 (-4))]
  /\ ~ portfolio_fails_when_price_fails 1 scenario.second_request_fails.
Proof.
  assert (Hh : exists h w1,
      GetUserStockHoldings 1 scenario.second_request_fails = (inr h, w1)
      /\ map_to_list h = [("RELIANCE"%string, New 2500000 (-6))]
      /\ fst (GetCurrentPrice "RELIANCE" w1)
         = inl (Wrapf "failed to fetch price" ErrStore)).
  { eexists _, _. split; [vm_compute; reflexivity|].
    split; vm_compute; reflexivity. }
  assert (Hp : fst (GetPortfolio 1 scenario.second_request_fails)
               = inr (mkPortfolio 1 [] (New 0 (-4)))) by (vm_compute; reflexivity).
  split; [exact Hh|]. split; [exact Hp|].
  split; [vm_compute; reflexivity|]. split; [vm_compute; reflexivity|].
  split; [vm_compute; reflexivity|].
  intros Hclaim. destruct Hh as (h & w1 & Hrun & Hlist & Hprice).
  destruct (Hclaim h w1 Hrun) as [e He].
  - exists "RELIANCE"%string, (Wrapf "failed to fetch price" ErrStore).
    split; [|exact Hprice].
    assert (Hin : ("RELIANCE"%string, New 2500000 (-6)) ∈ map_to_list h)
      by (rewrite Hlist; apply list_elem_of_here).
    apply elem_of_map_to_list in Hin. now rewrite Hin.
  - rewrite Hp in He. discriminate.
Qed.

End ReadFailures.

(* ===================================================================== *)
(** * Validation of a grant                                               *)
(* ===================================================================== *)

Section Validation.

Lemma toQ_Zero : (toQ Zero == 0)%Q.
Proof. unfold toQ, Zero. cbn [value exp]. apply Qmult_0_l. Qed.

Lemma ValidateQuantity_accepts quantity :
  ValidateQuantity quantity = None
  <-> (0 < toQ quantity)%Q /\ (toQ quantity <= 10000)%Q.
Proof.
  unfold ValidateQuantity.
  destruct (LessThanOrEqual quantity Zero) eqn:E1.
  - apply LessThanOrEqual_toQ in E1. rewrite toQ_Zero in E1.
    split; [discriminate|]. intros [H _]. exfalso. lra.
  - assert (H0 : (0 < toQ quantity)%Q).
    { destruct (Qlt_le_dec 0 (toQ quantity)) as [H|H]; [exact H|].
      rewrite <- toQ_Zero in H. apply LessThanOrEqual_toQ in H. congruence. }
    destruct (GreaterThan quantity (NewFromInt 10000)) eqn:E2.
    + apply GreaterThan_toQ in E2. rewrite toQ_NewFromInt in E2.
      unfold inject_Z in E2. split; [discriminate|]. intros [_ H]. exfalso. lra.
    + apply GreaterThan_false_toQ in E2. rewrite toQ_NewFromInt in E2.
      unfold inject_Z in E2. split; [intros _; split; assumption | reflexivity].
Qed.

Lemma ValidateStockSymbol_accepts symbol :
  ValidateStockSymbol symbol = None
  <-> (1 <= String.length symbol <= 20)%nat.
Proof.
  unfold ValidateStockSymbol.
  destruct (Nat.eqb_spec (String.length symbol) 0) as [E|E];
    destruct (Nat.ltb_spec 20 (String.length symbol)) as [L|L]; cbn;
    split; try discriminate; try reflexivity; intros; lia.
Qed.

End Validation.

(* ===================================================================== *)
(** * What the queries leave as it is                                     *)
(* ===================================================================== *)

Section QueriesFrame.

Lemma only_adds_prices_refl w : only_adds_prices w w.
Proof. split; [apply same_ledger_refl | reflexivity]. Qed.

Lemma only_adds_prices_trans w1 w2 w3 :
  only_adds_prices w1 w2 -> only_adds_prices w2 w3 -> only_adds_prices w1 w3.
Proof.
  intros [H1 P1] [H2 P2]. split.
  - eapply same_ledger_trans; eassumption.
  - etransitivity; eassumption.
Qed.

Lemma set_faults_frame w fs : only_adds_prices w (set_faults w fs).
Proof. split; [repeat split | reflexivity]. Qed.

Lemma db_query_frame {A} (q : Store -> error + A) w :
  only_adds_prices w (snd (db_query q w)).
Proof.
  destruct (db_query_cases q w) as (fs & _ & -> & _). apply set_faults_frame.
Qed.

Lemma SavePrice_frame symbol price w :
  only_adds_prices w (snd (SavePrice symbol price w)).
Proof.
  split; [apply SavePrice_same_ledger|].
  unfold SavePrice, bind, attempt, NowUTC.
  destruct (db_exec_cases
              (fun s => inr (tt, insert_price s
                 (mkPriceHistory 0 symbol (RoundINR price) (now w)))) w)
    as [(fs & _ & ->)|(fs & _ & ->)]; cbn; [reflexivity|].
  apply prefix_app_r. reflexivity.
Qed.

Lemma GeneratePrice_store symbol w :
  store (snd (GeneratePrice symbol w)) = store w
  /\ now (snd (GeneratePrice symbol w)) = now w
  /\ faults (snd (GeneratePrice symbol w)) = faults w.
Proof.
  unfold GeneratePrice. destruct (utils.GeneratePrice _ _ _). cbn. auto.
Qed.

Lemma GeneratePrice_frame symbol w :
  only_adds_prices w (snd (GeneratePrice symbol w)).
Proof.
  destruct (GeneratePrice_store symbol w) as (Hs & Hn & _).
  split; [|rewrite Hs; reflexivity].
  unfold same_ledger. rewrite Hs, Hn. repeat split.
Qed.

Lemma generate_and_save_frame symbol w :
  only_adds_prices w
    (snd ((price <- GeneratePrice symbol ;;
           _ <- attempt (SavePrice symbol price) ;;
           ret price) w)).
Proof.
  unfold bind at 1.
  pose proof (GeneratePrice_frame symbol w) as H0.
  destruct (GeneratePrice symbol w) as [[e|price] w0]; cbn [snd] in H0;
    [exact H0|].
  unfold bind, attempt, ret.
  pose proof (SavePrice_frame symbol price w0) as H.
  destruct (SavePrice symbol price w0) as [r w1].
  cbn [snd] in *. eapply only_adds_prices_trans; eassumption.
Qed.

Lemma GetCurrentPrice_frame symbol w :
  only_adds_prices w (snd (GetCurrentPrice symbol w)).
Proof.
  unfold GetCurrentPrice. unfold bind at 1. unfold attempt at 1.
  match goal with |- context [db_query ?q w] =>
    pose proof (db_query_frame q w) as Hfr;
    destruct (db_query q w) as [r w1] end.
  cbn [snd] in *.
  destruct r as [err|row].
  - destruct (is_ErrRecordNotFound err).
    + eapply only_adds_prices_trans; [exact Hfr|apply generate_and_save_frame].
    + exact Hfr.
  - unfold bind at 1. rewrite NowUTC_run.
    destruct (_ >? _).
    + eapply only_adds_prices_trans; [exact Hfr|apply generate_and_save_frame].
    + exact Hfr.
Qed.

Lemma GetPriceAtTime_frame symbol t w :
  only_adds_prices w (snd (GetPriceAtTime symbol t w)).
Proof.
  unfold GetPriceAtTime. unfold bind at 1. unfold attempt at 1.
  match goal with |- context [db_query ?q w] =>
    pose proof (db_query_frame q w) as Hfr;
    destruct (db_query q w) as [r w1] end.
  cbn [snd] in *.
  destruct r as [err|row]; [|exact Hfr].
  destruct (is_ErrRecordNotFound err); [|exact Hfr].
  eapply only_adds_prices_trans; [exact Hfr|apply GetCurrentPrice_frame].
Qed.

Lemma GetUserStockHoldings_frame userID w :
  only_adds_prices w (snd (GetUserStockHoldings userID w)).
Proof.
  unfold GetUserStockHoldings, bind, attempt.
  match goal with |- context [db_query ?q w] =>
    pose proof (db_query_frame q w) as Hfr;
    destruct (db_query q w) as [[e|h] w1] end; exact Hfr.
Qed.

Lemma GetUserStockHoldingsUpToDate_frame userID t w :
  only_adds_prices w (snd (GetUserStockHoldingsUpToDate userID t w)).
Proof.
  unfold GetUserStockHoldingsUpToDate, bind, attempt.
  match goal with |- context [db_query ?q w] =>
    pose proof (db_query_frame q w) as Hfr;
    destruct (db_query q w) as [[e|h] w1] end; exact Hfr.
Qed.

Lemma GetTodayRewards_frame userID w :
  only_adds_prices w (snd (GetTodayRewards userID w)).
Proof.
  unfold GetTodayRewards. unfold bind at 1. rewrite NowUTC_run.
  unfold bind, attempt.
  match goal with |- context [db_query ?q w] =>
    pose proof (db_query_frame q w) as Hfr;
    destruct (db_query q w) as [[e|h] w1] end; exact Hfr.
Qed.

Lemma sum_values_frame priceOf holdings : forall acc w,
  (forall symbol w0, only_adds_prices w0 (snd (priceOf symbol w0))) ->
  only_adds_prices w (snd (sum_values priceOf holdings acc w)).
Proof.
  induction holdings as [|[symbol qty] rest IH]; intros acc w Hp;
    [apply only_adds_prices_refl|].
  cbn [sum_values]. unfold bind, attempt.
  pose proof (Hp symbol w) as H.
  destruct (priceOf symbol w) as [[e|price] w1]; cbn [snd] in H;
    (eapply only_adds_prices_trans; [exact H | apply IH, Hp]).
Qed.

Lemma GetPortfolio_loop_frame holdings : forall items acc w,
  only_adds_prices w (snd (GetPortfolio_loop holdings items acc w)).
Proof.
  induction holdings as [|[symbol qty] rest IH]; intros items acc w;
    [apply only_adds_prices_refl|].
  cbn [GetPortfolio_loop]. unfold bind, attempt.
  pose proof (GetCurrentPrice_frame symbol w) as H.
  destruct (GetCurrentPrice symbol w) as [[e|price] w1]; cbn [snd] in H;
    (eapply only_adds_prices_trans; [exact H | apply IH]).
Qed.

Lemma GetHistoricalINR_loop_frame userID dates : forall result w,
  only_adds_prices w (snd (GetHistoricalINR_loop userID dates result w)).
Proof.
  induction dates as [|d rest IH]; intros result w;
    [apply only_adds_prices_refl|].
  cbn [GetHistoricalINR_loop]. unfold bind at 1, attempt at 1.
  pose proof (GetUserStockHoldingsUpToDate_frame userID (EndOfDayUTC d) w) as H.
  destruct (GetUserStockHoldingsUpToDate userID (EndOfDayUTC d) w)
    as [[e|holdings] w1]; cbn [snd] in H.
  - eapply only_adds_prices_trans; [exact H | apply IH].
  - unfold bind at 1.
    match goal with |- context [sum_values ?p ?l ?a w1] =>
      pose proof (sum_values_frame p l a w1
                    (fun symbol w0 => GetPriceAtTime_frame symbol _ w0)) as H2;
      destruct (sum_values p l a w1) as [[e|v] w2] end; cbn [snd] in H2.
    + eapply only_adds_prices_trans; eassumption.
    + eapply only_adds_prices_trans; [exact H|].
      eapply only_adds_prices_trans; [exact H2 | apply IH].
Qed.

Lemma GetHistoricalINR_frame userID w :
  only_adds_prices w (snd (GetHistoricalINR userID w)).
Proof.
  unfold GetHistoricalINR. unfold bind at 1. rewrite NowUTC_run.
  unfold bind at 1, attempt at 1.
  match goal with |- context [db_query ?q w] =>
    pose proof (db_query_frame q w) as Hfr;
    destruct (db_query q w) as [[e|row] w1] end; cbn [snd] in Hfr.
  - destruct (errors_Is_RecordNotFound e); exact Hfr.
  - eapply only_adds_prices_trans; [exact Hfr | apply GetHistoricalINR_loop_frame].
Qed.

Lemma GetStats_frame userID w :
  only_adds_prices w (snd (GetStats userID w)).
Proof.
  unfold GetStats. unfold bind at 1.
  pose proof (GetTodayRewards_frame userID w) as H1.
  destruct (GetTodayRewards userID w) as [[e|rewards] w1]; cbn [snd] in H1;
    [exact H1|].
  unfold bind at 1, attempt at 1.
  pose proof (GetUserStockHoldings_frame userID w1) as H2.
  destruct (GetUserStockHoldings userID w1) as [[e|holdings] w2]; cbn [snd] in H2.
  - eapply only_adds_prices_trans; eassumption.
  - unfold bind.
    match goal with |- context [sum_values ?p ?l ?a w2] =>
      pose proof (sum_values_frame p l a w2 GetCurrentPrice_frame) as H3;
      destruct (sum_values p l a w2) as [[e|v] w3] end; cbn [snd] in H3;
      (eapply only_adds_prices_trans; [exact H1|];
       eapply only_adds_prices_trans; eassumption).
Qed.

Lemma GetPortfolio_frame userID w :
  only_adds_prices w (snd (GetPortfolio userID w)).
Proof.
  unfold GetPortfolio. unfold bind at 1, attempt at 1.
  pose proof (GetUserStockHoldings_frame userID w) as H1.
  destruct (GetUserStockHoldings userID w) as [[e|holdings] w1]; cbn [snd] in H1;
    [exact H1|].
  unfold bind.
  pose proof (GetPortfolio_loop_frame (map_to_list holdings) [] Zero w1) as H2.
  destruct (GetPortfolio_loop _ _ _ w1) as [[e|res] w2]; cbn [snd] in H2;
    (eapply only_adds_prices_trans; eassumption).
Qed.

Lemma GeneratePricesForAllStocks_loop_frame symbols : forall prices w,
  only_adds_prices w (snd (GeneratePricesForAllStocks_loop symbols prices w)).
Proof.
  induction symbols as [|symbol rest IH]; intros prices w;
    [apply only_adds_prices_refl|].
  cbn [GeneratePricesForAllStocks_loop]. unfold bind.
  pose proof (GeneratePrice_frame symbol w) as H.
  destruct (GeneratePrice symbol w) as [[e|price] w1]; cbn [snd] in H;
    [exact H|].
  eapply only_adds_prices_trans; [exact H | apply IH].
Qed.

Lemma UpdateAllPrices_loop_frame prices : forall w,
  only_adds_prices w (snd (UpdateAllPrices_loop prices w)).
Proof.
  induction prices as [|[symbol price] rest IH]; intros w;
    [apply only_adds_prices_refl|].
  cbn [UpdateAllPrices_loop]. unfold bind, attempt.
  pose proof (SavePrice_frame symbol price w) as H.
  destruct (SavePrice symbol price w) as [r w1]; cbn [snd] in H.
  eapply only_adds_prices_trans; [exact H | apply IH].
Qed.

Lemma UpdateAllPrices_frame w : only_adds_prices w (snd (UpdateAllPrices w)).
Proof.
  unfold UpdateAllPrices, bind, GeneratePricesForAllStocks.
  match goal with |- context [GeneratePricesForAllStocks_loop ?l ?m w] =>
    pose proof (GeneratePricesForAllStocks_loop_frame l m w) as H;
    destruct (GeneratePricesForAllStocks_loop l m w) as [[e|prices] w1] end;
    cbn [snd] in H; [exact H|].
  eapply only_adds_prices_trans; [exact H | apply UpdateAllPrices_loop_frame].
Qed.

Lemma GetPricesForDate_frame d w :
  only_adds_prices w (snd (GetPricesForDate d w)).
Proof.
  unfold GetPricesForDate, bind, attempt.
  match goal with |- context [db_query ?q w] =>
    pose proof (db_query_frame q w) as Hfr;
    destruct (db_query q w) as [[e|h] w1] end; exact Hfr.
Qed.

End QueriesFrame.

(* ===================================================================== *)
(** * The outcomes of a grant                                             *)
(* ===================================================================== *)

Section Outcomes.

(** A branch that ends in an error: the tables are those of the start. *)
Ltac failed :=
  unfold bind, Rollback, fail;
  match goal with P := _ |- _ => subst P end; cbv beta;
  cbn [fst snd store now set_store set_faults reward_events ledger_entries
       price_history reward_events_seq ledger_entries_seq length];
  repeat match goal with
         | H : store _ = store _ |- _ => rewrite H
         | H : reward_events (store _) = _ |- _ => rewrite H
         | H : ledger_entries (store _) = _ |- _ => rewrite H
         | H : reward_events_seq (store _) = _ |- _ => rewrite H
         | H : ledger_entries_seq (store _) = _ |- _ => rewrite H
         end;
  split; [first [assumption | reflexivity]|];
  split; [first [assumption | reflexivity]|];
  left; eexists; split; [reflexivity|];
  repeat (split; [first [reflexivity | lia]|]);
  right; eexists _, _; split; [reflexivity | cbn; tauto].

Lemma CreateReward_outcome userID symbol quantity timestamp w :
  let q6 := Round quantity 6 in
  let s := store w in
  let res := CreateReward userID symbol quantity timestamp w in
  let s' := store (snd res) in
  now (snd res) = now w
  /\ price_history s `prefix_of` price_history s'
  /\ ((exists e,
         fst res = inl e
         /\ reward_events s' = reward_events s
         /\ ledger_entries s' = ledger_entries s
         /\ reward_events_seq s <= reward_events_seq s'
         /\ ledger_entries_seq s <= ledger_entries_seq s'
         /\ ((e = DuplicateGrant
              /\ grants_with userID symbol q6 timestamp s <> [])
             \/ exists msg cause,
                  e = Wrapf msg cause /\ In msg CreateReward_failures))
      \/ (fst res = inr tt
          /\ ValidateStockSymbol symbol = None
          /\ ValidateQuantity quantity = None
          /\ grants_with userID symbol q6 timestamp s = []
          /\ existsb
               (fun r => is_live r
                         && same_dedup_key r
                              (mk_reward_events_row (reward_events_seq s) userID
                                 symbol (value q6) timestamp None))
               (reward_events s) = false
          /\ exists p,
               reward_events s'
               = reward_events s ++
                   [mk_reward_events_row (reward_events_seq s) userID symbol
                      (value q6) timestamp None]
               /\ ledger_entries s'
                  = ledger_entries s ++
                      number_rows (ledger_entries_seq s)
                        (createLedgerEntriesInTx_entries
                           (mkRewardEvent (reward_events_seq s) userID symbol q6
                              timestamp None) p)
               /\ reward_events_seq s' = reward_events_seq s + 1
               /\ ledger_entries_seq s' = ledger_entries_seq s + 3)).
Proof.
  intros q6 s res s'. subst s'. pattern res.
  match goal with |- ?B res => set (P := B) end.
  subst res. subst q6 s. unfold CreateReward.
  destruct (ValidateStockSymbol symbol) eqn:Vs; [failed|].
  destruct (ValidateQuantity quantity) eqn:Vq; [failed|].
  unfold bind at 1, attempt at 1.
  match goal with |- context [db_query ?q w] =>
    destruct (db_query_cases q w) as (fs1 & Hs1 & Hw1 & Hr1);
    destruct (db_query q w) as [r1 w1] end.
  cbn [fst snd] in Hs1, Hw1, Hr1.
  assert (Hn1 : now w1 = now w) by (subst w1; reflexivity).
  destruct Hr1 as [Hr1|Hr1]; subst r1.
  { cbn [errors_Is_RecordNotFound negb]. failed. }
  fold (grants_with userID symbol (Round quantity 6) timestamp (store w)).
  destruct (first_by _ (grants_with _ _ _ _ _)) as [dup|] eqn:Edup;
    cbn [first_or_not_found].
  { unfold fail. subst P. cbv beta. cbn [fst snd]. rewrite Hs1. split; [assumption|].
    split; [reflexivity|]. left. eexists. split; [reflexivity|].
    repeat (split; [try reflexivity; lia|]).
    left. split; [reflexivity|]. intros E. rewrite E in Edup. discriminate. }
  apply first_by_None in Edup.
  cbn [errors_Is_RecordNotFound negb].
  unfold bind at 1, attempt at 1.
  pose proof (GetCurrentPrice_frame symbol w1) as Hframe.
  destruct (GetCurrentPrice symbol w1) as [r2 w2].
  cbn [snd] in Hframe.
  destruct Hframe as ((Hre & Hle & Hrs & Hls & Hn2) & Hph).
  rewrite Hs1 in Hre, Hle, Hrs, Hls, Hph. rewrite Hn1 in Hn2.
  destruct r2 as [err2|p].
  { failed. }
  unfold bind at 1, attempt at 1.
  match goal with |- context [db_exec ?op w2] =>
    destruct (db_exec_cases op w2) as [(fs3 & _ & E3)|(fs3 & _ & E3)];
    rewrite E3; clear E3 end.
  { failed. }
  unfold insert_reward.
  cbn [UserID RewardEvent_StockSymbol RewardEvent_Quantity RewardEvent_Timestamp
       DeletedAt store set_faults].
  rewrite to_numeric_same_exp by apply exp_Round.
  rewrite Hre, Hrs.
  destruct (is_live _ && existsb _ _) eqn:Eidx.
  { failed. }
  cbn [is_live re_deleted_at andb] in Eidx.
  unfold bind at 1, attempt at 1, createLedgerEntriesInTx.
  match goal with |- context [db_exec ?op ?w3] =>
    destruct (db_exec_cases op w3) as [(fs4 & _ & E4)|(fs4 & _ & E4)];
    rewrite E4; clear E4 end.
  { failed. }
  unfold insert_ledger_entries. rewrite entries_reference_reward.
  cbn [store set_store set_faults reward_events RewardEvent_ID].
  rewrite new_reward_referenced by reflexivity.
  cbn [createLedgerEntriesInTx_entries].
  unfold bind at 1, attempt at 1, Commit.
  unfold bind at 1, attempt at 1.
  match goal with |- context [db_exec ?op ?w4] =>
    destruct (db_exec_cases op w4) as [(fs5 & _ & E5)|(fs5 & _ & E5)];
    rewrite E5; clear E5 end.
  { failed. }
  unfold ret. subst P. cbv beta.
  cbn [fst snd store now set_store set_faults reward_events ledger_entries
       price_history reward_events_seq ledger_entries_seq length].
  rewrite Hle, Hls.
  split; [assumption|]. split; [assumption|]. right.
  split; [reflexivity|]. split; [reflexivity|]. split; [reflexivity|].
  split; [assumption|]. split; [assumption|].
  exists p. repeat split; lia.
Qed.

Lemma CreateReversalEntries_failure rewardEvent w e w' :
  CreateReversalEntries rewardEvent w = (inl e, w') ->
  store w' = store w /\ now w' = now w.
Proof.
  unfold CreateReversalEntries. unfold bind at 1, attempt at 1.
  match goal with |- context [db_query ?q w] =>
    destruct (db_query_cases q w) as (fs1 & Hs1 & Hw1 & Hr1);
    destruct (db_query q w) as [r1 w1] end.
  cbn [fst snd] in Hs1, Hw1, Hr1.
  assert (Hn1 : now w1 = now w) by (subst w1; reflexivity).
  destruct Hr1 as [Hr1|Hr1]; subst r1.
  { unfold fail. intros H. injection H as _ H. subst w'. split; assumption. }
  unfold bind at 1. rewrite CreateReversalEntries_loop_run. cbn [app].
  unfold bind at 1, attempt at 1.
  match goal with |- context [db_exec ?op w1] =>
    destruct (db_exec_cases op w1) as [(fs2 & _ & E2)|(fs2 & _ & E2)];
    rewrite E2; clear E2 end.
  { unfold fail. intros H. injection H as _ H. subst w'.
    cbn [store set_faults now]. split; assumption. }
  destruct (insert_ledger_entries _ _).
  - unfold fail. intros H. injection H as _ H. subst w'.
    cbn [store set_faults now]. split; assumption.
  - unfold ret. discriminate.
Qed.

End Outcomes.

(* ===================================================================== *)
(** * The invariant of the store                                          *)
(* ===================================================================== *)

Section Invariant.

Lemma entries_of_kind_filter k id s :
  entries_of_kind k id s
  = List.filter
      (fun le => (le_reward_event_id le =? id)
                 && EntryType_eqb (le_entry_type le) k)
      (ledger_entries s).
Proof. unfold entries_of_kind, of_kind, entries_of_reward. apply filter_filter. Qed.

Lemma Store_wf_empty : Store_wf db.empty.
Proof.
  constructor; cbn; constructor.
Qed.

Lemma Store_wf_same_ledger w w' :
  same_ledger w w' -> Store_wf (store w) -> Store_wf (store w').
Proof.
  intros (Hre & Hle & Hrs & Hls & _) [].
  constructor; unfold entries_of_kind, entries_of_reward in *;
    rewrite ?Hre, ?Hle, ?Hrs, ?Hls; assumption.
Qed.

(** New grants and new entries, with fresh primary keys. *)
Lemma Store_wf_extend s grants rows ph' rs' ls' phs' :
  Store_wf s ->
  reward_events_seq s <= rs' ->
  ledger_entries_seq s <= ls' ->
  Forall (fun r => reward_events_seq s <= re_id r < rs') grants ->
  NoDup (map re_id grants) ->
  Forall (fun le => ledger_entries_seq s <= le_id le < ls') rows ->
  NoDup (map le_id rows) ->
  Forall
    (fun le => exists r, In r (reward_events s ++ grants)
                         /\ re_id r = le_reward_event_id le) rows ->
  Forall
    (fun r => forall k,
       List.filter
         (fun le => (le_reward_event_id le =? re_id r)
                    && EntryType_eqb (le_entry_type le) k) rows <> []) grants ->
  Forall (fun le => le_entry_type le <> EntryTypeStock -> le_quantity le = 0) rows ->
  (forall id,
     sum_amount
       (List.filter
          (fun le => (le_reward_event_id le =? id)
                     && EntryType_eqb (le_entry_type le) EntryTypeStock) rows)
     + sum_amount
         (List.filter
            (fun le => (le_reward_event_id le =? id)
                       && EntryType_eqb (le_entry_type le) EntryTypeCash) rows)
     = 0) ->
  NoDup (map dedup_key (List.filter is_live (reward_events s ++ grants))) ->
  Forall
    (fun r => 0 <= re_quantity r <= 10000 * 10 ^ 6
              /\ (1 <= String.length (re_stock_symbol r) <= 20)%nat) grants ->
  Store_wf
    (mkStore (reward_events s ++ grants) (ledger_entries s ++ rows) ph' rs' ls' phs').
Proof.
  intros [W1 W2 W3 W4 W5 W6 W7 W8 W9 W10] Hrs Hls G1 G2 R1 R2 Rfk Gent Rq Rbal
    Hdd Gval.
  constructor; cbn [reward_events ledger_entries reward_events_seq
                      ledger_entries_seq].
  - apply List.Forall_app. split.
    + eapply List.Forall_impl; [|exact W1]. cbn. intros; lia.
    + eapply List.Forall_impl; [|exact G1]. cbn. intros; lia.
  - rewrite map_app. apply NoDup_app. split; [exact W2|]. split; [|exact G2].
    intros x Hx Hx'.
    apply list_elem_of_In, List.in_map_iff in Hx as (r & <- & Hr).
    apply list_elem_of_In, List.in_map_iff in Hx' as (r' & E & Hr').
    rewrite List.Forall_forall in W1, G1.
    specialize (W1 _ Hr). specialize (G1 _ Hr'). cbn in *. lia.
  - apply List.Forall_app. split.
    + eapply List.Forall_impl; [|exact W3]. cbn. intros; lia.
    + eapply List.Forall_impl; [|exact R1]. cbn. intros; lia.
  - rewrite map_app. apply NoDup_app. split; [exact W4|]. split; [|exact R2].
    intros x Hx Hx'.
    apply list_elem_of_In, List.in_map_iff in Hx as (r & <- & Hr).
    apply list_elem_of_In, List.in_map_iff in Hx' as (r' & E & Hr').
    rewrite List.Forall_forall in W3, R1.
    specialize (W3 _ Hr). specialize (R1 _ Hr'). cbn in *. lia.
  - apply List.Forall_app. split; [|exact Rfk].
    eapply List.Forall_impl; [|exact W5]. cbn.
    intros le (r & Hr & E). exists r. split; [|exact E].
    apply in_or_app. now left.
  - apply List.Forall_app. split.
    + eapply List.Forall_impl; [|exact W6]. cbv beta. intros r Hk k.
      specialize (Hk k). rewrite entries_of_kind_filter in *.
      cbn [ledger_entries]. rewrite List.filter_app.
      destruct (List.filter _ (ledger_entries s));
        [congruence | cbn; intros E; discriminate E].
    + eapply List.Forall_impl; [|exact Gent]. cbv beta. intros r Hk k.
      specialize (Hk k). rewrite entries_of_kind_filter.
      cbn [ledger_entries]. rewrite List.filter_app.
      intros E. apply app_eq_nil in E as [_ E]. contradiction.
  - apply List.Forall_app. split; assumption.
  - intros id. specialize (W8 id). specialize (Rbal id).
    rewrite !entries_of_kind_filter in *. cbn [ledger_entries].
    rewrite !List.filter_app, !sum_amount_app. lia.
  - exact Hdd.
  - apply List.Forall_app. split; assumption.
Qed.

Lemma Store_wf_later s ph' rs' ls' phs' :
  Store_wf s ->
  reward_events_seq s <= rs' ->
  ledger_entries_seq s <= ls' ->
  Store_wf (mkStore (reward_events s) (ledger_entries s) ph' rs' ls' phs').
Proof.
  intros W Hrs Hls.
  pose proof (Store_wf_extend s [] [] ph' rs' ls' phs' W Hrs Hls) as H.
  rewrite !app_nil_r in H.
  apply H; try constructor; try (intros; reflexivity).
  apply W.
Qed.

Lemma same_key_same_dedup_key r r' :
  dedup_key r = dedup_key r' -> same_dedup_key r r' = true.
Proof.
  unfold dedup_key, same_dedup_key. intros E. injection E as -> -> -> ->.
  rewrite !Z.eqb_refl, String.eqb_refl. reflexivity.
Qed.

Lemma validated_quantity quantity :
  ValidateQuantity quantity = None ->
  0 <= value (Round quantity 6) <= 10000 * 10 ^ 6.
Proof.
  intros V. apply ValidateQuantity_accepts in V as [Hlo Hhi]. split.
  - change 0 with (value (Round Zero 6)). apply Round_mono.
    rewrite toQ_Zero. apply Qlt_le_weak, Hlo.
  - change (10000 * 10 ^ 6) with (value (Round (NewFromInt 10000) 6)).
    apply Round_mono. rewrite toQ_NewFromInt. exact Hhi.
Qed.

Lemma Store_wf_CreateReward userID symbol quantity timestamp w :
  Store_wf (store w) ->
  Store_wf (store (snd (CreateReward userID symbol quantity timestamp w))).
Proof.
  intros W.
  destruct (CreateReward_outcome userID symbol quantity timestamp w)
    as (_ & _ & [(e & _ & Hre & Hle & Hrs & Hls & _)
                |(_ & Vs & Vq & _ & Hidx & p & Hre & Hle & Hrs & Hls)]).
  - destruct (store (snd _)) as [re le ph rs ls phs]. cbn in *. subst re le.
    apply Store_wf_later; assumption.
  - destruct (store (snd _)) as [re le ph rs ls phs].
    cbn [reward_events ledger_entries reward_events_seq ledger_entries_seq]
      in Hre, Hle, Hrs, Hls.
    subst re le rs ls.
    rewrite number_rows_createLedgerEntriesInTx_entries by apply exp_Round.
    pose proof W as [W1 _ _ _ _ _ _ _ W9 _].
    apply Store_wf_extend; try assumption; try lia.
    + repeat constructor; cbn; lia.
    + cbn. apply NoDup_singleton.
    + repeat constructor; cbn; lia.
    + cbn. repeat (apply NoDup_cons; split); [| |set_solver|constructor].
      * rewrite !elem_of_cons. intros [?|[?|?%elem_of_nil]]; try lia; assumption.
      * rewrite !elem_of_cons. intros [?|?%elem_of_nil]; try lia; assumption.
    + repeat constructor; cbn; eexists;
        (split; [apply in_or_app; right; left; reflexivity|reflexivity]).
    + repeat constructor. cbn. intros k. rewrite Z.eqb_refl. destruct k; discriminate.
    + repeat constructor; cbn; congruence.
    + intros id. cbn. destruct (_ =? id); cbn; lia.
    + rewrite List.filter_app, map_app. cbn.
      apply NoDup_app. split; [exact W9|]. split; [|apply NoDup_singleton].
      intros key Hk Hk'. apply list_elem_of_singleton in Hk'. subst key.
      apply list_elem_of_In, List.in_map_iff in Hk as (r & Ekey & Hr).
      apply List.filter_In in Hr as [Hr Hlive].
      assert (existsb
                (fun r0 => is_live r0
                   && same_dedup_key r0
                        (mk_reward_events_row (reward_events_seq (store w)) userID
                           symbol (value (Round quantity 6)) timestamp None))
                (reward_events (store w)) = true) as Hex; [|congruence].
      apply List.existsb_exists. exists r. split; [exact Hr|].
      rewrite Hlive. cbn. apply same_key_same_dedup_key. exact Ekey.
    + constructor; [|constructor]. cbn [re_quantity re_stock_symbol].
      split; [apply validated_quantity, Vq | apply ValidateStockSymbol_accepts, Vs].
Qed.

Lemma reversal_rows_ids t rows : forall n,
  Forall (fun r => n <= le_id r < n + Z.of_nat (length rows)) (reversal_rows n t rows)
  /\ NoDup (map le_id (reversal_rows n t rows)).
Proof.
  induction rows as [|o rest IH]; intros n; cbn [reversal_rows length map].
  - split; constructor.
  - destruct (IH (n + 1)) as [Hb Hn]. split.
    + constructor; [cbn; lia|].
      eapply List.Forall_impl; [|exact Hb]. cbv beta. intros; lia.
    + apply NoDup_cons. split; [|exact Hn]. cbn [le_id].
      intros Hin. apply list_elem_of_In, List.in_map_iff in Hin as (r & E & Hr).
      rewrite List.Forall_forall in Hb. specialize (Hb _ Hr). cbv beta in Hb. lia.
Qed.

Lemma reversal_rows_quantity n t rows :
  Forall (fun le => le_entry_type le <> EntryTypeStock -> le_quantity le = 0) rows ->
  Forall (fun le => le_entry_type le <> EntryTypeStock -> le_quantity le = 0)
    (reversal_rows n t rows).
Proof.
  intros H. revert n. induction H as [|o rest Ho _ IH]; intros n;
    cbn [reversal_rows]; constructor; [|apply IH].
  cbn. intros Hk. rewrite (Ho Hk). reflexivity.
Qed.

Lemma kind_of_grant_class k id :
  row_class (fun le => (le_reward_event_id le =? id)
                       && EntryType_eqb (le_entry_type le) k).
Proof. intros a b E1 E2 _. rewrite E1, E2. reflexivity. Qed.

Lemma entries_of_reward_of_grant k id id' s :
  List.filter
    (fun le => (le_reward_event_id le =? id')
               && EntryType_eqb (le_entry_type le) k)
    (entries_of_reward id s)
  = if id' =? id then entries_of_kind k id s else [].
Proof.
  destruct (Z.eqb_spec id' id) as [->|Hne].
  - rewrite entries_of_kind_filter. unfold entries_of_reward.
    rewrite filter_filter. apply List.filter_ext. intros le.
    destruct (le_reward_event_id le =? id); reflexivity.
  - apply filter_none.
    pose proof (entries_of_reward_same_reward id s) as H.
    eapply List.Forall_impl; [|exact H]. cbv beta. intros le ->.
    destruct (Z.eqb_spec id id'); [congruence|reflexivity].
Qed.

Lemma Store_wf_CreateReversalEntries rewardEvent w :
  Store_wf (store w) ->
  Store_wf (store (snd (CreateReversalEntries rewardEvent w))).
Proof.
  intros W.
  destruct (CreateReversalEntries rewardEvent w) as [[e|[]] w'] eqn:E; cbn [snd].
  { apply CreateReversalEntries_failure in E as [-> _]. exact W. }
  apply CreateReversalEntries_success in E as (Hne & -> & _).
  set (id := RewardEvent_ID rewardEvent) in *.
  set (rows := entries_of_reward id (store w)) in *.
  pose proof W as [_ _ _ _ W5 _ W7 W8 W9 _].
  destruct (reversal_rows_ids (now w) rows (ledger_entries_seq (store w)))
    as [Hids Hnd].
  rewrite <- (app_nil_r (reward_events (store w))).
  assert (Hin : Forall (fun le => In le (ledger_entries (store w))) rows).
  { apply List.Forall_forall. intros le Hle.
    apply List.filter_In in Hle. tauto. }
  apply Store_wf_extend; try assumption; try constructor; try lia.
  - rewrite app_nil_r.
    pose proof (reversal_rows_same_reward id (ledger_entries_seq (store w)) (now w)
                  rows (entries_of_reward_same_reward id (store w))) as Href.
    destruct rows as [|o rest] eqn:Erows; [congruence|].
    assert (Ho : exists r, In r (reward_events (store w)) /\ re_id r = id).
    { rewrite List.Forall_forall in W5, Hin.
      destruct (W5 o (Hin o (or_introl eq_refl))) as (r & Hr & Er).
      exists r. split; [exact Hr|].
      pose proof (entries_of_reward_same_reward id (store w)) as Hsame.
      fold rows in Hsame. rewrite Erows in Hsame.
      apply List.Forall_inv in Hsame. congruence. }
    eapply List.Forall_impl; [|exact Href]. cbv beta. intros le ->. exact Ho.
  - apply reversal_rows_quantity.
    rewrite List.Forall_forall in W7, Hin. apply List.Forall_forall.
    intros le Hle. apply W7, Hin, Hle.
  - intros id'.
    destruct (reversal_rows_sums _ (ledger_entries_seq (store w)) (now w) rows
                (kind_of_grant_class EntryTypeStock id')) as (_ & -> & _).
    destruct (reversal_rows_sums _ (ledger_entries_seq (store w)) (now w) rows
                (kind_of_grant_class EntryTypeCash id')) as (_ & -> & _).
    unfold rows. rewrite !entries_of_reward_of_grant.
    destruct (id' =? id); [|reflexivity].
    specialize (W8 id). lia.
  - rewrite app_nil_r. exact W9.
Qed.

Lemma Store_wf_after c w : Store_wf (store w) -> Store_wf (store (after c w)).
Proof.
  intros W. destruct c; cbn [after];
    [apply Store_wf_CreateReward, W
    |apply Store_wf_CreateReversalEntries, W
    |eapply Store_wf_same_ledger; [|exact W]..].
  - apply GetTodayRewards_frame.
  - apply GetHistoricalINR_frame.
  - apply GetStats_frame.
  - apply GetPortfolio_frame.
  - apply GetUserStockHoldings_frame.
  - apply GetUserStockHoldingsUpToDate_frame.
  - apply GetCurrentPrice_frame.
  - apply GetPriceAtTime_frame.
  - apply SavePrice_frame.
  - apply UpdateAllPrices_frame.
  - apply GetPricesForDate_frame.
Qed.

(** X1.  Every state the services reach from an empty store, whatever the
    calls, the clock and the faults of the store, is a store in which
    every ledger entry belongs to a grant, every grant has its stock, cash
    and fee entries, the stock and cash amounts of every grant cancel, no
    two live grants share (user, symbol, quantity, timestamp), and every
    grant has a symbol of 1 to 20 bytes and a quantity between 0 and 10000
    shares. *)
Theorem reachable_Store_wf w : reachable w -> Store_wf (store w).
Proof.
  induction 1 as [pg dr n t fs|w c t fs _ IH].
  - apply Store_wf_empty.
  - apply Store_wf_after. exact IH.
Qed.

End Invariant.

(* ===================================================================== *)
(** * All or nothing, and append only                                     *)
(* ===================================================================== *)

Section Atomicity.

Lemma holdings_query_tables s s' userID endDate :
  reward_events s' = reward_events s ->
  ledger_entries s' = ledger_entries s ->
  holdings_query s' userID endDate = holdings_query s userID endDate.
Proof.
  intros Hre Hle. unfold holdings_query, holdings_rows, holdings_where.
  rewrite Hre, Hle. reflexivity.
Qed.

(** X2.  A grant is recorded entirely or not at all: whatever the request
    and whichever requests to the store fail, a call of [CreateReward] that
    reports an error leaves the grants and the ledger entries, and with
    them the holdings of every user, as they were. *)
Theorem CreateReward_all_or_nothing userID symbol quantity timestamp w e w' :
  CreateReward userID symbol quantity timestamp w = (inl e, w') ->
  reward_events (store w') = reward_events (store w)
  /\ ledger_entries (store w') = ledger_entries (store w)
  /\ forall user endDate,
       holdingsMap (holdings_query (store w') user endDate)
       = holdingsMap (holdings_query (store w) user endDate).
Proof.
  intros E.
  destruct (CreateReward_outcome userID symbol quantity timestamp w)
    as (_ & _ & [(e' & _ & Hre & Hle & _)|(Hok & _)]);
    rewrite E in *; cbn [fst snd] in *; [|discriminate].
  repeat split; try assumption.
  intros user endDate. f_equal. apply holdings_query_tables; assumption.
Qed.

Lemma CreateReward_all_or_nothing_witness :
  fst (CreateReward 1 "RELIANCE" (New 25 (-1)) scenario.T scenario.ledger_write_fails)
    = inl (Wrapf "failed to create ledger entries" ErrStore)
  /\ reward_events_seq
       (store (snd (CreateReward 1 "RELIANCE" (New 25 (-1)) scenario.T
                      scenario.ledger_write_fails))) = 2
  /\ reward_events
       (store (snd (CreateReward 1 "RELIANCE" (New 25 (-1)) scenario.T
                      scenario.ledger_write_fails)))
     = reward_events (store scenario.ledger_write_fails)
  /\ ledger_entries
       (store (snd (CreateReward 1 "RELIANCE" (New 25 (-1)) scenario.T
                      scenario.ledger_write_fails)))
     = ledger_entries (store scenario.ledger_write_fails).
Proof.
  split; [vm_compute; reflexivity|]. split; [vm_compute; reflexivity|].
  destruct (CreateReward_all_or_nothing 1 "RELIANCE" (New 25 (-1)) scenario.T
              scenario.ledger_write_fails
              (Wrapf "failed to create ledger entries" ErrStore)
              (snd (CreateReward 1 "RELIANCE" (New 25 (-1)) scenario.T
                      scenario.ledger_write_fails)))
    as (Hre & Hle & _).
  - vm_compute. reflexivity.
  - split; assumption.
Defined.


Lemma reachable_Store_wf_witness : Store_wf (store scenario.three_calls).
Proof.
  apply (reachable_Store_wf scenario.three_calls).
  unfold scenario.three_calls. apply reachable_call.
  unfold scenario.granted_and_reversed. apply reachable_call.
  unfold scenario.granted.
  apply (reachable_call
           (mkWorld db.empty NewPriceGenerator (fun _ => New 0 0) 0 scenario.T [])).
  apply reachable_empty.
Defined.

Example three_calls_ledger :
  map le_id (ledger_entries (store scenario.three_calls)) = [1; 2; 3; 4; 5; 6]
  /\ map le_amount_inr (ledger_entries (store scenario.three_calls))
     = [61262500; -61262500; -82949; -61262500; 61262500; 82949].
Proof. evaluate_conjuncts. Qed.

End Atomicity.

(* ===================================================================== *)
(** * Holdings                                                            *)
(* ===================================================================== *)

Section Holdings.

Lemma GetUserStockHoldings_store userID w holdings w' :
  GetUserStockHoldings userID w = (inr holdings, w') ->
  store w' = store w
  /\ holdings = holdingsMap (holdings_query (store w) userID None).
Proof.
  unfold GetUserStockHoldings, bind, attempt.
  match goal with |- context [db_query ?q w] =>
    destruct (db_query_cases q w) as (fs & Hs & _ & Hr);
    destruct (db_query q w) as [r w1] end.
  cbn [fst snd] in Hs, Hr.
  destruct Hr as [->| ->]; [discriminate|].
  unfold ret. intros E. injection E as <- <-. split; [exact Hs|reflexivity].
Qed.

Lemma GetUserStockHoldings_net_lookup userID w holdings w' :
  GetUserStockHoldings userID w = (inr holdings, w') ->
  forall symbol,
    holdings !! symbol
    = (if 0 <? net_quantity (store w) userID None symbol
       then Some (New (net_quantity (store w) userID None symbol) (-6))
       else None).
Proof.
  intros E symbol. apply GetUserStockHoldings_store in E as [_ ->].
  apply holdings_lookup.
Qed.

(** X4.  The holdings of a user list exactly the symbols of which the
    user's stock entries, over the live grants, sum to more than zero,
    each with that sum; a holdings query that answers changes nothing. *)
Theorem GetUserStockHoldings_net userID w holdings w' :
  GetUserStockHoldings userID w = (inr holdings, w') ->
  store w' = store w
  /\ forall symbol,
       holdings !! symbol
       = (if 0 <? net_quantity (store w) userID None symbol
          then Some (New (net_quantity (store w) userID None symbol) (-6))
          else None).
Proof.
  intros E. split.
  - apply GetUserStockHoldings_store in E. apply E.
  - apply GetUserStockHoldings_net_lookup with (w' := w'). exact E.
Qed.

Lemma GetUserStockHoldings_net_witness :
  exists holdings,
    fst (GetUserStockHoldings 1 scenario.after_A) = inr holdings
    /\ holdings !! "RELIANCE"%string = Some (New 2500000 (-6))
    /\ holdings !! "TCS"%string = None.
Proof.
  destruct (GetUserStockHoldings 1 scenario.after_A) as [r w'] eqn:E.
  assert (Hr : exists h, r = inr h).
  { apply (f_equal fst) in E. cbn [fst] in E. rewrite <- E.
    eexists. vm_compute. reflexivity. }
  destruct Hr as [h ->]. exists h. split; [reflexivity|].
  destruct (GetUserStockHoldings_net 1 scenario.after_A h w' E) as [_ H].
  rewrite !H. split; vm_compute; reflexivity.
Defined.

(** Which ledger rows enter the holdings of a user once a grant and its
    three entries are added. *)
Lemma holdings_where_old s ph' rs' ls' phs' row rows user endDate le :
  Store_wf s ->
  re_id row = reward_events_seq s ->
  In le (ledger_entries s) ->
  holdings_where
    (mkStore (reward_events s ++ [row]) (ledger_entries s ++ rows) ph' rs' ls' phs')
    user endDate le
  = holdings_where s user endDate le.
Proof.
  intros W Hid Hle. unfold holdings_where. cbn [reward_events].
  rewrite List.existsb_app. cbn [existsb].
  destruct W as [W1 _ _ _ W5 _ _ _ _ _].
  rewrite List.Forall_forall in W1, W5.
  destruct (W5 le Hle) as (r & Hr & E). specialize (W1 r Hr). cbv beta in W1.
  destruct (Z.eqb_spec (le_reward_event_id le) (re_id row)) as [E'|_]; [lia|].
  cbn [andb]. rewrite !orb_false_r. reflexivity.
Qed.

Lemma holdings_where_new s row user endDate le :
  Store_wf s ->
  re_id row = reward_events_seq s ->
  le_reward_event_id le = re_id row ->
  existsb
    (fun re =>
       (le_reward_event_id le =? re_id re) && (re_user_id re =? user)
       && is_live re
       && match endDate with Some t => re_timestamp re <=? t | None => true end)
    (reward_events s ++ [row])
  = (re_user_id row =? user) && is_live row
    && match endDate with Some t => re_timestamp row <=? t | None => true end.
Proof.
  intros W Hid Hle. rewrite List.existsb_app. cbn [existsb].
  rewrite Hle, Z.eqb_refl, orb_false_r. cbn [andb].
  destruct W as [W1 _ _ _ _ _ _ _ _ _].
  assert (Hold : existsb
            (fun re => (re_id row =? re_id re) && (re_user_id re =? user)
                       && is_live re
                       && match endDate with
                          | Some t => re_timestamp re <=? t
                          | None => true
                          end) (reward_events s) = false).
  { destruct (existsb _ _) eqn:Ex; [|reflexivity].
    apply List.existsb_exists in Ex as (r & Hr & Er).
    rewrite List.Forall_forall in W1. specialize (W1 r Hr). cbv beta in W1.
    destruct (Z.eqb_spec (re_id row) (re_id r)); [lia|discriminate]. }
  rewrite Hold. reflexivity.
Qed.

(** X5.  A recorded grant adds its quantity, rounded to 6 decimals, to the
    net quantity of its symbol for its user, in every holdings query whose
    date bound is not before the grant's timestamp, and changes no other
    net quantity of any user. *)
Theorem CreateReward_credits userID symbol quantity timestamp w w' :
  Store_wf (store w) ->
  CreateReward userID symbol quantity timestamp w = (inr tt, w') ->
  forall user endDate sym,
    net_quantity (store w') user endDate sym
    = net_quantity (store w) user endDate sym
      + (if (userID =? user) && String.eqb symbol sym
            && match endDate with Some t => timestamp <=? t | None => true end
         then value (Round quantity 6) else 0).
Proof.
  intros W E user endDate sym.
  destruct (CreateReward_outcome userID symbol quantity timestamp w)
    as (_ & _ & [(e' & He & _)|(_ & _ & _ & _ & _ & p & Hre & Hle & _)]);
    rewrite E in *; cbn [fst snd] in *; [discriminate|].
  rewrite number_rows_createLedgerEntriesInTx_entries in Hle by apply exp_Round.
  unfold net_quantity, holdings_rows.
  destruct (store w') as [re le ph rs ls phs].
  cbn [reward_events ledger_entries] in Hre, Hle. subst re le.
  cbn [ledger_entries]. rewrite !List.filter_app, sum_quantity_app.
  f_equal.
  - f_equal. f_equal. apply List.filter_ext_in. intros le Hin.
    apply holdings_where_old; [exact W|reflexivity|exact Hin].
  - cbn [List.filter]. unfold holdings_where.
    cbn [le_entry_type EntryType_eqb andb le_stock_symbol reward_events].
    rewrite !andb_false_r, andb_true_r.
    rewrite (holdings_where_new (store w)) by (try exact W; reflexivity).
    cbn [re_user_id is_live re_deleted_at re_timestamp andb].
    rewrite andb_true_r.
    destruct (userID =? user); cbn [andb]; [|reflexivity].
    assert (Hone : sum_quantity
              (List.filter (has_symbol sym)
                 [mk_ledger_entries_row (ledger_entries_seq (store w))
                    (reward_events_seq (store w)) EntryTypeStock (Some symbol)
                    (value (Round quantity 6))
                    (value (Round (Mul p (Round quantity 6)) 4)) timestamp])
            = if String.eqb symbol sym then value (Round quantity 6) else 0).
    { cbn [List.filter]. unfold has_symbol. cbn [le_stock_symbol].
      destruct (String.eqb symbol sym); cbn; lia. }
    destruct endDate as [t|]; [destruct (timestamp <=? t)|];
      rewrite ?andb_false_r, ?andb_true_r; try exact Hone; reflexivity.
Qed.

Lemma CreateReward_credits_witness :
  net_quantity (store scenario.after_A) 1 None "RELIANCE"
  = net_quantity (store scenario.fresh) 1 None "RELIANCE" + 2500000
  /\ net_quantity (store scenario.after_A) 1 (Some (scenario.T - 1)) "RELIANCE"
     = net_quantity (store scenario.fresh) 1 (Some (scenario.T - 1)) "RELIANCE" + 0.
Proof.
  assert (W : Store_wf (store scenario.fresh)) by apply Store_wf_empty.
  assert (E : CreateReward 1 "RELIANCE" (New 25 (-1)) scenario.T scenario.fresh
              = (inr tt, scenario.after_A)) by (vm_compute; reflexivity).
  split.
  - exact (CreateReward_credits 1 "RELIANCE" (New 25 (-1)) scenario.T
             scenario.fresh scenario.after_A W E 1 None "RELIANCE"%string).
  - exact (CreateReward_credits 1 "RELIANCE" (New 25 (-1)) scenario.T
             scenario.fresh scenario.after_A W E 1 (Some (scenario.T - 1))
             "RELIANCE"%string).
Defined.

End Holdings.

(* ===================================================================== *)
(** * Prices: saved, looked up again, and as of a time                    *)
(* ===================================================================== *)

Section Prices.

Lemma first_by_app_newest rows row :
  (forall x, In x rows -> ph_timestamp x < ph_timestamp row) ->
  first_by price_newer (rows ++ [row]) = Some row.
Proof.
  intros Hold. unfold first_by. rewrite fold_left_app. cbn [fold_left].
  fold (first_by price_newer rows).
  destruct (first_by price_newer rows) as [b|] eqn:E; [|reflexivity].
  apply first_by_In in E. specialize (Hold b E).
  unfold price_newer.
  destruct (Z.ltb_spec (ph_timestamp b) (ph_timestamp row)); [reflexivity|lia].
Qed.

Lemma samples_of_insert_price s symbol price t :
  samples_of symbol (insert_price s (mkPriceHistory 0 symbol price t))
  = samples_of symbol s
    ++ [mk_price_history_row (price_history_seq s) symbol (to_numeric 4 price) t].
Proof.
  unfold samples_of, insert_price. cbn [price_history].
  rewrite List.filter_app. cbn [List.filter].
  unfold price_of_symbol at 2. cbn [ph_stock_symbol].
  rewrite String.eqb_refl. reflexivity.
Qed.

Lemma of_numeric_value d scale : exp d = - scale -> of_numeric scale (value d) = d.
Proof. destruct d as [v e]. cbn. intros ->. reflexivity. Qed.

Lemma SavePrice_ok symbol price w :
  faults w = [] ->
  SavePrice symbol price w
  = (inr tt,
     set_generator
       (set_store w
          (insert_price (store w) (mkPriceHistory 0 symbol (RoundINR price) (now w))))
       (UpdateBasePrice (generator w) symbol price)).
Proof.
  intros Hf. unfold SavePrice. unfold bind at 1. rewrite NowUTC_run.
  unfold bind, attempt. rewrite db_exec_ok by exact Hf. reflexivity.
Qed.

(** X6.  A price that was saved is the current price: when the store
    answers and every sample of the symbol is older than the clock,
    [SavePrice] followed by [GetCurrentPrice] returns the saved price,
    rounded to 4 decimals, without drawing a new one, and the generator's
    base price of the symbol is the price as it was given. *)
Theorem SavePrice_then_GetCurrentPrice symbol price w :
  faults w = [] ->
  (forall x, In x (price_history (store w)) -> ph_stock_symbol x = symbol ->
             ph_timestamp x < now w) ->
  exists w1,
    SavePrice symbol price w = (inr tt, w1)
    /\ GetCurrentPrice symbol w1 = (inr (Round price 4), w1)
    /\ basePrices (generator w1) !! symbol = Some price
    /\ drawn w1 = drawn w.
Proof.
  intros Hf Hold. eexists. split; [apply SavePrice_ok, Hf|].
  split; [|split; [cbn; apply lookup_insert_eq | reflexivity]].
  rewrite GetCurrentPrice_ok by exact Hf.
  cbn [store set_generator set_store now].
  rewrite samples_of_insert_price, first_by_app_newest.
  - cbn [ph_timestamp ph_price_inr].
    destruct (Z.gtb_spec (now w - now w) (2 * Hour)) as [H|_];
      [unfold Hour in H; lia|].
    unfold RoundINR, to_numeric. rewrite Round_Round.
    rewrite of_numeric_value by apply exp_Round. reflexivity.
  - intros x Hx. apply List.filter_In in Hx as [Hx Hs]. cbn [ph_timestamp].
    apply Hold; [exact Hx|]. apply String.eqb_eq, Hs.
Qed.

Lemma SavePrice_then_GetCurrentPrice_witness :
  exists w1,
    SavePrice "TCS" (New 370012345 (-5)) scenario.stale_TCS = (inr tt, w1)
    /\ GetCurrentPrice "TCS" w1 = (inr (New 37001235 (-4)), w1)
    /\ basePrices (generator w1) !! "TCS"%string = Some (New 370012345 (-5))
    /\ drawn w1 = drawn scenario.stale_TCS.
Proof.
  apply (SavePrice_then_GetCurrentPrice "TCS" (New 370012345 (-5)) scenario.stale_TCS).
  - reflexivity.
  - cbn. intros x [<-|[]] _. cbn. unfold scenario.next_morning, Hour. lia.
Defined.

(** X7.  While the clock stands still a second lookup of the current price
    agrees with the first: if the store answers, [GetCurrentPrice] called
    again in the state it left returns the same price, draws no new one
    and changes nothing. *)
Theorem GetCurrentPrice_twice symbol w p w1 :
  faults w = [] ->
  GetCurrentPrice symbol w = (inr p, w1) ->
  GetCurrentPrice symbol w1 = (inr p, w1).
Proof.
  intros Hf E. rewrite GetCurrentPrice_ok in E by exact Hf.
  assert (Hsyn :
    (forall x, In x (samples_of symbol (store w)) -> ph_timestamp x < now w) ->
    (@inr error Decimal (fst (synthesize_price symbol w)),
     snd (synthesize_price symbol w)) = (inr p, w1) ->
    GetCurrentPrice symbol w1 = (inr p, w1)).
  { intros Hold Es. unfold synthesize_price in Es.
    pose proof (GeneratePrice_rounded (generator w) symbol (draws w (drawn w))) as Hexp.
    destruct (utils.GeneratePrice _ _ _) as [price pg]. cbn [fst snd] in *.
    injection Es as <- <-.
    rewrite GetCurrentPrice_ok by exact Hf.
    unfold samples_of at 1. cbn [store price_history].
    rewrite List.filter_app. cbn [List.filter].
    unfold price_of_symbol at 2. cbn [ph_stock_symbol]. rewrite String.eqb_refl.
    rewrite first_by_app_newest by exact Hold.
    cbn [ph_timestamp ph_price_inr now].
    destruct (Z.gtb_spec (now w - now w) (2 * Hour)) as [H|_];
      [unfold Hour in H; lia|].
    rewrite of_numeric_value by exact Hexp. reflexivity. }
  destruct (first_by price_newer (samples_of symbol (store w))) as [row|] eqn:Erow.
  - destruct (Z.gtb_spec (now w - ph_timestamp row) (2 * Hour)) as [Hstale|Hfresh].
    + apply Hsyn; [|exact E]. intros x Hx.
      apply latest_price_most_recent in Erow as [_ Hmax].
      specialize (Hmax x Hx). unfold Hour in Hstale. lia.
    + injection E as <- <-. rewrite GetCurrentPrice_ok by exact Hf.
      rewrite Erow.
      destruct (Z.gtb_spec (now w - ph_timestamp row) (2 * Hour)); [lia|reflexivity].
  - apply Hsyn; [|exact E]. intros x Hx.
    apply first_by_None in Erow. rewrite Erow in Hx. destruct Hx.
Qed.

Lemma GetCurrentPrice_twice_witness :
  GetCurrentPrice "TCS" (snd (GetCurrentPrice "TCS" scenario.stale_TCS))
  = (inr (New 37175575 (-4)), snd (GetCurrentPrice "TCS" scenario.stale_TCS)).
Proof.
  apply (GetCurrentPrice_twice "TCS" scenario.stale_TCS).
  - reflexivity.
  - vm_compute. reflexivity.
Defined.

(** X8.  The price as of a time is that of the most recent sample of the
    symbol at or before that time, however old, and the lookup changes
    nothing; when the symbol has no sample that early, the price as of
    that time is the current price, which may be drawn at the moment of
    the lookup. *)
Theorem GetPriceAtTime_latest_before symbol timestamp w :
  faults w = [] ->
  ((exists x, In x (price_history (store w)) /\ ph_stock_symbol x = symbol
              /\ ph_timestamp x <= timestamp) ->
   exists row,
     In row (price_history (store w)) /\ ph_stock_symbol row = symbol
     /\ ph_timestamp row <= timestamp
     /\ (forall x, In x (price_history (store w)) -> ph_stock_symbol x = symbol ->
                   ph_timestamp x <= timestamp -> ph_timestamp x <= ph_timestamp row)
     /\ GetPriceAtTime symbol timestamp w = (inr (New (ph_price_inr row) (-4)), w))
  /\ ((forall x, In x (price_history (store w)) -> ph_stock_symbol x = symbol ->
                 timestamp < ph_timestamp x) ->
      GetPriceAtTime symbol timestamp w = GetCurrentPrice symbol w).
Proof.
  intros Hf. unfold GetPriceAtTime, bind, attempt.
  rewrite db_query_ok by exact Hf.
  set (earlier := List.filter _ (price_history (store w))).
  assert (Hin : forall x, In x earlier <->
            In x (price_history (store w)) /\ ph_stock_symbol x = symbol
            /\ ph_timestamp x <= timestamp).
  { intros x. unfold earlier. rewrite List.filter_In, andb_true_iff.
    unfold price_of_symbol. rewrite String.eqb_eq, Z.leb_le. tauto. }
  split.
  - intros (x & Hx).
    destruct (first_by price_newer earlier) as [row|] eqn:Erow.
    + apply latest_price_most_recent in Erow as [Hrow Hmax].
      exists row. apply Hin in Hrow as (H1 & H2 & H3).
      repeat split; try assumption.
      intros y Hy1 Hy2 Hy3. apply Hmax, Hin. auto.
    + apply first_by_None in Erow. apply Hin in Hx. rewrite Erow in Hx. destruct Hx.
  - intros Hnone.
    destruct (first_by price_newer earlier) as [row|] eqn:Erow.
    + apply first_by_In, Hin in Erow as (H1 & H2 & H3).
      specialize (Hnone row H1 H2). lia.
    + reflexivity.
Qed.

Lemma GetPriceAtTime_latest_before_witness :
  GetPriceAtTime "TCS" scenario.next_morning scenario.stale_TCS
    = (inr (New 36807500 (-4)), scenario.stale_TCS)
  /\ GetPriceAtTime "TCS" (scenario.next_morning - 4 * Hour) scenario.stale_TCS
     = GetCurrentPrice "TCS" scenario.stale_TCS.
Proof.
  split.
  - destruct (GetPriceAtTime_latest_before "TCS" scenario.next_morning
                scenario.stale_TCS eq_refl) as [H _].
    destruct H as (row & Hrow & _ & _ & _ & E).
    + eexists. split; [left; reflexivity|]. split; [reflexivity|].
      cbn. unfold scenario.next_morning, Hour. lia.
    + destruct Hrow as [<-|[]]. exact E.
  - apply (GetPriceAtTime_latest_before "TCS" (scenario.next_morning - 4 * Hour)
             scenario.stale_TCS eq_refl).
    cbn. intros x [<-|[]] _. cbn. unfold scenario.next_morning, Hour. lia.
Defined.

End Prices.

(* ===================================================================== *)
(** * Rounding, and the prices the generator makes                        *)
(* ===================================================================== *)

Section RoundingAndGenerator.

Lemma round_half_away_near x places :
  (x * 10 ^ places - (1 # 2) <= inject_Z (round_half_away x places))%Q
  /\ (inject_Z (round_half_away x places) <= x * 10 ^ places + (1 # 2))%Q.
Proof.
  unfold round_half_away. cbv zeta. set (y := (x * 10 ^ places)%Q).
  destruct (Qle_bool 0 y).
  - pose proof (Qfloor_le (y + (1 # 2))) as H1.
    pose proof (Qlt_floor (y + (1 # 2))) as H2.
    rewrite inject_Z_plus in H2. change (inject_Z 1) with 1%Q in H2.
    split; lra.
  - pose proof (Qfloor_le (- y + (1 # 2))) as H1.
    pose proof (Qlt_floor (- y + (1 # 2))) as H2.
    rewrite inject_Z_plus in H2. change (inject_Z 1) with 1%Q in H2.
    rewrite inject_Z_opp. split; lra.
Qed.

Lemma Qten_pow_inverse places : (10 ^ places * 10 ^ (- places) == 1)%Q.
Proof.
  rewrite <- Qpower_plus by discriminate.
  rewrite Z.add_opp_diag_r. reflexivity.
Qed.

(** Rounding moves a number by at most half a unit of the last place. *)
Lemma Round_near d places :
  (toQ d - (1 # 2) * 10 ^ (- places) <= toQ (Round d places))%Q
  /\ (toQ (Round d places) <= toQ d + (1 # 2) * 10 ^ (- places))%Q.
Proof.
  rewrite toQ_Round.
  destruct (round_half_away_near (toQ d) places) as [H1 H2].
  set (r := inject_Z _) in *.
  pose proof (Qten_pow_pos (- places)) as Ht.
  pose proof (Qten_pow_inverse places) as Hinv.
  set (t := (10 ^ (- places))%Q) in *. set (u := (10 ^ places)%Q) in *.
  assert (Hx : (toQ d == toQ d * u * t)%Q).
  { rewrite <- Qmult_assoc, Hinv. ring. }
  split.
  - apply Qmult_le_compat_r with (z := t) in H1; [|lra].
    rewrite Hx at 1. lra.
  - apply Qmult_le_compat_r with (z := t) in H2; [|lra].
    rewrite Hx at 1. lra.
Qed.

Lemma round_units_opp v s : round_units (- v) s = - round_units v s.
Proof.
  unfold round_units. destruct (0 <=? s); [lia|].
  cbv zeta. rewrite Z.sgn_opp, Z.abs_opp. lia.
Qed.

Lemma Round_Neg d places : Round (Neg d) places = Neg (Round d places).
Proof.
  assert (Hv : value (Round (Neg d) places) = value (Neg (Round d places))).
  { rewrite value_Neg, !value_Round. cbn [Neg value exp]. apply round_units_opp. }
  assert (He : exp (Round (Neg d) places) = exp (Neg (Round d places))).
  { cbn [Neg exp]. rewrite !exp_Round. reflexivity. }
  destruct (Round (Neg d) places), (Neg (Round d places)). cbn in *. congruence.
Qed.

(** X9.  [RoundINR] and [RoundQuantity] give the nearest decimal with 4,
    respectively 6, decimals: the result is at most half a unit of the
    last place away from the argument, does not change when rounded again,
    keeps the order, and commutes with negation. *)
Theorem RoundINR_RoundQuantity_nearest a :
  (exp (RoundINR a) = -4
   /\ (toQ a - (1 # 20000) <= toQ (RoundINR a))%Q
   /\ (toQ (RoundINR a) <= toQ a + (1 # 20000))%Q
   /\ RoundINR (RoundINR a) = RoundINR a
   /\ RoundINR (Neg a) = Neg (RoundINR a)
   /\ forall b, (toQ a <= toQ b)%Q -> value (RoundINR a) <= value (RoundINR b))
  /\ (exp (RoundQuantity a) = -6
      /\ (toQ a - (1 # 2000000) <= toQ (RoundQuantity a))%Q
      /\ (toQ (RoundQuantity a) <= toQ a + (1 # 2000000))%Q
      /\ RoundQuantity (RoundQuantity a) = RoundQuantity a
      /\ RoundQuantity (Neg a) = Neg (RoundQuantity a)
      /\ forall b, (toQ a <= toQ b)%Q ->
                   value (RoundQuantity a) <= value (RoundQuantity b)).
Proof.
  unfold RoundINR, RoundQuantity. split.
  - destruct (Round_near a 4) as [H1 H2].
    change ((1 # 2) * 10 ^ (- (4)))%Q with ((1 # 2) * (1 # 10000))%Q in H1, H2.
    split; [apply exp_Round|]. split; [lra|]. split; [lra|].
    split; [apply Round_Round|]. split; [apply Round_Neg|].
    intros b. apply Round_mono.
  - destruct (Round_near a 6) as [H1 H2].
    change ((1 # 2) * 10 ^ (- (6)))%Q with ((1 # 2) * (1 # 1000000))%Q in H1, H2.
    split; [apply exp_Round|]. split; [lra|]. split; [lra|].
    split; [apply Round_Round|]. split; [apply Round_Neg|].
    intros b. apply Round_mono.
Qed.

(** X10.  A generated price has 4 decimals and is the base price of the
    symbol, 1000 when the symbol has none, moved by the drawn variation,
    up to half a unit of the fourth decimal; with a variation of at most
    5 percent either way it lies within 5 percent of the base price, up to
    that rounding.  A symbol without a base price gets the base price
    1000; no other base price changes. *)
Theorem GeneratePrice_within pg symbol variationDecimal :
  (- (5 # 100) <= toQ variationDecimal)%Q ->
  (toQ variationDecimal <= 5 # 100)%Q ->
  let basePrice := default (New 1 3) (basePrices pg !! symbol) in
  let price := fst (utils.GeneratePrice pg symbol variationDecimal) in
  let pg' := snd (utils.GeneratePrice pg symbol variationDecimal) in
  exp price = -4
  /\ (toQ basePrice * (1 + toQ variationDecimal) - (1 # 20000) <= toQ price)%Q
  /\ (toQ price <= toQ basePrice * (1 + toQ variationDecimal) + (1 # 20000))%Q
  /\ ((0 <= toQ basePrice)%Q ->
      (toQ basePrice * (95 # 100) - (1 # 20000) <= toQ price)%Q
      /\ (toQ price <= toQ basePrice * (105 # 100) + (1 # 20000))%Q)
  /\ basePrices pg' !! symbol = Some basePrice
  /\ forall other, other <> symbol -> basePrices pg' !! other = basePrices pg !! other.
Proof.
  intros Hlo Hhi basePrice price pg'.
  assert (Hprice : price = Round (Mul basePrice (Add (NewFromInt 1) variationDecimal)) 4
                   /\ basePrices pg' !! symbol = Some basePrice
                   /\ forall other, other <> symbol ->
                        basePrices pg' !! other = basePrices pg !! other).
  { subst price pg' basePrice. unfold utils.GeneratePrice.
    destruct (basePrices pg !! symbol) as [b|] eqn:Eb; cbn [default fst snd].
    - auto.
    - split; [reflexivity|]. cbn [basePrices].
      split; [apply lookup_insert_eq|].
      intros other Hne. apply lookup_insert_ne. congruence. }
  destruct Hprice as (Hp & Hbase & Hother).
  split; [rewrite Hp; apply exp_Round|].
  destruct (Round_near (Mul basePrice (Add (NewFromInt 1) variationDecimal)) 4)
    as [H1 H2].
  rewrite <- Hp in H1, H2.
  rewrite toQ_Mul, toQ_Add, toQ_NewFromInt in H1, H2.
  change (inject_Z 1) with 1%Q in H1, H2.
  change ((1 # 2) * 10 ^ (- (4)))%Q with ((1 # 2) * (1 # 10000))%Q in H1, H2.
  split; [lra|]. split; [lra|]. split; [|split; assumption].
  intros Hpos. split; nra.
Qed.

Lemma GeneratePrice_within_witness :
  let price := fst (utils.GeneratePrice NewPriceGenerator "RELIANCE" (New (-5) (-2))) in
  price = New 23279750 (-4)
  /\ (toQ (New 24505 (-1)) * (95 # 100) - (1 # 20000) <= toQ price)%Q
  /\ (toQ price <= toQ (New 24505 (-1)) * (105 # 100) + (1 # 20000))%Q.
Proof.
  split; [vm_compute; reflexivity|].
  assert (Hlo : (- (5 # 100) <= toQ (New (-5) (-2)))%Q) by (vm_compute; discriminate).
  assert (Hhi : (toQ (New (-5) (-2)) <= 5 # 100)%Q) by (vm_compute; discriminate).
  destruct (GeneratePrice_within NewPriceGenerator "RELIANCE" (New (-5) (-2)) Hlo Hhi)
    as (_ & _ & _ & H & _).
  apply H. vm_compute. discriminate.
Defined.

Lemma round_half_away_near_nonneg x places :
  (0 <= x)%Q ->
  (x * 10 ^ places - (1 # 2) < inject_Z (round_half_away x places))%Q
  /\ (inject_Z (round_half_away x places) <= x * 10 ^ places + (1 # 2))%Q.
Proof.
  intros Hx. unfold round_half_away. cbv zeta.
  assert (Hy : (0 <= x * 10 ^ places)%Q).
  { apply Qmult_le_0_compat; [exact Hx|]. apply Qlt_le_weak, Qten_pow_pos. }
  set (y := (x * 10 ^ places)%Q) in *.
  assert (E : Qle_bool 0 y = true) by (apply Qle_bool_iff; exact Hy).
  rewrite E.
  pose proof (Qfloor_le (y + (1 # 2))) as H1.
  pose proof (Qlt_floor (y + (1 # 2))) as H2.
  rewrite inject_Z_plus in H2. change (inject_Z 1) with 1%Q in H2.
  split; lra.
Qed.

(** X11.  For a price and a quantity that are not negative, no fee is
    negative, the brokerage is at most 20, the tax on it at most 3.60,
    and the total, which is rounded on its own, differs from the sum of
    the three rounded fees by at most one unit of the fourth decimal. *)
Theorem CalculateFees_bounds p q :
  (0 <= toQ p)%Q ->
  (0 <= toQ q)%Q ->
  let f := CalculateFees p q in
  exp (brokerage f) = -4 /\ exp (stt f) = -4 /\ exp (gst f) = -4
  /\ exp (total f) = -4
  /\ 0 <= value (brokerage f) <= 200000
  /\ 0 <= value (stt f)
  /\ 0 <= value (gst f) <= 36000
  /\ 0 <= value (total f)
  /\ value (brokerage f) + value (stt f) + value (gst f) - 1 <= value (total f)
  /\ value (total f) <= value (brokerage f) + value (stt f) + value (gst f) + 1.
Proof.
  intros Hp Hq f. subst f. rewrite CalculateFees_rounds_formula. cbv zeta.
  cbn [brokerage stt gst total value exp].
  assert (Htv : (0 <= toQ p * toQ q)%Q) by (apply Qmult_le_0_compat; assumption).
  set (tv := (toQ p * toQ q)%Q) in *.
  assert (Hb : (0 <= fee_brokerage tv)%Q /\ (fee_brokerage tv <= 20)%Q).
  { unfold fee_brokerage. cbv zeta.
    destruct (Qle_bool ((3 # 10000) * tv) 20) eqn:E.
    - apply Qle_bool_iff in E. split; lra.
    - split; lra. }
  destruct Hb as [Hb0 Hb20].
  set (b := fee_brokerage tv) in *.
  assert (Hs : (0 <= fee_stt tv)%Q) by (unfold fee_stt; lra).
  set (s := fee_stt tv) in *.
  assert (Hg : (0 <= fee_gst b)%Q /\ (fee_gst b <= 36 # 10)%Q)
    by (unfold fee_gst; split; lra).
  destruct Hg as [Hg0 Hg36].
  set (g := fee_gst b) in *.
  assert (Hzero : round_half_away 0 4 = 0) by (vm_compute; reflexivity).
  assert (H36 : round_half_away (36 # 10) 4 = 36000) by (vm_compute; reflexivity).
  pose proof (round_half_away_mono 0 b 4 Hb0) as B0.
  pose proof (round_half_away_mono b 20 4 Hb20) as B20.
  pose proof (round_half_away_mono 0 s 4 Hs) as S0.
  pose proof (round_half_away_mono 0 g 4 Hg0) as G0.
  pose proof (round_half_away_mono g (36 # 10) 4 Hg36) as G36.
  assert (Hsum : (0 <= b + s + g)%Q) by lra.
  pose proof (round_half_away_mono 0 (b + s + g) 4 Hsum) as T0.
  rewrite Hzero in B0, S0, G0, T0. rewrite round_half_away_20 in B20.
  rewrite H36 in G36.
  destruct (round_half_away_near_nonneg b 4 Hb0) as [Nb1 Nb2].
  destruct (round_half_away_near_nonneg s 4 Hs) as [Ns1 Ns2].
  destruct (round_half_away_near_nonneg g 4 Hg0) as [Ng1 Ng2].
  destruct (round_half_away_near_nonneg (b + s + g) 4 Hsum) as [Nt1 Nt2].
  set (B := round_half_away b 4) in *. set (S := round_half_away s 4) in *.
  set (G := round_half_away g 4) in *. set (T := round_half_away (b + s + g) 4) in *.
  assert (Hlo : (inject_Z (B + S + G + -2) < inject_Z T)%Q).
  { rewrite !inject_Z_plus. change (inject_Z (-2)) with (-2 # 1)%Q. lra. }
  assert (Hhi : (inject_Z T < inject_Z (B + S + G + 2))%Q).
  { rewrite !inject_Z_plus. change (inject_Z 2) with 2%Q. lra. }
  rewrite <- Zlt_Qlt in Hlo, Hhi.
  repeat split; try reflexivity; lia.
Qed.

Lemma CalculateFees_bounds_witness :
  let f := CalculateFees (New 24505 (-1)) (New 25 (-1)) in
  value (brokerage f) + value (stt f) + value (gst f) - 1 <= value (total f)
  /\ value (total f) <= value (brokerage f) + value (stt f) + value (gst f) + 1
  /\ value (total f) = 82949
  /\ value (brokerage f) + value (stt f) + value (gst f) = 82950.
Proof.
  cbv zeta.
  assert (Hp : (0 <= toQ (New 24505 (-1)))%Q) by (vm_compute; discriminate).
  assert (Hq : (0 <= toQ (New 25 (-1)))%Q) by (vm_compute; discriminate).
  destruct (CalculateFees_bounds (New 24505 (-1)) (New 25 (-1)) Hp Hq)
    as (_ & _ & _ & _ & _ & _ & _ & _ & Hlo & Hhi).
  split; [exact Hlo|]. split; [exact Hhi|]. split; vm_compute; reflexivity.
Defined.

End RoundingAndGenerator.

(* ===================================================================== *)
(** * Days                                                                *)
(* ===================================================================== *)

Section Days.

Lemma StartOfDay_unique t k :
  k * nsPerDay <= t < k * nsPerDay + nsPerDay -> StartOfDayUTC t = k * nsPerDay.
Proof.
  intros H. pose proof nsPerDay_pos as HD.
  unfold StartOfDayUTC, StartOfDay, UTC.
  assert (t / nsPerDay = k)
    by (symmetry; apply Z.div_unique with (r := t - k * nsPerDay); lia).
  pose proof (Z.div_mod t nsPerDay). lia.
Qed.

Lemma IsToday_window now t :
  IsToday now t = true <-> StartOfDayUTC now <= t <= EndOfDayUTC now.
Proof.
  pose proof nsPerDay_pos as HD.
  assert (Hend : EndOfDayUTC now = StartOfDayUTC now + nsPerDay - 1).
  { unfold EndOfDayUTC, EndOfDay, StartOfDayUTC, UTC. lia. }
  unfold IsToday, UTC. rewrite Z.eqb_eq, Hend.
  pose proof (StartOfDay_le now) as Hn. pose proof (StartOfDay_le t) as Ht.
  destruct (StartOfDay_multiple now) as [kn Hkn].
  split.
  - intros E. rewrite E. lia.
  - intros H. rewrite Hkn. symmetry. apply StartOfDay_unique. lia.
Qed.

Lemma IsToday_window_bool now t :
  IsToday now t = (StartOfDayUTC now <=? t) && (t <=? EndOfDayUTC now).
Proof.
  pose proof (IsToday_window now t) as H.
  destruct (IsToday now t);
    destruct (Z.leb_spec (StartOfDayUTC now) t);
    destruct (Z.leb_spec t (EndOfDayUTC now)); cbn; try reflexivity;
    try (assert (true = true) as E by reflexivity; apply H in E; lia);
    (assert (false = true) as E by (apply H; lia); discriminate).
Qed.

(** X12.  The UTC days cut time into windows of 24 hours: an instant lies
    between the start and the end of its day, both of which belong to the
    same day; [IsToday] holds of exactly the instants between the start and
    the end of the current day, the window in which [GetTodayRewards]
    looks; and yesterday is the day that ends one nanosecond before today
    starts. *)
Theorem days_are_windows now t :
  StartOfDayUTC t <= t <= EndOfDayUTC t
  /\ EndOfDayUTC t = StartOfDayUTC t + nsPerDay - 1
  /\ StartOfDayUTC (StartOfDayUTC t) = StartOfDayUTC t
  /\ StartOfDayUTC (EndOfDayUTC t) = StartOfDayUTC t
  /\ EndOfDayUTC (StartOfDayUTC t) = EndOfDayUTC t
  /\ (IsToday now t = true <-> StartOfDayUTC now <= t <= EndOfDayUTC now)
  /\ GetYesterday now = StartOfDayUTC now - nsPerDay
  /\ EndOfDayUTC (GetYesterday now) = StartOfDayUTC now - 1.
Proof.
  pose proof nsPerDay_pos as HD.
  pose proof (StartOfDay_le t) as Ht.
  assert (Hend : forall u, EndOfDayUTC u = StartOfDayUTC u + nsPerDay - 1).
  { intros u. unfold EndOfDayUTC, EndOfDay, StartOfDayUTC, UTC. lia. }
  destruct (StartOfDay_multiple t) as [k Hk].
  assert (Hse : StartOfDayUTC (EndOfDayUTC t) = StartOfDayUTC t).
  { rewrite Hend, Hk. apply StartOfDay_unique. lia. }
  split; [rewrite Hend; lia|]. split; [apply Hend|].
  split; [apply StartOfDay_idem|]. split; [exact Hse|].
  split; [rewrite !Hend, StartOfDay_idem; reflexivity|].
  split.
  - apply IsToday_window.
  - rewrite Hend, GetYesterday_before_today.
    split; [reflexivity|].
    destruct (StartOfDay_multiple now) as [kn Hkn]. rewrite Hkn.
    replace (kn * nsPerDay - nsPerDay) with ((kn - 1) * nsPerDay) by lia.
    rewrite (StartOfDay_unique ((kn - 1) * nsPerDay) (kn - 1)) by lia. lia.
Qed.

(** X13.  [GetPastDates] terminates and lists, in order and once each, the
    starts of the UTC days from the day of [startDate] through the day of
    [endDate]; the list is empty exactly when the day of [endDate] is
    before the day of [startDate]. *)
Theorem GetPastDates_days_between startDate endDate :
  let first := StartOfDayUTC startDate in
  let last := StartOfDayUTC endDate in
  (forall d, In d (GetPastDates startDate endDate)
             <-> first <= d <= last /\ StartOfDayUTC d = d)
  /\ (forall (i : nat) d,
        GetPastDates startDate endDate !! i = Some d ->
        d = first + Z.of_nat i * nsPerDay)
  /\ length (GetPastDates startDate endDate)
     = Z.to_nat ((last - first) / nsPerDay + 1)
  /\ (GetPastDates startDate endDate = [] <-> last < first)
  /\ forall fuel,
       (GetPastDates_enough startDate endDate <= fuel)%nat ->
       GetPastDates_fuel fuel startDate endDate
       = Some (GetPastDates startDate endDate).
Proof.
  intros first last. pose proof nsPerDay_pos as HD.
  rewrite GetPastDates_days. fold first last. unfold days_from_through.
  destruct (StartOfDay_multiple startDate) as [ka Ha].
  destruct (StartOfDay_multiple endDate) as [kb Hb].
  fold first in Ha. fold last in Hb.
  assert (Hm : (last - first) / nsPerDay = kb - ka).
  { rewrite Ha, Hb.
    replace (kb * nsPerDay - ka * nsPerDay) with ((kb - ka) * nsPerDay) by lia.
    apply Z.div_mul. lia. }
  rewrite Hm.
  split; [|split; [|split; [|split]]].
  - intros d. rewrite List.in_map_iff. split.
    + intros (i & <- & Hi). apply List.in_seq in Hi. split; [nia|].
      rewrite Ha. replace (ka * nsPerDay + Z.of_nat i * nsPerDay)
        with ((ka + Z.of_nat i) * nsPerDay) by lia.
      apply StartOfDay_unique. lia.
    + intros [Hd Hsd]. destruct (StartOfDay_multiple d) as [kd Hkd].
      rewrite Hsd in Hkd. exists (Z.to_nat (kd - ka)).
      assert (ka <= kd <= kb) by nia.
      split; [rewrite Z2Nat.id by lia; lia|].
      apply List.in_seq. lia.
  - intros i d Hi. rewrite list_lookup_fmap in Hi.
    destruct (seq 0 _ !! i) as [j|] eqn:Ej; [|discriminate].
    apply lookup_seq in Ej as [-> _]. cbn in Hi. injection Hi as <-. reflexivity.
  - rewrite length_map, length_seq. reflexivity.
  - split.
    + intros E. apply (f_equal (@length _)) in E.
      rewrite length_map, length_seq in E. cbn in E. nia.
    + intros Hlt. assert (kb - ka + 1 <= 0) by nia.
      replace (Z.to_nat (kb - ka + 1)) with 0%nat by lia. reflexivity.
  - intros fuel Hfuel. rewrite GetPastDates_fuel_enough by exact Hfuel.
    rewrite GetPastDates_days. fold first last. unfold days_from_through.
    rewrite Hm. reflexivity.
Qed.

End Days.

(* ===================================================================== *)
(** * The grants of today                                                 *)
(* ===================================================================== *)

Section Today.

Lemma Forall_insert_desc (P : reward_events_row -> Prop) r l :
  P r -> Forall P l -> Forall P (insert_desc r l).
Proof.
  intros Hr Hl. induction Hl as [|x l Hx Hl IH]; cbn [insert_desc].
  - constructor; [exact Hr|constructor].
  - destruct (re_timestamp x <? re_timestamp r).
    + constructor; [exact Hr|]. constructor; assumption.
    + constructor; assumption.
Qed.

Lemma insert_desc_Permutation r l : Permutation (r :: l) (insert_desc r l).
Proof.
  induction l as [|x l IH]; cbn [insert_desc]; [reflexivity|].
  destruct (re_timestamp x <? re_timestamp r); [reflexivity|].
  rewrite perm_swap. apply perm_skip, IH.
Qed.

Lemma order_by_timestamp_desc_Permutation l :
  Permutation l (order_by_timestamp_desc l).
Proof.
  induction l as [|r l IH]; cbn; [reflexivity|].
  rewrite <- insert_desc_Permutation. apply perm_skip, IH.
Qed.

Lemma insert_desc_descending r l :
  descending (map re_timestamp l) ->
  descending (map re_timestamp (insert_desc r l)).
Proof.
  induction l as [|x l IH]; cbn [insert_desc map descending].
  - intros _. split; constructor.
  - intros [Hx Hl]. destruct (Z.ltb_spec (re_timestamp x) (re_timestamp r)) as [Hlt|Hge];
      cbn [map descending].
    + split; [|split; assumption]. constructor; [lia|].
      eapply List.Forall_impl; [|exact Hx]. cbv beta. intros; lia.
    + split; [|apply IH, Hl].
      rewrite List.Forall_map in *. apply Forall_insert_desc; [lia|exact Hx].
Qed.

Lemma order_by_timestamp_desc_descending l :
  descending (map re_timestamp (order_by_timestamp_desc l)).
Proof.
  induction l as [|r l IH]; cbn; [exact I|]. apply insert_desc_descending, IH.
Qed.

Lemma today_window s userID now :
  List.filter
    (fun r => is_live r && (re_user_id r =? userID)
              && (StartOfDayUTC now <=? re_timestamp r)
              && (re_timestamp r <=? EndOfDayUTC now))
    (reward_events s)
  = today_grants s userID now.
Proof.
  unfold today_grants. apply List.filter_ext. intros r.
  rewrite IsToday_window_bool, andb_assoc. reflexivity.
Qed.

Lemma GetTodayRewards_result userID w rewards w' :
  GetTodayRewards userID w = (inr rewards, w') ->
  store w' = store w
  /\ rewards
     = map scan_reward
         (order_by_timestamp_desc (today_grants (store w) userID (now w))).
Proof.
  unfold GetTodayRewards. unfold bind at 1. rewrite NowUTC_run.
  unfold bind, attempt.
  match goal with |- context [db_query ?q w] =>
    destruct (db_query_cases q w) as (fs & Hs & _ & Hr);
    destruct (db_query q w) as [r w1] end.
  cbn [fst snd] in Hs, Hr.
  destruct Hr as [->| ->]; [discriminate|].
  unfold ret. intros E. injection E as <- <-. split; [exact Hs|].
  rewrite today_window. reflexivity.
Qed.

(** X14.  The grants of today are the live grants of the user whose
    timestamp lies in the current UTC day, each exactly once, from the
    latest to the earliest; the query changes nothing. *)
Theorem GetTodayRewards_today userID w rewards w' :
  GetTodayRewards userID w = (inr rewards, w') ->
  store w' = store w
  /\ Permutation rewards (map scan_reward (today_grants (store w) userID (now w)))
  /\ descending (map RewardEvent_Timestamp rewards)
  /\ forall r, In r rewards ->
       DeletedAt r = None /\ UserID r = userID
       /\ IsToday (now w) (RewardEvent_Timestamp r) = true
       /\ exp (RewardEvent_Quantity r) = -6.
Proof.
  intros E. apply GetTodayRewards_result in E as [Hs ->].
  split; [exact Hs|]. split; [|split].
  - apply Permutation_map. symmetry. apply order_by_timestamp_desc_Permutation.
  - rewrite map_map. cbn [scan_reward RewardEvent_Timestamp].
    apply order_by_timestamp_desc_descending.
  - intros r Hr. apply List.in_map_iff in Hr as (row & <- & Hrow).
    apply (Permutation_in _
             (Permutation_sym (order_by_timestamp_desc_Permutation _))) in Hrow.
    unfold today_grants in Hrow. apply List.filter_In in Hrow as [_ Hrow].
    apply andb_true_iff in Hrow as [Hrow Htoday].
    apply andb_true_iff in Hrow as [Hlive Huser].
    cbn [scan_reward DeletedAt UserID RewardEvent_Timestamp RewardEvent_Quantity].
    split; [|split; [lia|split; [exact Htoday|reflexivity]]].
    unfold is_live in Hlive. destruct (re_deleted_at row); [discriminate|reflexivity].
Qed.

Lemma GetTodayRewards_today_witness :
  exists rewards w',
    GetTodayRewards 1 scenario.two_today = (inr rewards, w')
    /\ map RewardEvent_Timestamp rewards
       = [scenario.T + Hour; scenario.T + Hour; scenario.T]
    /\ descending (map RewardEvent_Timestamp rewards).
Proof.
  destruct (GetTodayRewards 1 scenario.two_today) as [r w'] eqn:E.
  assert (Hr : r = inr [ mkRewardEvent 3 1 "RELIANCE" (New 500000 (-6))
                           (scenario.T + Hour) None;
                         mkRewardEvent 2 1 "TCS" (New 1000000 (-6))
                           (scenario.T + Hour) None;
                         mkRewardEvent 1 1 "RELIANCE" (New 2500000 (-6))
                           scenario.T None ]).
  { apply (f_equal fst) in E. cbn [fst] in E. rewrite <- E. vm_compute. reflexivity. }
  subst r. eexists _, _. split; [reflexivity|]. split; [reflexivity|].
  apply (GetTodayRewards_today 1 scenario.two_today _ _ E).
Defined.

End Today.

(* ===================================================================== *)
(** * Statistics and portfolio                                            *)
(* ===================================================================== *)

Section StatsAndPortfolio.

(** The step of the loop over today's grants in [GetStats], seen at one
    symbol. *)
Lemma todayRewards_step rows : forall (m : gmap string Decimal) symbol,
  fold_left
    (fun (m : gmap string Decimal) reward =>
       match m !! RewardEvent_StockSymbol reward with
       | Some current =>
           <[RewardEvent_StockSymbol reward :=
               Add current (RewardEvent_Quantity reward)]> m
       | None =>
           <[RewardEvent_StockSymbol reward := RewardEvent_Quantity reward]> m
       end)
    (map scan_reward rows) m !! symbol
  = fold_left
      (fun acc r =>
         Some (match acc with
               | Some current => Add current (of_numeric 6 (re_quantity r))
               | None => of_numeric 6 (re_quantity r)
               end))
      (of_symbol symbol rows) (m !! symbol).
Proof.
  induction rows as [|r rows IH]; intros m symbol; [reflexivity|].
  cbn [map fold_left of_symbol List.filter]. rewrite IH. fold (of_symbol symbol rows).
  cbn [scan_reward RewardEvent_StockSymbol RewardEvent_Quantity].
  destruct (String.eqb_spec (re_stock_symbol r) symbol) as [->|Hne].
  - cbn [fold_left]. f_equal.
    destruct (m !! symbol); rewrite lookup_insert_eq; reflexivity.
  - f_equal. destruct (m !! re_stock_symbol r); apply lookup_insert_ne; exact Hne.
Qed.

Lemma todayRewards_sum rows : forall v,
  fold_left
    (fun acc r =>
       Some (match acc with
             | Some current => Add current (of_numeric 6 (re_quantity r))
             | None => of_numeric 6 (re_quantity r)
             end))
    rows (Some (New v (-6)))
  = Some (New (v + sum_granted rows) (-6)).
Proof.
  induction rows as [|r rows IH]; intros v; cbn [fold_left].
  - unfold sum_granted. cbn. do 2 f_equal. lia.
  - rewrite Add_same_exp by reflexivity. cbn [value exp of_numeric].
    rewrite IH. unfold sum_granted. cbn [map fold_right]. do 2 f_equal. lia.
Qed.

Lemma todayRewards_total rows :
  fold_left
    (fun acc r =>
       Some (match acc with
             | Some current => Add current (of_numeric 6 (re_quantity r))
             | None => of_numeric 6 (re_quantity r)
             end))
    rows None
  = match rows with
    | [] => None
    | _ => Some (New (sum_granted rows) (-6))
    end.
Proof.
  destruct rows as [|r rows]; [reflexivity|]. cbn [fold_left].
  unfold of_numeric. rewrite todayRewards_sum. reflexivity.
Qed.

Lemma of_symbol_Permutation symbol l l' :
  Permutation l l' -> Permutation (of_symbol symbol l) (of_symbol symbol l').
Proof.
  unfold of_symbol. induction 1 as [|x l l' _ IH|x y l|l l' l'' _ IH1 _ IH2];
    cbn [List.filter].
  - reflexivity.
  - destruct (String.eqb _ _); [apply perm_skip|]; exact IH.
  - destruct (String.eqb (re_stock_symbol x) symbol),
      (String.eqb (re_stock_symbol y) symbol); try reflexivity. apply perm_swap.
  - etransitivity; eassumption.
Qed.

Lemma sum_granted_Permutation l l' :
  Permutation l l' -> sum_granted l = sum_granted l'.
Proof.
  unfold sum_granted. induction 1; cbn [map fold_right]; lia.
Qed.

(** X15.  The statistics of a user give, for every symbol granted to the
    user in the current UTC day, the total of the quantities of those
    grants, and no entry for any other symbol. *)
Theorem GetStats_todayRewards userID w stats w' :
  GetStats userID w = (inr stats, w') ->
  Stats_userId stats = userID
  /\ forall symbol,
       todayRewards stats !! symbol
       = match of_symbol symbol (today_grants (store w) userID (now w)) with
         | [] => None
         | rows => Some (New (sum_granted rows) (-6))
         end.
Proof.
  unfold GetStats. unfold bind at 1.
  destruct (GetTodayRewards userID w) as [[e|rewards] w1] eqn:Etoday; [discriminate|].
  apply GetTodayRewards_result in Etoday as [_ ->].
  unfold bind at 1, attempt at 1.
  destruct (GetUserStockHoldings userID w1) as [[e|holdings] w2]; [discriminate|].
  unfold bind.
  destruct (sum_values _ _ _ w2) as [[e|v] w3]; [discriminate|].
  unfold ret. intros E. injection E as <- <-.
  cbn [Stats_userId todayRewards]. split; [reflexivity|].
  intros symbol. rewrite todayRewards_step, lookup_empty, todayRewards_total.
  pose proof (of_symbol_Permutation symbol _ _
                (order_by_timestamp_desc_Permutation
                   (today_grants (store w) userID (now w)))) as Hperm.
  rewrite <- (sum_granted_Permutation _ _ Hperm).
  destruct (of_symbol symbol (today_grants _ _ _)) as [|r rows].
  - apply Permutation_nil in Hperm. rewrite Hperm. reflexivity.
  - destruct (of_symbol symbol (order_by_timestamp_desc _)) as [|r' rows'];
      [|reflexivity].
    symmetry in Hperm. apply Permutation_nil in Hperm. discriminate.
Qed.

Lemma GetStats_todayRewards_witness :
  exists stats w',
    GetStats 1 scenario.two_today = (inr stats, w')
    /\ todayRewards stats !! "RELIANCE"%string = Some (New 3000000 (-6))
    /\ todayRewards stats !! "TCS"%string = Some (New 1000000 (-6))
    /\ todayRewards stats !! "INFY"%string = None.
Proof.
  destruct (GetStats 1 scenario.two_today) as [r w'] eqn:E.
  assert (Hr : exists stats, r = inr stats).
  { apply (f_equal fst) in E. cbn [fst] in E. rewrite <- E.
    eexists. vm_compute. reflexivity. }
  destruct Hr as [stats ->]. exists stats, w'. split; [reflexivity|].
  destruct (GetStats_todayRewards 1 scenario.two_today stats w' E) as [_ H].
  rewrite !H. repeat split; vm_compute; reflexivity.
Defined.

Lemma SavePrice_attempt_exp symbol price w price' w' :
  (_ <- attempt (SavePrice symbol price) ;; ret price) w = (inr price', w') ->
  price' = price.
Proof.
  unfold bind, attempt, ret. destruct (SavePrice symbol price w) as [r w1].
  intros E. injection E as <- _. reflexivity.
Qed.

Lemma generate_and_save_exp symbol w p w' :
  (price <- GeneratePrice symbol ;;
   _ <- attempt (SavePrice symbol price) ;;
   ret price) w = (inr p, w') ->
  exp p = -4.
Proof.
  unfold bind at 1. unfold GeneratePrice.
  pose proof (GeneratePrice_rounded (generator w) symbol (draws w (drawn w))) as Hexp.
  destruct (utils.GeneratePrice _ _ _) as [price pg]. cbn [fst] in Hexp.
  intros E. apply SavePrice_attempt_exp in E. congruence.
Qed.

Lemma GetCurrentPrice_exp symbol w p w' :
  GetCurrentPrice symbol w = (inr p, w') -> exp p = -4.
Proof.
  unfold GetCurrentPrice. unfold bind at 1, attempt at 1.
  destruct (db_query _ w) as [[err|row] w1].
  - destruct (is_ErrRecordNotFound err); [apply generate_and_save_exp|discriminate].
  - unfold bind at 1. rewrite NowUTC_run.
    destruct (_ >? _); [apply generate_and_save_exp|].
    unfold ret. intros E. injection E as <- _. reflexivity.
Qed.

(** The loop of [GetPortfolio]: the items it adds and the sum it makes. *)
Lemma GetPortfolio_loop_items holdings : forall items acc w items' total w',
  GetPortfolio_loop holdings items acc w = (inr (items', total), w') ->
  exists new,
    items' = items ++ new
    /\ total
       = fold_left (fun acc it => Add acc (Mul (currentPrice it) (item_quantity it)))
           new acc
    /\ Forall
         (fun it =>
            exp (currentPrice it) = -4
            /\ currentValue it = RoundINR (Mul (currentPrice it) (item_quantity it))
            /\ In (item_symbol it, item_quantity it) holdings) new
    /\ map item_symbol new `sublist_of` map fst holdings.
Proof.
  induction holdings as [|[symbol qty] rest IH];
    intros items acc w items' total w'; cbn [GetPortfolio_loop].
  - unfold ret. intros E. injection E as <- <- _. exists [].
    rewrite app_nil_r. repeat split; constructor.
  - unfold bind, attempt.
    destruct (GetCurrentPrice symbol w) as [[e|price] w1] eqn:Eprice; intros E.
    + apply IH in E as (new & -> & -> & Hnew & Hsub). exists new.
      split; [reflexivity|]. split; [reflexivity|]. split.
      * eapply List.Forall_impl; [|exact Hnew]. cbv beta.
        intros it (H1 & H2 & H3). repeat split; try assumption. now right.
      * cbn [map fst]. apply sublist_cons, Hsub.
    + apply GetCurrentPrice_exp in Eprice.
      apply IH in E as (new & -> & -> & Hnew & Hsub).
      assert (Hround : RoundINR price = price)
        by (apply Round_same_exp; exact Eprice).
      exists (mkPortfolioItem symbol qty (RoundINR price) (RoundINR (Mul price qty))
              :: new).
      split; [rewrite <- app_assoc; reflexivity|].
      split; [cbn [fold_left currentPrice item_quantity]; rewrite Hround; reflexivity|].
      split.
      * constructor.
        -- cbn [currentPrice currentValue item_symbol item_quantity].
           rewrite Hround. repeat split; try assumption. now left.
        -- eapply List.Forall_impl; [|exact Hnew]. cbv beta.
           intros it (H1 & H2 & H3). repeat split; try assumption. now right.
      * cbn [map fst item_symbol]. apply sublist_skip, Hsub.
Qed.

(** X16.  In a portfolio every item is a holding of the user, listed once,
    with a price of 4 decimals and the value price times quantity rounded
    to 4 decimals; the total is the sum of price times quantity over the
    listed items, rounded once, to 4 decimals. *)
Theorem GetPortfolio_valuation userID w p w' :
  GetPortfolio userID w = (inr p, w') ->
  Portfolio_userId p = userID
  /\ totalValue p = RoundINR (items_value (Portfolio_holdings p))
  /\ NoDup (map item_symbol (Portfolio_holdings p))
  /\ Forall
       (fun it =>
          exp (currentPrice it) = -4
          /\ currentValue it = RoundINR (Mul (currentPrice it) (item_quantity it))
          /\ item_quantity it
             = New (net_quantity (store w) userID None (item_symbol it)) (-6)
          /\ 0 < net_quantity (store w) userID None (item_symbol it))
       (Portfolio_holdings p).
Proof.
  unfold GetPortfolio. unfold bind at 1, attempt at 1.
  destruct (GetUserStockHoldings userID w) as [[e|holdings] w1] eqn:Eh;
    [discriminate|].
  pose proof (GetUserStockHoldings_net_lookup _ _ _ _ Eh) as Hnet.
  unfold bind.
  destruct (GetPortfolio_loop _ _ _ w1) as [[e|[items total]] w2] eqn:Eloop;
    [discriminate|].
  unfold ret. intros E. injection E as <- <-.
  cbn [Portfolio_userId Portfolio_holdings totalValue fst snd].
  apply GetPortfolio_loop_items in Eloop as (new & -> & -> & Hnew & Hsub).
  cbn [app]. split; [reflexivity|]. split; [reflexivity|]. split.
  - eapply sublist_NoDup; [|exact Hsub]. apply NoDup_fst_map_to_list.
  - eapply List.Forall_impl; [|exact Hnew]. cbv beta.
    intros it (H1 & H2 & H3). split; [exact H1|]. split; [exact H2|].
    apply list_elem_of_In, elem_of_map_to_list in H3. rewrite Hnet in H3.
    destruct (Z.ltb_spec 0 (net_quantity (store w) userID None (item_symbol it)));
      [|discriminate].
    injection H3 as <-. split; [reflexivity|assumption].
Qed.

Lemma GetPortfolio_valuation_witness :
  exists p w',
    GetPortfolio 1 scenario.two_today = (inr p, w')
    /\ totalValue p = New 110322500 (-4)
    /\ totalValue p = RoundINR (items_value (Portfolio_holdings p)).
Proof.
  destruct (GetPortfolio 1 scenario.two_today) as [r w'] eqn:E.
  assert (Hr : exists p, r = inr p /\ totalValue p = New 110322500 (-4)).
  { apply (f_equal fst) in E. cbn [fst] in E. rewrite <- E.
    eexists. split; vm_compute; reflexivity. }
  destruct Hr as (p & -> & Htotal). exists p, w'. split; [reflexivity|].
  split; [exact Htotal|].
  apply (GetPortfolio_valuation 1 scenario.two_today p w' E).
Defined.

Lemma GetTodayRewards_ok userID w :
  faults w = [] ->
  exists rewards, GetTodayRewards userID w = (inr rewards, w).
Proof.
  intros Hf. unfold GetTodayRewards. unfold bind at 1. rewrite NowUTC_run.
  unfold bind, attempt. rewrite db_query_ok by exact Hf.
  eexists. reflexivity.
Qed.

(** A sum of rationals does not depend on the order of its terms. *)
Lemma Qsum_Permutation l l' : Permutation l l' -> (Qsum l == Qsum l')%Q.
Proof.
  induction 1 as [|x l l' _ IH|x y l|l l' l'' _ IH1 _ IH2]; cbn [Qsum fold_right].
  - reflexivity.
  - fold (Qsum l) (Qsum l'). now rewrite IH.
  - ring.
  - now rewrite IH1.
Qed.

(** With a stored price the lookup draws nothing and changes nothing. *)
Lemma GetCurrentPrice_stored symbol w price :
  faults w = [] ->
  stored_price symbol w = Some price ->
  GetCurrentPrice symbol w = (inr price, w).
Proof.
  intros Hf Hp. rewrite (GetCurrentPrice_ok symbol w Hf).
  unfold stored_price in Hp.
  destruct (first_by price_newer (samples_of symbol (store w))) as [row|];
    [|discriminate].
  destruct (now w - ph_timestamp row >? 2 * Hour); [discriminate|].
  now injection Hp as <-.
Qed.

Lemma stored_value_stored w symbol qty price :
  stored_price symbol w = Some price ->
  stored_value w (symbol, qty) = (toQ price * toQ qty)%Q.
Proof. intros H. unfold stored_value. cbn [fst snd]. now rewrite H. Qed.

(** The two loops over holdings that all have a stored price. *)
Lemma sum_values_stored holdings : forall acc w,
  faults w = [] ->
  Forall (fun h => is_Some (stored_price (fst h) w)) holdings ->
  exists v,
    sum_values GetCurrentPrice holdings acc w = (inr v, w)
    /\ (toQ v == toQ acc + Qsum (map (stored_value w) holdings))%Q.
Proof.
  induction holdings as [|[symbol qty] rest IH]; intros acc w Hf Hall;
    cbn [sum_values map Qsum fold_right].
  - exists acc. split; [reflexivity|]. ring.
  - apply Forall_cons in Hall as [[price Hp] Hall]. cbn [fst] in Hp.
    unfold bind, attempt. rewrite (GetCurrentPrice_stored symbol w price Hf Hp).
    destruct (IH (Add acc (Mul price qty)) w Hf Hall) as (v & -> & Hv).
    exists v. split; [reflexivity|]. rewrite Hv, toQ_Add, toQ_Mul.
    rewrite (stored_value_stored w symbol qty price Hp).
    fold (Qsum (map (stored_value w) rest)). ring.
Qed.

Lemma GetPortfolio_loop_stored holdings : forall items acc w,
  faults w = [] ->
  Forall (fun h => is_Some (stored_price (fst h) w)) holdings ->
  exists items' v,
    GetPortfolio_loop holdings items acc w = (inr (items', v), w)
    /\ (toQ v == toQ acc + Qsum (map (stored_value w) holdings))%Q.
Proof.
  induction holdings as [|[symbol qty] rest IH]; intros items acc w Hf Hall;
    cbn [GetPortfolio_loop map Qsum fold_right].
  - exists items, acc. split; [reflexivity|]. ring.
  - apply Forall_cons in Hall as [[price Hp] Hall]. cbn [fst] in Hp.
    unfold bind, attempt. rewrite (GetCurrentPrice_stored symbol w price Hf Hp).
    destruct (IH (items ++ [mkPortfolioItem symbol qty (RoundINR price)
                              (RoundINR (Mul price qty))])
                (Add acc (Mul price qty)) w Hf Hall) as (items' & v & -> & Hv).
    exists items', v. split; [reflexivity|]. rewrite Hv, toQ_Add, toQ_Mul.
    rewrite (stored_value_stored w symbol qty price Hp).
    fold (Qsum (map (stored_value w) rest)). ring.
Qed.

(** X17.  When the store answers and holds, for every symbol the user
    holds, a price at most two hours old, the statistics and the
    portfolio of the user agree on the value of the holdings, in whatever
    order each of them visits the holdings: no price is drawn, the state
    stays as it is, and the rounded sum of one loop over the holdings in
    any order is the rounded sum of the other in any other order, which
    is what [GetStats] and [GetPortfolio] report. *)
Theorem GetStats_values_the_portfolio userID w visited visited' :
  faults w = [] ->
  let holdings := holdingsMap (holdings_query (store w) userID None) in
  (forall symbol, is_Some (holdings !! symbol) -> is_Some (stored_price symbol w)) ->
  Permutation visited (map_to_list holdings) ->
  Permutation visited' (map_to_list holdings) ->
  exists v items v' stats p,
    sum_values GetCurrentPrice visited Zero w = (inr v, w)
    /\ GetPortfolio_loop visited' [] Zero w = (inr (items, v'), w)
    /\ GetStats userID w = (inr stats, w)
    /\ GetPortfolio userID w = (inr p, w)
    /\ portfolioValueINR stats = RoundINR v
    /\ totalValue p = RoundINR v'
    /\ RoundINR v = RoundINR v'.
Proof.
  intros Hf holdings Hstored Hv Hv'.
  assert (Hall : forall l, Permutation l (map_to_list holdings) ->
                   Forall (fun h => is_Some (stored_price (fst h) w)) l).
  { intros l Hl. apply List.Forall_forall. intros [symbol qty] Hin.
    apply Hstored. exists qty. apply elem_of_map_to_list, list_elem_of_In.
    eapply Permutation_in; eassumption. }
  destruct (sum_values_stored visited Zero w Hf (Hall _ Hv)) as (v & Ev & Qv).
  destruct (GetPortfolio_loop_stored visited' [] Zero w Hf (Hall _ Hv'))
    as (items & v' & Ev' & Qv').
  destruct (sum_values_stored (map_to_list holdings) Zero w Hf
              (Hall _ (Permutation_refl _))) as (v0 & Ev0 & Qv0).
  destruct (GetPortfolio_loop_stored (map_to_list holdings) [] Zero w Hf
              (Hall _ (Permutation_refl _))) as (items0 & v0' & Ev0' & Qv0').
  assert (Hsame : forall a b l l',
            Permutation l l' ->
            (toQ a == toQ Zero + Qsum (map (stored_value w) l))%Q ->
            (toQ b == toQ Zero + Qsum (map (stored_value w) l'))%Q ->
            RoundINR a = RoundINR b).
  { intros a b l l' Hl Ha Hb. apply Round_comp. rewrite Ha, Hb.
    now rewrite (Qsum_Permutation _ _ (Permutation_map (stored_value w) Hl)). }
  destruct (GetTodayRewards_ok userID w Hf) as [rewards Er].
  eexists v, items, v', _, _.
  split; [exact Ev|]. split; [exact Ev'|].
  split.
  { unfold GetStats. unfold bind at 1. rewrite Er.
    unfold bind at 1, attempt at 1. rewrite GetUserStockHoldings_ok by exact Hf.
    fold holdings. unfold bind. rewrite Ev0. reflexivity. }
  split.
  { unfold GetPortfolio. unfold bind at 1, attempt at 1.
    rewrite GetUserStockHoldings_ok by exact Hf.
    fold holdings. unfold bind. rewrite Ev0'. reflexivity. }
  cbn [portfolioValueINR totalValue fst snd].
  split; [|split].
  - symmetry. exact (Hsame _ _ _ _ Hv Qv Qv0).
  - symmetry. exact (Hsame _ _ _ _ Hv' Qv' Qv0').
  - apply (Hsame _ _ _ _ (Permutation_trans Hv (Permutation_sym Hv')) Qv Qv').
Qed.

(** The theorem at work: the two grants of one day valued by [GetStats]
    in one order and by [GetPortfolio] in the other. *)
Lemma GetStats_values_the_portfolio_witness :
  exists v items v' stats p,
    sum_values GetCurrentPrice
      [("RELIANCE"%string, New 3000000 (-6)); ("TCS"%string, New 1000000 (-6))]
      Zero scenario.two_today = (inr v, scenario.two_today)
    /\ GetPortfolio_loop
         [("TCS"%string, New 1000000 (-6)); ("RELIANCE"%string, New 3000000 (-6))]
         [] Zero scenario.two_today = (inr (items, v'), scenario.two_today)
    /\ GetStats 1 scenario.two_today = (inr stats, scenario.two_today)
    /\ GetPortfolio 1 scenario.two_today = (inr p, scenario.two_today)
    /\ portfolioValueINR stats = RoundINR v
    /\ totalValue p = RoundINR v'
    /\ RoundINR v = RoundINR v'.
Proof.
  assert (Hm : map_to_list (holdingsMap (holdings_query (store scenario.two_today) 1 None))
               = [("RELIANCE"%string, New 3000000 (-6));
                  ("TCS"%string, New 1000000 (-6))])
    by (vm_compute; reflexivity).
  apply (GetStats_values_the_portfolio 1 scenario.two_today).
  - reflexivity.
  - intros symbol [qty Hq].
    apply elem_of_map_to_list, list_elem_of_In in Hq. rewrite Hm in Hq.
    destruct Hq as [E|[E|[]]]; injection E as <- _; vm_compute; eexists; reflexivity.
  - rewrite Hm. reflexivity.
  - rewrite Hm. apply perm_swap.
Defined.

End StatsAndPortfolio.

(* ===================================================================== *)
(** * Requests: validation and the status of the response                 *)
(* ===================================================================== *)

Section Requests.

(** X18.  [CreateReward] turns away, before any request to the store and
    without changing the state, a symbol that is empty or longer than 20
    bytes and a quantity that is not positive or exceeds 10000 shares;
    every other request goes on to the duplicate check, the first request
    to the store. *)
Theorem CreateReward_validates userID symbol quantity timestamp w :
  ((String.length symbol = 0 \/ 20 < String.length symbol)%nat ->
   CreateReward userID symbol quantity timestamp w
   = (inl (Wrapf "invalid stock symbol" (Errorf "invalid stock symbol length")), w))
  /\ ((1 <= String.length symbol <= 20)%nat ->
      (toQ quantity <= 0)%Q ->
      CreateReward userID symbol quantity timestamp w
      = (inl (Wrapf "invalid quantity" (Errorf "quantity must be positive")), w))
  /\ ((1 <= String.length symbol <= 20)%nat ->
      (10000 < toQ quantity)%Q ->
      CreateReward userID symbol quantity timestamp w
      = (inl (Wrapf "invalid quantity"
                (Errorf "quantity cannot exceed 10000 shares")), w))
  /\ ((1 <= String.length symbol <= 20)%nat ->
      (0 < toQ quantity)%Q -> (toQ quantity <= 10000)%Q ->
      forall fs,
        faults w = true :: fs ->
        CreateReward userID symbol quantity timestamp w
        = (inl (Wrapf "failed to check for duplicates" ErrStore), set_faults w fs)).
Proof.
  unfold CreateReward. repeat split.
  - intros Hlen. unfold ValidateStockSymbol.
    destruct (Nat.eqb_spec (String.length symbol) 0) as [E|E];
      destruct (Nat.ltb_spec 20 (String.length symbol)) as [L|L];
      cbn [orb]; try reflexivity. lia.
  - intros Hlen Hq. apply ValidateStockSymbol_accepts in Hlen. rewrite Hlen.
    unfold ValidateQuantity.
    assert (Hle : LessThanOrEqual quantity Zero = true).
    { apply LessThanOrEqual_toQ. rewrite toQ_Zero. exact Hq. }
    rewrite Hle. reflexivity.
  - intros Hlen Hq. apply ValidateStockSymbol_accepts in Hlen. rewrite Hlen.
    unfold ValidateQuantity.
    destruct (LessThanOrEqual quantity Zero) eqn:Hle.
    { apply LessThanOrEqual_toQ in Hle. rewrite toQ_Zero in Hle. lra. }
    assert (Hgt : GreaterThan quantity (NewFromInt 10000) = true).
    { apply GreaterThan_toQ. rewrite toQ_NewFromInt. exact Hq. }
    rewrite Hgt. reflexivity.
  - intros Hlen Hlo Hhi fs Hf.
    apply ValidateStockSymbol_accepts in Hlen. rewrite Hlen.
    assert (Vq : ValidateQuantity quantity = None)
      by (apply ValidateQuantity_accepts; split; assumption).
    rewrite Vq. unfold bind at 1, attempt at 1, db_query.
    rewrite (db_exec_fault _ w fs Hf). reflexivity.
Qed.

Lemma CreateReward_validates_witness :
  CreateReward 1 "" (New 25 (-1)) scenario.T scenario.fresh
    = (inl (Wrapf "invalid stock symbol" (Errorf "invalid stock symbol length")),
       scenario.fresh)
  /\ CreateReward 1 "RELIANCE" (New 0 0) scenario.T scenario.fresh
     = (inl (Wrapf "invalid quantity" (Errorf "quantity must be positive")),
        scenario.fresh)
  /\ CreateReward 1 "RELIANCE" (New 100001 (-1)) scenario.T scenario.fresh
     = (inl (Wrapf "invalid quantity"
               (Errorf "quantity cannot exceed 10000 shares")), scenario.fresh).
Proof.
  split; [|split].
  - apply (CreateReward_validates 1 "" (New 25 (-1)) scenario.T scenario.fresh).
    left. reflexivity.
  - apply (CreateReward_validates 1 "RELIANCE" (New 0 0) scenario.T scenario.fresh).
    + cbn. lia.
    + vm_compute. discriminate.
  - apply (CreateReward_validates 1 "RELIANCE" (New 100001 (-1)) scenario.T
             scenario.fresh).
    + cbn. lia.
    + vm_compute. reflexivity.
Defined.

Lemma Error_of_failure driver msg cause :
  In msg CreateReward_failures ->
  String.eqb (controllers.Error driver (Wrapf msg cause))
    "duplicate reward: identical reward already exists" = false.
Proof.
  intros Hin. cbn in Hin.
  repeat (destruct Hin as [<-|Hin]; [reflexivity|]). destruct Hin.
Qed.

(** X19.  [POST /reward] answers 400, without calling the service, when
    the body cannot be bound or the timestamp cannot be parsed; otherwise
    it answers 200 exactly when the service recorded the grant, 409
    exactly when the service reported the duplicate, and 500 for every
    other error of the service, among them a symbol or a quantity the
    service turns away; after an answer other than 200 the grants and the
    ledger are as they were. *)
Theorem CreateReward_status driver userID symbol quantity timestamp w :
  let res := CreateReward userID symbol quantity timestamp w in
  let out :=
    controllers.CreateReward driver
      (Some (controllers.mkCreateRewardRequest userID symbol quantity (Some timestamp)))
      w in
  controllers.CreateReward driver None w = (400, w)
  /\ controllers.CreateReward driver
       (Some (controllers.mkCreateRewardRequest userID symbol quantity None)) w
     = (400, w)
  /\ snd out = snd res
  /\ (fst out = 200 <-> fst res = inr tt)
  /\ (fst out = 409 <-> fst res = inl DuplicateGrant)
  /\ (fst out = 500 <-> exists msg cause, fst res = inl (Wrapf msg cause))
  /\ (ValidateStockSymbol symbol <> None \/ ValidateQuantity quantity <> None ->
      fst out = 500)
  /\ (fst out <> 200 ->
      reward_events (store (snd out)) = reward_events (store w)
      /\ ledger_entries (store (snd out)) = ledger_entries (store w)).
Proof.
  intros res out. split; [reflexivity|]. split; [reflexivity|].
  assert (Hkept : fst res <> inr tt ->
            reward_events (store (snd res)) = reward_events (store w)
            /\ ledger_entries (store (snd res)) = ledger_entries (store w)).
  { destruct (CreateReward_outcome userID symbol quantity timestamp w)
      as (_ & _ & [(e & _ & Hre & Hle & _)|(Hok & _)]); fold res in Hre, Hle || fold res in Hok.
    - intros _. split; assumption.
    - intros H. contradiction. }
  assert (Hout : (fst res = inr tt /\ out = (200, snd res))
                 \/ (fst res = inl DuplicateGrant /\ out = (409, snd res))
                 \/ (exists msg cause, fst res = inl (Wrapf msg cause)
                                       /\ out = (500, snd res))).
  { destruct (CreateReward_outcome userID symbol quantity timestamp w)
      as (_ & _ & [(e & He & _ & _ & _ & _ & Hshape)|(Hok & _)]);
      fold res in He || fold res in Hok; subst out;
      unfold controllers.CreateReward;
      cbn [controllers.Req_Timestamp controllers.Req_UserID controllers.Req_Symbol
           controllers.Req_Quantity];
      fold res; destruct res as [r w1]; cbn [fst snd] in *; subst r.
    - destruct Hshape as [[-> _]|(msg & cause & -> & Hin)].
      + right. left. split; reflexivity.
      + right. right. exists msg, cause. rewrite Error_of_failure by exact Hin.
        split; reflexivity.
    - left. split; reflexivity. }
  assert (Hinvalid : ValidateStockSymbol symbol <> None
                     \/ ValidateQuantity quantity <> None ->
                     exists msg cause, fst res = inl (Wrapf msg cause)).
  { subst res. unfold CreateReward.
    destruct (ValidateStockSymbol symbol); [intros _; eexists _, _; reflexivity|].
    destruct (ValidateQuantity quantity); [intros _; eexists _, _; reflexivity|].
    intros [H|H]; congruence. }
  destruct Hout as [[Hr ->]|[[Hr ->]|(msg & cause & Hr & ->)]];
    cbn [fst snd]; rewrite Hr;
    (split; [reflexivity|]);
    (split; [split; intros H; first [reflexivity | discriminate H]|]);
    (split; [split; intros H; first [reflexivity | discriminate H]|]).
  - split; [split; [discriminate|intros (m & c & H); discriminate H]|].
    split; [|intros H; exfalso; apply H; reflexivity].
    intros Hv. apply Hinvalid in Hv as (m & c & H). congruence.
  - split; [split; [discriminate|intros (m & c & H); discriminate H]|].
    split; [|intros _; apply Hkept; rewrite Hr; discriminate].
    intros Hv. apply Hinvalid in Hv as (m & c & H). rewrite Hr in H. discriminate H.
  - split; [split; [intros _; eexists _, _; reflexivity|reflexivity]|].
    split; [reflexivity|]. intros _. apply Hkept. rewrite Hr. discriminate.
Qed.

Lemma CreateReward_status_witness :
  fst (controllers.CreateReward "connection refused"
         (Some (controllers.mkCreateRewardRequest 1 "RELIANCE" (New 25 (-1))
                  (Some scenario.T))) scenario.fresh) = 200
  /\ fst (controllers.CreateReward "connection refused"
            (Some (controllers.mkCreateRewardRequest 1 "RELIANCE" (New 25 (-1))
                     (Some scenario.T))) scenario.after_A) = 409
  /\ fst (controllers.CreateReward "connection refused"
            (Some (controllers.mkCreateRewardRequest 1 "RELIANCE" (New 10001 0)
                     (Some scenario.T))) scenario.fresh) = 500.
Proof.
  split; [|split].
  - apply (CreateReward_status "connection refused" 1 "RELIANCE" (New 25 (-1))
             scenario.T scenario.fresh).
    vm_compute. reflexivity.
  - apply (CreateReward_status "connection refused" 1 "RELIANCE" (New 25 (-1))
             scenario.T scenario.after_A).
    vm_compute. reflexivity.
  - apply (CreateReward_status "connection refused" 1 "RELIANCE" (New 10001 0)
             scenario.T scenario.fresh).
    right. vm_compute. discriminate.
Defined.

(** X20.  [CreateLedgerEntries] writes what [createLedgerEntriesInTx]
    writes: called on the same grant and price in the same state, both
    leave the same state, and one reports an error exactly when the other
    does, [CreateLedgerEntries] wrapping it.  Both succeed only for a
    grant that is a row of [reward_events], as the foreign key of
    [ledger_entries.reward_event_id] demands, and then add its three
    rows; when they fail, on a fault of the store or for a grant that is
    absent, the store is as before.  When the store answers, they succeed
    exactly for the grants that are in the store.  Neither reports the
    empty slice, since there are always three entries. *)
Theorem CreateLedgerEntries_as_in_transaction rewardEvent pricePerShare w :
  snd (CreateLedgerEntries rewardEvent pricePerShare w)
  = snd (createLedgerEntriesInTx rewardEvent pricePerShare w)
  /\ (fst (createLedgerEntriesInTx rewardEvent pricePerShare w) = inr tt
      /\ fst (CreateLedgerEntries rewardEvent pricePerShare w) = inr tt
      /\ (exists r, In r (reward_events (store w))
                    /\ re_id r = RewardEvent_ID rewardEvent)
      /\ ledger_entries
           (store (snd (CreateLedgerEntries rewardEvent pricePerShare w)))
         = ledger_entries (store w) ++
             number_rows (ledger_entries_seq (store w))
               (createLedgerEntriesInTx_entries rewardEvent pricePerShare)
      \/ fst (createLedgerEntriesInTx rewardEvent pricePerShare w) = inl ErrStore
         /\ fst (CreateLedgerEntries rewardEvent pricePerShare w)
            = inl (Wrapf "failed to create ledger entries" ErrStore)
         /\ store (snd (CreateLedgerEntries rewardEvent pricePerShare w)) = store w)
  /\ (faults w = [] ->
      (fst (CreateLedgerEntries rewardEvent pricePerShare w) = inr tt
       <-> exists r, In r (reward_events (store w))
                     /\ re_id r = RewardEvent_ID rewardEvent)).
Proof.
  assert (Hgrant :
    forall s,
      existsb (fun r => re_id r =? RewardEvent_ID rewardEvent) (reward_events s) = true
      <-> exists r, In r (reward_events s) /\ re_id r = RewardEvent_ID rewardEvent).
  { intros s. rewrite List.existsb_exists.
    split; intros (r & Hin & Hr); exists r; (split; [exact Hin|]);
      [now apply Z.eqb_eq in Hr | now apply Z.eqb_eq]. }
  unfold CreateLedgerEntries, createLedgerEntriesInTx, bind, attempt.
  change (RoundINR (Mul pricePerShare (RewardEvent_Quantity rewardEvent)))
    with (Round (Mul pricePerShare (RewardEvent_Quantity rewardEvent)) 4).
  fold (RoundINR (Mul pricePerShare (RewardEvent_Quantity rewardEvent))).
  fold (createLedgerEntriesInTx_entries rewardEvent pricePerShare).
  split; [|split].
  - match goal with |- context [db_exec ?op w] =>
      destruct (db_exec op w) as [[e|[]] w1] end; reflexivity.
  - match goal with |- context [db_exec ?op w] =>
      destruct (db_exec_cases op w) as [(fs & _ & E)|(fs & _ & E)];
      rewrite E; clear E end.
    + cbn [fst snd]. right. repeat split.
    + unfold insert_ledger_entries. rewrite entries_reference_reward.
      destruct (existsb _ _) eqn:Eg; unfold createLedgerEntriesInTx_entries;
        cbn [fst snd].
      * left. split; [reflexivity|]. split; [reflexivity|].
        split; [now apply Hgrant|reflexivity].
      * right. repeat split.
  - intros Hf. rewrite db_exec_ok by exact Hf.
    unfold insert_ledger_entries. rewrite entries_reference_reward.
    rewrite <- Hgrant.
    destruct (existsb _ _); unfold createLedgerEntriesInTx_entries; cbn [fst snd].
    + split; reflexivity.
    + split; discriminate.
Qed.

(** The theorem at work: in the state after scenario A, the entries of
    the grant of scenario A are written once more, and those of a grant
    numbered 7, which the store does not have, are refused. *)
Lemma CreateLedgerEntries_as_in_transaction_witness :
  fst (CreateLedgerEntries scenario.grant_A (New 24505000 (-4)) scenario.after_A)
  = inr tt
  /\ fst (CreateLedgerEntries (mkRewardEvent 7 1 "TCS" (New 1 0) scenario.T None)
            (New 36807500 (-4)) scenario.after_A)
     = inl (Wrapf "failed to create ledger entries" ErrStore)
  /\ store (snd (CreateLedgerEntries (mkRewardEvent 7 1 "TCS" (New 1 0) scenario.T None)
                   (New 36807500 (-4)) scenario.after_A))
     = store scenario.after_A.
Proof.
  assert (Hf : faults scenario.after_A = []) by (vm_compute; reflexivity).
  split.
  - apply (CreateLedgerEntries_as_in_transaction scenario.grant_A
             (New 24505000 (-4)) scenario.after_A); [exact Hf|].
    eexists. split; [left; reflexivity|]. vm_compute. reflexivity.
  - destruct (CreateLedgerEntries_as_in_transaction
                (mkRewardEvent 7 1 "TCS" (New 1 0) scenario.T None)
                (New 36807500 (-4)) scenario.after_A)
      as (_ & [(_ & _ & (r & Hin & Hr) & _)|(_ & Hfail & Hstore)] & _).
    + exfalso. vm_compute in Hin. destruct Hin as [<-|[]]. discriminate Hr.
    + split; assumption.
Defined.

End Requests.

(* ===================================================================== *)
(** * The scheduled update, and the prices of a day                       *)
(* ===================================================================== *)

Section PriceTables.

Lemma fold_insert_notin {A} (key : A -> string) (val : A -> Decimal) l :
  forall (m : gmap string Decimal) k,
    ~ In k (map key l) ->
    fold_left (fun (m : gmap string Decimal) x => <[key x := val x]> m) l m !! k
    = m !! k.
Proof.
  induction l as [|x l IH]; intros m k Hk; [reflexivity|].
  cbn [fold_left]. rewrite IH by (intros H; apply Hk; now right).
  apply lookup_insert_ne. intros E. apply Hk. now left.
Qed.

Lemma fold_insert_in {A} (key : A -> string) (val : A -> Decimal) l :
  forall (m : gmap string Decimal) x,
    NoDup (map key l) ->
    In x l ->
    fold_left (fun (m : gmap string Decimal) x => <[key x := val x]> m) l m !! key x
    = Some (val x).
Proof.
  induction l as [|y l IH]; intros m x Hnd Hx; [destruct Hx|].
  cbn [map] in Hnd. apply NoDup_cons in Hnd as [Hy Hnd].
  cbn [fold_left]. destruct Hx as [->|Hx].
  - rewrite fold_insert_notin.
    + apply lookup_insert_eq.
    + intros H. apply Hy, list_elem_of_In, H.
  - apply IH; assumption.
Qed.

(** The generator draws a price for each of the symbols it is given. *)
Lemma GeneratePricesForAllStocks_loop_ok symbols : forall prices w,
  (forall k, In k symbols -> is_Some (basePrices (generator w) !! k)) ->
  exists prices',
    GeneratePricesForAllStocks_loop symbols prices w
    = (inr prices',
       mkWorld (store w) (generator w) (draws w)
         (drawn w + length symbols)%nat (now w) (faults w))
    /\ (forall k, ~ In k symbols -> prices' !! k = prices !! k)
    /\ (forall k, In k symbols -> exists p, prices' !! k = Some p /\ exp p = -4).
Proof.
  induction symbols as [|symbol rest IH]; intros prices w Hbase.
  - exists prices. cbn [GeneratePricesForAllStocks_loop length]. unfold ret.
    rewrite Nat.add_0_r. split; [destruct w; reflexivity|].
    split; [reflexivity|]. intros k [].
  - cbn [GeneratePricesForAllStocks_loop]. unfold bind at 1. unfold GeneratePrice at 1.
    pose proof (GeneratePrice_rounded (generator w) symbol (draws w (drawn w))) as Hexp.
    assert (Hpg : snd (utils.GeneratePrice (generator w) symbol (draws w (drawn w)))
                  = generator w).
    { unfold utils.GeneratePrice.
      destruct (Hbase symbol (or_introl eq_refl)) as [b ->]. reflexivity. }
    destruct (utils.GeneratePrice _ _ _) as [price pg]. cbn [fst snd] in Hexp, Hpg.
    subst pg.
    destruct (IH (<[symbol := price]> prices)
                (mkWorld (store w) (generator w) (draws w) (S (drawn w)) (now w)
                   (faults w)))
      as (prices' & -> & Hout & Hin).
    { intros k Hk. apply Hbase. now right. }
    exists prices'. cbn [store generator draws drawn now faults length].
    split; [rewrite Nat.add_succ_r; reflexivity|]. split.
    + intros k Hk. rewrite Hout by (intros H; apply Hk; now right).
      apply lookup_insert_ne. intros E. apply Hk. now left.
    + intros k [<-|Hk]; [|apply Hin, Hk].
      destruct (in_dec String.string_dec symbol rest) as [Hr|Hr]; [apply Hin, Hr|].
      exists price. rewrite Hout by exact Hr. split; [apply lookup_insert_eq|exact Hexp].
Qed.

Lemma UpdateAllPrices_loop_never_fails prices : forall w,
  fst (UpdateAllPrices_loop prices w) = inr tt.
Proof.
  induction prices as [|[symbol price] rest IH]; intros w; [reflexivity|].
  cbn [UpdateAllPrices_loop]. unfold bind, attempt.
  destruct (SavePrice symbol price w) as [r w1]. apply IH.
Qed.

(** Saving a list of prices, when the store answers. *)
Lemma UpdateAllPrices_loop_ok prices : forall w,
  faults w = [] ->
  Forall (fun sp => exp (snd sp) = -4) prices ->
  exists w',
    UpdateAllPrices_loop prices w = (inr tt, w')
    /\ faults w' = []
    /\ price_history (store w')
       = price_history (store w)
         ++ price_rows (price_history_seq (store w)) (now w) prices
    /\ basePrices (generator w')
       = fold_left (fun (m : gmap string Decimal) sp => <[fst sp := snd sp]> m)
           prices (basePrices (generator w))
    /\ drawn w' = drawn w.
Proof.
  induction prices as [|[symbol price] rest IH]; intros w Hf Hexp.
  - exists w. cbn. rewrite app_nil_r. auto.
  - cbn [UpdateAllPrices_loop]. unfold bind, attempt.
    rewrite SavePrice_ok by exact Hf.
    apply List.Forall_cons_iff in Hexp as [Hp Hexp]. cbn [snd] in Hp.
    match goal with |- context [UpdateAllPrices_loop rest ?w1] =>
      destruct (IH w1) as (w' & -> & Hf' & Hph & Hbase & Hdrawn) end;
      [exact Hf|exact Hexp|].
    exists w'. split; [reflexivity|]. split; [exact Hf'|].
    cbn [store set_generator set_store insert_price price_history price_history_seq
         now generator UpdateBasePrice basePrices drawn] in Hph, Hbase, Hdrawn.
    split; [|split; [exact Hbase|exact Hdrawn]].
    rewrite Hph, <- app_assoc. cbn [price_rows app PriceHistory_StockSymbol PriceINR
                                    PriceHistory_Timestamp].
    unfold RoundINR, to_numeric. rewrite Round_Round.
    rewrite (Round_same_exp price 4) by exact Hp. reflexivity.
Qed.

(** X21.  The scheduled update never reports an error and never touches the
    grants or the ledger; when the store answers it draws one price for
    every symbol of the generator, saves each as a sample of the current
    instant and makes it the base price of its symbol, so that the next
    prices drift from the last ones. *)
Theorem UpdateAllPrices_samples w :
  fst (UpdateAllPrices w) = inr tt
  /\ same_ledger w (snd (UpdateAllPrices w))
  /\ (faults w = [] ->
      let w' := snd (UpdateAllPrices w) in
      let prices := basePrices (generator w') in
      price_history (store w')
      = price_history (store w)
        ++ price_rows (price_history_seq (store w)) (now w) (map_to_list prices)
      /\ (forall symbol,
            is_Some (prices !! symbol)
            <-> is_Some (basePrices (generator w) !! symbol))
      /\ (forall symbol p, prices !! symbol = Some p -> exp p = -4)
      /\ drawn w' = (drawn w + size (basePrices (generator w)))%nat).
Proof.
  split; [|split; [apply UpdateAllPrices_frame|]].
  - unfold UpdateAllPrices, bind.
    destruct (GeneratePricesForAllStocks w) as [[e|prices] w1] eqn:E.
    + unfold GeneratePricesForAllStocks in E.
      destruct (GeneratePricesForAllStocks_loop_ok
                  (map fst (map_to_list (basePrices (generator w)))) ∅ w)
        as (prices' & E' & _).
      { intros k Hk. apply List.in_map_iff in Hk as ([k' b] & <- & Hk).
        apply list_elem_of_In, elem_of_map_to_list in Hk. cbn. eauto. }
      congruence.
    + apply UpdateAllPrices_loop_never_fails.
  - intros Hf. cbv zeta. unfold UpdateAllPrices, bind, GeneratePricesForAllStocks.
    set (g := basePrices (generator w)).
    assert (Hkeys : forall k, In k (map fst (map_to_list g)) <-> is_Some (g !! k)).
    { intros k. rewrite List.in_map_iff. split.
      - intros ([k' b] & <- & Hk).
        apply list_elem_of_In, elem_of_map_to_list in Hk. cbn. eauto.
      - intros [b Hb]. exists (k, b). split; [reflexivity|].
        apply list_elem_of_In, elem_of_map_to_list, Hb. }
    destruct (GeneratePricesForAllStocks_loop_ok (map fst (map_to_list g)) ∅ w)
      as (prices & -> & Hout & Hin).
    { intros k Hk. apply Hkeys, Hk. }
    assert (Hdom : forall k, is_Some (prices !! k) <-> is_Some (g !! k)).
    { intros k. split.
      - intros Hs. apply Hkeys.
        destruct (in_dec String.string_dec k (map fst (map_to_list g))) as [H|H]; [exact H|].
        rewrite Hout, lookup_empty in Hs by exact H. destruct Hs. discriminate.
      - intros Hs. apply Hkeys, Hin in Hs as (p & -> & _). eauto. }
    assert (Hexp : forall k p, prices !! k = Some p -> exp p = -4).
    { intros k p Hp.
      assert (Hk : In k (map fst (map_to_list g))) by (apply Hkeys, Hdom; eauto).
      apply Hin in Hk as (p' & Hp' & He). congruence. }
    match goal with |- context [UpdateAllPrices_loop ?l ?w1] =>
      destruct (UpdateAllPrices_loop_ok l w1) as (w' & -> & _ & Hph & Hbase & Hdr) end.
    { exact Hf. }
    { apply List.Forall_forall. intros [k p] Hkp.
      apply list_elem_of_In, elem_of_map_to_list in Hkp. cbn. eapply Hexp, Hkp. }
    cbn [snd store generator now drawn] in *.
    assert (Hnew : basePrices (generator w') = prices).
    { rewrite Hbase. apply map_eq. intros k.
      destruct (prices !! k) as [p|] eqn:Hp.
      - apply (fold_insert_in fst snd (map_to_list prices) (basePrices (generator w))
                 (k, p)).
        + apply NoDup_fst_map_to_list.
        + apply list_elem_of_In, elem_of_map_to_list, Hp.
      - rewrite fold_insert_notin.
        + fold g. destruct (g !! k) eqn:Hg; [|reflexivity].
          assert (is_Some (prices !! k)) as [? ?] by (apply Hdom; eauto). congruence.
        + intros Hk. apply List.in_map_iff in Hk as ([k' p] & <- & Hk).
          apply list_elem_of_In, elem_of_map_to_list in Hk. cbn in Hp. congruence. }
    rewrite Hnew. split; [exact Hph|]. split; [exact Hdom|]. split; [exact Hexp|].
    rewrite Hdr, length_map, length_map_to_list. reflexivity.
Qed.

Lemma UpdateAllPrices_samples_witness :
  fst (UpdateAllPrices scenario.fresh) = inr tt
  /\ drawn (snd (UpdateAllPrices scenario.fresh)) = 10%nat
  /\ length (price_history (store (snd (UpdateAllPrices scenario.fresh)))) = 10%nat.
Proof.
  destruct (UpdateAllPrices_samples scenario.fresh) as (H1 & _ & H3).
  split; [exact H1|].
  destruct (H3 eq_refl) as (Hph & _ & _ & Hdrawn).
  split; [exact Hdrawn|]. vm_compute. reflexivity.
Defined.

(** The rows of [latest_per_symbol]. *)
Lemma latest_per_symbol_In s a b row :
  In row (latest_per_symbol s a b)
  <-> first_by price_newer
        (List.filter (fun r => String.eqb (ph_stock_symbol r) (ph_stock_symbol row))
           (List.filter (in_window a b) (price_history s)))
      = Some row.
Proof.
  unfold latest_per_symbol. cbv zeta.
  set (rows := List.filter (in_window a b) (price_history s)).
  rewrite <- list_elem_of_In, list_elem_of_omap. split.
  - intros (sym & _ & Hf). pose proof Hf as Hin.
    apply first_by_In, List.filter_In in Hin as [_ Hsym].
    apply String.eqb_eq in Hsym. rewrite Hsym. exact Hf.
  - intros Hf. exists (ph_stock_symbol row). split; [|exact Hf].
    apply elem_of_remove_dups, list_elem_of_In, List.in_map.
    apply first_by_In, List.filter_In in Hf. tauto.
Qed.

Lemma latest_per_symbol_NoDup s a b :
  NoDup (map ph_stock_symbol (latest_per_symbol s a b)).
Proof.
  unfold latest_per_symbol. cbv zeta.
  set (rows := List.filter (in_window a b) (price_history s)).
  set (f := fun symbol => first_by price_newer
                (List.filter (fun r => String.eqb (ph_stock_symbol r) symbol) rows)).
  assert (Hf : forall sym row, f sym = Some row -> ph_stock_symbol row = sym).
  { intros sym row H. apply first_by_In, List.filter_In in H as [_ H].
    apply String.eqb_eq, H. }
  pose proof (NoDup_remove_dups (map ph_stock_symbol rows)) as Hnd.
  induction (remove_dups (map ph_stock_symbol rows)) as [|sym syms IH];
    cbn [omap list_omap]; [constructor|].
  apply NoDup_cons in Hnd as [Hsym Hnd].
  destruct (f sym) as [row|] eqn:E; [|apply IH, Hnd].
  cbn [map]. apply NoDup_cons. split; [|apply IH, Hnd].
  rewrite (Hf _ _ E). intros Hin. apply Hsym.
  apply list_elem_of_In, List.in_map_iff in Hin as (row' & Hs & Hin).
  apply list_elem_of_In, list_elem_of_omap in Hin as (sym' & Hsym' & E').
  apply Hf in E'. congruence.
Qed.

Lemma in_window_IsToday date r :
  in_window (StartOfDayUTC date) (EndOfDayUTC date) r
  = IsToday date (ph_timestamp r).
Proof. unfold in_window. symmetry. apply IsToday_window_bool. Qed.

(** X22.  The prices of a date give, for every symbol that has a sample
    in the UTC day of the date, the price of a sample of that day than
    which the symbol has no later one that day, and nothing for the other
    symbols; the query changes nothing. *)
Theorem GetPricesForDate_latest_of_day date w prices w' :
  GetPricesForDate date w = (inr prices, w') ->
  store w' = store w
  /\ forall symbol,
       (prices !! symbol = None
        <-> forall x, In x (price_history (store w)) ->
                      ph_stock_symbol x = symbol ->
                      IsToday date (ph_timestamp x) = false)
       /\ forall p,
            prices !! symbol = Some p ->
            exists row,
              In row (price_history (store w))
              /\ ph_stock_symbol row = symbol
              /\ IsToday date (ph_timestamp row) = true
              /\ p = New (ph_price_inr row) (-4)
              /\ forall x, In x (price_history (store w)) ->
                           ph_stock_symbol x = symbol ->
                           IsToday date (ph_timestamp x) = true ->
                           ph_timestamp x <= ph_timestamp row.
Proof.
  unfold GetPricesForDate, bind, attempt.
  match goal with |- context [db_query ?q w] =>
    destruct (db_query_cases q w) as (fs & Hs & _ & Hr);
    destruct (db_query q w) as [r w1] end.
  cbn [fst snd] in Hs, Hr.
  destruct Hr as [->| ->]; [discriminate|].
  unfold ret. intros E. injection E as <- <-. split; [exact Hs|].
  set (a := StartOfDayUTC date). set (b := EndOfDayUTC date).
  set (L := latest_per_symbol (store w) a b).
  set (rows := List.filter (in_window a b) (price_history (store w))).
  assert (Hrows : forall x, In x rows <->
            In x (price_history (store w)) /\ IsToday date (ph_timestamp x) = true).
  { intros x. unfold rows. rewrite List.filter_In. unfold a, b.
    rewrite in_window_IsToday. tauto. }
  assert (Hlatest : forall row, In row L ->
            In row (price_history (store w))
            /\ IsToday date (ph_timestamp row) = true
            /\ forall x, In x (price_history (store w)) ->
                         ph_stock_symbol x = ph_stock_symbol row ->
                         IsToday date (ph_timestamp x) = true ->
                         ph_timestamp x <= ph_timestamp row).
  { intros row Hrow. apply latest_per_symbol_In in Hrow. fold rows in Hrow.
    apply latest_price_most_recent in Hrow as [Hin Hmax].
    apply List.filter_In in Hin as [Hin _]. apply Hrows in Hin as [H1 H2].
    split; [exact H1|]. split; [exact H2|].
    intros x Hx Hsym Hday. apply Hmax, List.filter_In. split.
    - apply Hrows. tauto.
    - apply String.eqb_eq, Hsym. }
  assert (Hsome : forall x, In x rows ->
            exists row, In row L /\ ph_stock_symbol row = ph_stock_symbol x).
  { intros x Hx.
    destruct (first_by price_newer
                (List.filter
                   (fun r => String.eqb (ph_stock_symbol r) (ph_stock_symbol x)) rows))
      as [row|] eqn:Ef.
    - pose proof Ef as Hin. apply first_by_In, List.filter_In in Hin as [_ Hsym].
      apply String.eqb_eq in Hsym. exists row. split; [|exact Hsym].
      apply latest_per_symbol_In. fold rows. rewrite Hsym. exact Ef.
    - apply first_by_None in Ef.
      assert (In x (List.filter
                      (fun r => String.eqb (ph_stock_symbol r) (ph_stock_symbol x))
                      rows)) as Hin
        by (apply List.filter_In; split; [exact Hx|apply String.eqb_refl]).
      rewrite Ef in Hin. destruct Hin. }
  assert (Hlookup_in : forall row, In row L ->
            fold_left
              (fun (priceMap : gmap string Decimal) p =>
                 <[PriceHistory_StockSymbol p := PriceINR p]> priceMap)
              (map scan_price L) ∅ !! ph_stock_symbol row
            = Some (New (ph_price_inr row) (-4))).
  { intros row Hrow.
    apply (fold_insert_in PriceHistory_StockSymbol PriceINR (map scan_price L) ∅
             (scan_price row)).
    - rewrite map_map. cbn [scan_price PriceHistory_StockSymbol].
      apply latest_per_symbol_NoDup.
    - apply List.in_map, Hrow. }
  assert (Hlookup_out : forall symbol,
            (forall row, In row L -> ph_stock_symbol row <> symbol) ->
            fold_left
              (fun (priceMap : gmap string Decimal) p =>
                 <[PriceHistory_StockSymbol p := PriceINR p]> priceMap)
              (map scan_price L) ∅ !! symbol = None).
  { intros symbol Hnone. rewrite fold_insert_notin; [apply lookup_empty|].
    rewrite map_map. cbn [scan_price PriceHistory_StockSymbol].
    intros Hin. apply List.in_map_iff in Hin as (row & Hsym & Hrow).
    exact (Hnone row Hrow Hsym). }
  intros symbol.
  destruct (List.filter (fun r => String.eqb (ph_stock_symbol r) symbol) rows)
    as [|x rest] eqn:Efil.
  - assert (Hno : forall x, In x (price_history (store w)) ->
              ph_stock_symbol x = symbol -> IsToday date (ph_timestamp x) = false).
    { intros x Hx Hsym. destruct (IsToday date (ph_timestamp x)) eqn:Hday;
        [|reflexivity].
      assert (In x (List.filter (fun r => String.eqb (ph_stock_symbol r) symbol) rows))
        as Hin.
      { apply List.filter_In. split; [apply Hrows; tauto|]. apply String.eqb_eq, Hsym. }
      rewrite Efil in Hin. destruct Hin. }
    assert (Hnone : forall row, In row L -> ph_stock_symbol row <> symbol).
    { intros row Hrow Hsym. destruct (Hlatest row Hrow) as (H1 & H2 & _).
      rewrite (Hno row H1 Hsym) in H2. discriminate. }
    rewrite (Hlookup_out symbol Hnone). split; [split; auto|]. discriminate.
  - assert (Hx : In x rows /\ ph_stock_symbol x = symbol).
    { assert (In x (x :: rest)) as Hin by now left.
      rewrite <- Efil in Hin. apply List.filter_In in Hin as [H1 H2].
      split; [exact H1|]. apply String.eqb_eq, H2. }
    destruct Hx as [Hx Hsym].
    destruct (Hsome x Hx) as (row & Hrow & Hsym').
    rewrite Hsym in Hsym'. rewrite <- Hsym', (Hlookup_in row Hrow).
    destruct (Hlatest row Hrow) as (H1 & H2 & H3).
    split.
    + split; [discriminate|]. intros Hno.
      rewrite (Hno row H1 eq_refl) in H2. discriminate.
    + intros p Ep. injection Ep as <-. exists row. repeat split; assumption.
Qed.

Lemma GetPricesForDate_latest_of_day_witness :
  exists prices w',
    GetPricesForDate scenario.T scenario.two_today = (inr prices, w')
    /\ store w' = store scenario.two_today
    /\ prices !! "TCS"%string = Some (New 36807500 (-4))
    /\ prices !! "INFY"%string = None.
Proof.
  destruct (GetPricesForDate scenario.T scenario.two_today) as [r w'] eqn:E.
  assert (Hr : exists prices,
             r = inr prices
             /\ prices !! "TCS"%string = Some (New 36807500 (-4))
             /\ prices !! "INFY"%string = None).
  { apply (f_equal fst) in E. cbn [fst] in E. rewrite <- E.
    eexists. repeat split; vm_compute; reflexivity. }
  destruct Hr as (prices & -> & H1 & H2). exists prices, w'.
  split; [reflexivity|]. split; [|split; assumption].
  apply (GetPricesForDate_latest_of_day scenario.T scenario.two_today prices w' E).
Defined.

End PriceTables.

(* ===================================================================== *)
(** * Duplicates, reversals of nothing, and the GET handlers              *)
(* ===================================================================== *)

Section EdgeCases.

Lemma duplicate_of_iff userID symbol quantity timestamp r :
  duplicate_of userID symbol (Round quantity 6) timestamp r = true
  <-> re_deleted_at r = None /\ re_user_id r = userID
      /\ re_stock_symbol r = symbol
      /\ re_quantity r = value (Round quantity 6)
      /\ re_timestamp r = timestamp.
Proof.
  unfold duplicate_of. rewrite !andb_true_iff, !Z.eqb_eq, String.eqb_eq.
  assert (Hq : Equal (of_numeric 6 (re_quantity r)) (Round quantity 6) = true
               <-> re_quantity r = value (Round quantity 6)).
  { split.
    - intros H. apply Equal_same_exp in H; [|cbn; rewrite exp_Round; reflexivity].
      rewrite <- H. reflexivity.
    - intros ->. rewrite of_numeric_value by apply exp_Round. apply Equal_refl. }
  rewrite Hq. unfold is_live. destruct (re_deleted_at r); intuition congruence.
Qed.

(** X23.  A request that passes validation is reported as a duplicate
    exactly when the store answers the duplicate check and holds a live
    grant of the same user, symbol and timestamp whose quantity is the
    requested quantity rounded to 6 decimals; the report changes
    nothing. *)
Theorem CreateReward_duplicate_iff userID symbol quantity timestamp w :
  ValidateStockSymbol symbol = None ->
  ValidateQuantity quantity = None ->
  (forall fs, faults w <> true :: fs) ->
  (fst (CreateReward userID symbol quantity timestamp w) = inl DuplicateGrant
   <-> exists r,
         In r (reward_events (store w))
         /\ re_deleted_at r = None /\ re_user_id r = userID
         /\ re_stock_symbol r = symbol
         /\ re_quantity r = value (Round quantity 6)
         /\ re_timestamp r = timestamp)
  /\ (fst (CreateReward userID symbol quantity timestamp w) = inl DuplicateGrant ->
      store (snd (CreateReward userID symbol quantity timestamp w)) = store w).
Proof.
  intros Vs Vq Hf.
  assert (Hgrants : grants_with userID symbol (Round quantity 6) timestamp (store w) <> []
            <-> exists r,
                  In r (reward_events (store w))
                  /\ re_deleted_at r = None /\ re_user_id r = userID
                  /\ re_stock_symbol r = symbol
                  /\ re_quantity r = value (Round quantity 6)
                  /\ re_timestamp r = timestamp).
  { unfold grants_with. split.
    - intros Hne.
      destruct (List.filter _ (reward_events (store w))) as [|r rest] eqn:E;
        [congruence|].
      assert (In r (r :: rest)) as Hin by now left.
      rewrite <- E in Hin. apply List.filter_In in Hin as [Hin Hdup].
      exists r. split; [exact Hin|]. apply duplicate_of_iff, Hdup.
    - intros (r & Hin & Hdup) E.
      assert (In r (List.filter
                      (duplicate_of userID symbol (Round quantity 6) timestamp)
                      (reward_events (store w)))) as H
        by (apply List.filter_In; split; [exact Hin|apply duplicate_of_iff, Hdup]).
      rewrite E in H. destruct H. }
  rewrite <- Hgrants.
  destruct (first_by (fun r b => re_id r <? re_id b)
              (grants_with userID symbol (Round quantity 6) timestamp (store w)))
    as [dup|] eqn:Edup.
  - assert (E : exists fs,
               CreateReward userID symbol quantity timestamp w
               = (inl DuplicateGrant, set_faults w fs)).
    { unfold CreateReward. rewrite Vs, Vq.
      unfold bind at 1, attempt at 1, db_query.
      match goal with |- context [db_exec ?op w] =>
        destruct (db_exec_cases op w) as [(fs & Hfs & _)|(fs & _ & E)];
        [exfalso; exact (Hf fs Hfs)|rewrite E; clear E] end.
      fold (grants_with userID symbol (Round quantity 6) timestamp (store w)).
      cbn [store set_faults]. rewrite Edup. exists fs. reflexivity. }
    destruct E as [fs ->]. cbn [fst snd store set_faults].
    split; [|reflexivity]. split; [|reflexivity].
    intros _ E. rewrite E in Edup. discriminate.
  - apply first_by_None in Edup.
    assert (Hnot : fst (CreateReward userID symbol quantity timestamp w)
                   <> inl DuplicateGrant).
    { destruct (CreateReward_outcome userID symbol quantity timestamp w)
        as (_ & _ & [(e & -> & _ & _ & _ & _ & [[_ Hne]|(m & c & -> & _)])
                    |(-> & _)]); [congruence|discriminate|discriminate]. }
    split; [split; [intros H; contradiction|congruence]|].
    intros H. contradiction.
Qed.

Lemma CreateReward_duplicate_iff_witness :
  fst (CreateReward 1 "RELIANCE" (New 25000004 (-7)) scenario.T scenario.after_A)
  = inl DuplicateGrant.
Proof.
  apply (CreateReward_duplicate_iff 1 "RELIANCE" (New 25000004 (-7)) scenario.T
           scenario.after_A).
  - reflexivity.
  - vm_compute. reflexivity.
  - intros fs. discriminate.
  - eexists. split; [left; reflexivity|]. vm_compute. repeat split.
Defined.

Lemma Qfloor_unit z : (0 <= z)%Q -> (z < 1)%Q -> Qfloor z = 0.
Proof.
  intros H0 H1. pose proof (Qfloor_le z) as Hle. pose proof (Qlt_floor z) as Hlt.
  assert (Hlo : (inject_Z (Qfloor z) < inject_Z 1)%Q)
    by (change (inject_Z 1) with 1%Q; lra).
  assert (Hhi : (inject_Z 0 < inject_Z (Qfloor z + 1))%Q)
    by (change (inject_Z 0) with 0%Q; lra).
  rewrite <- Zlt_Qlt in Hlo, Hhi. lia.
Qed.

Lemma Round_dust quantity :
  (0 < toQ quantity)%Q -> (toQ quantity < 1 # 2000000)%Q ->
  Round quantity 6 = New 0 (-6).
Proof.
  intros Hlo Hhi. rewrite Round_half_away. f_equal.
  unfold round_half_away. cbv zeta.
  change (10 ^ 6)%Q with (1000000 # 1)%Q.
  assert (Hy : Qle_bool 0 (toQ quantity * (1000000 # 1)) = true)
    by (apply Qle_bool_iff; lra).
  rewrite Hy. apply Qfloor_unit; lra.
Qed.

Lemma Round_zero d places : (toQ d == 0)%Q -> value (Round d places) = 0.
Proof.
  intros H. rewrite (Round_comp d (New 0 0) places).
  - rewrite value_Round. unfold round_units. cbn [value exp].
    destruct (0 <=? 0 + places); [reflexivity|]. cbv zeta. cbn [Z.sgn]. lia.
  - rewrite H. reflexivity.
Qed.

Lemma CalculateFees_zero p q :
  (toQ q == 0)%Q -> value (total (CalculateFees p q)) = 0.
Proof.
  intros Hq. unfold CalculateFees. cbn [total].
  apply Round_zero.
  assert (Htv : (toQ (Mul p q) == 0)%Q) by (rewrite toQ_Mul, Hq; ring).
  assert (Hb : (toQ (if GreaterThan (Mul (Mul p q) rateBrokerage) (NewFromInt 20)
                     then NewFromInt 20 else Mul (Mul p q) rateBrokerage) == 0)%Q).
  { assert (Hb0 : (toQ (Mul (Mul p q) rateBrokerage) == 0)%Q)
      by (rewrite toQ_Mul, Htv; ring).
    destruct (GreaterThan _ _) eqn:E; [|exact Hb0].
    apply GreaterThan_toQ in E. rewrite Hb0, toQ_NewFromInt in E.
    unfold inject_Z in E. lra. }
  rewrite !toQ_Add, (toQ_Mul (Mul p q) rateSTT), (toQ_Mul _ rateGST), Hb, Htv.
  ring.
Qed.

(** X24.  A positive quantity of less than half a millionth of a share
    passes validation and is recorded as a grant of zero shares: when the
    store answers and the grant is new, [CreateReward] succeeds and writes
    a grant of quantity 0 with three entries of quantity 0 and amount 0. *)
Theorem CreateReward_records_dust userID symbol quantity timestamp w :
  faults w = [] ->
  ValidateStockSymbol symbol = None ->
  (0 < toQ quantity)%Q ->
  (toQ quantity < 1 # 2000000)%Q ->
  grants_with userID symbol (Round quantity 6) timestamp (store w) = [] ->
  exists w',
    CreateReward userID symbol quantity timestamp w = (inr tt, w')
    /\ reward_events (store w')
       = reward_events (store w) ++
           [mk_reward_events_row (reward_events_seq (store w)) userID symbol 0
              timestamp None]
    /\ ledger_entries (store w')
       = ledger_entries (store w) ++
           [ mk_ledger_entries_row (ledger_entries_seq (store w))
               (reward_events_seq (store w)) EntryTypeStock (Some symbol) 0 0
               timestamp;
             mk_ledger_entries_row (ledger_entries_seq (store w) + 1)
               (reward_events_seq (store w)) EntryTypeCash (Some symbol) 0 0
               timestamp;
             mk_ledger_entries_row (ledger_entries_seq (store w) + 1 + 1)
               (reward_events_seq (store w)) EntryTypeFee (Some symbol) 0 0
               timestamp ].
Proof.
  intros Hf Vs Hlo Hhi Hnew.
  assert (Vq : ValidateQuantity quantity = None)
    by (apply ValidateQuantity_accepts; split; lra).
  destruct (CreateReward_ok userID symbol quantity timestamp w Hf Vs Vq Hnew)
    as (p & wp & _ & _ & _ & ->).
  eexists. split; [reflexivity|].
  cbn [store set_store reward_events ledger_entries].
  rewrite number_rows_createLedgerEntriesInTx_entries by apply exp_Round.
  rewrite (Round_dust quantity Hlo Hhi). cbn [value].
  assert (Hq0 : (toQ (New 0 (-6)) == 0)%Q) by reflexivity.
  rewrite (CalculateFees_zero p (New 0 (-6)) Hq0).
  rewrite (Round_zero (Mul p (New 0 (-6))) 4) by (rewrite toQ_Mul, Hq0; ring).
  split; reflexivity.
Qed.

Lemma CreateReward_records_dust_witness :
  exists w',
    CreateReward 1 "RELIANCE" (New 4 (-7)) scenario.T scenario.fresh = (inr tt, w')
    /\ reward_events (store w')
       = [mk_reward_events_row 1 1 "RELIANCE" 0 scenario.T None]
    /\ ledger_entries (store w')
       = [ mk_ledger_entries_row 1 1 EntryTypeStock (Some "RELIANCE"%string) 0 0
             scenario.T;
           mk_ledger_entries_row 2 1 EntryTypeCash (Some "RELIANCE"%string) 0 0
             scenario.T;
           mk_ledger_entries_row 3 1 EntryTypeFee (Some "RELIANCE"%string) 0 0
             scenario.T ].
Proof.
  apply (CreateReward_records_dust 1 "RELIANCE" (New 4 (-7)) scenario.T scenario.fresh).
  - reflexivity.
  - reflexivity.
  - vm_compute. reflexivity.
  - vm_compute. reflexivity.
  - vm_compute. reflexivity.
Defined.

(** X25.  A reversal is recorded entirely or not at all: a call of
    [CreateReversalEntries] that reports an error leaves the store as it
    was, and the reversal of a grant that has no ledger entries is such an
    error, the empty slice that gorm refuses to insert. *)
Theorem CreateReversalEntries_all_or_nothing rewardEvent w :
  (forall e w',
      CreateReversalEntries rewardEvent w = (inl e, w') -> store w' = store w)
  /\ (faults w = [] ->
      entries_of_reward (RewardEvent_ID rewardEvent) (store w) = [] ->
      CreateReversalEntries rewardEvent w
      = (inl (Wrapf "failed to create reversal entries" ErrEmptySlice), w)).
Proof.
  split.
  - intros e w' E. apply CreateReversalEntries_failure in E. apply E.
  - intros Hf Hnone. unfold CreateReversalEntries.
    unfold bind at 1, attempt at 1. rewrite db_query_ok by exact Hf.
    rewrite Hnone. unfold bind at 1. rewrite CreateReversalEntries_loop_run.
    unfold bind, attempt. rewrite db_exec_ok by exact Hf. reflexivity.
Qed.

Lemma CreateReversalEntries_all_or_nothing_witness :
  CreateReversalEntries (mkRewardEvent 7 1 "TCS" (New 1 0) scenario.T None)
    scenario.after_A
  = (inl (Wrapf "failed to create reversal entries" ErrEmptySlice), scenario.after_A).
Proof.
  apply (CreateReversalEntries_all_or_nothing
           (mkRewardEvent 7 1 "TCS" (New 1 0) scenario.T None) scenario.after_A).
  - reflexivity.
  - vm_compute. reflexivity.
Defined.

(** X26.  The holdings as of a date that no grant is later than are the
    current holdings: with such a date [GetUserStockHoldingsUpToDate]
    returns what [GetUserStockHoldings] returns, in the same state. *)
Theorem GetUserStockHoldingsUpToDate_current userID (endDate : Time) w :
  (forall r, In r (reward_events (store w)) -> re_timestamp r <= endDate) ->
  GetUserStockHoldingsUpToDate userID endDate w = GetUserStockHoldings userID w.
Proof.
  intros Hall.
  assert (Hq : holdings_query (store w) userID (Some endDate)
               = holdings_query (store w) userID None).
  { unfold holdings_query, holdings_rows.
    assert (Hw : forall le, holdings_where (store w) userID (Some endDate) le
                            = holdings_where (store w) userID None le).
    { intros le. unfold holdings_where. f_equal. f_equal.
      induction (reward_events (store w)) as [|r rs IH]; [reflexivity|].
      cbn [existsb]. rewrite IH by (intros r' Hr'; apply Hall; now right).
      f_equal.
      destruct (Z.leb_spec (re_timestamp r) endDate) as [_|Hgt]; [reflexivity|].
      specialize (Hall r (or_introl eq_refl)). lia. }
    rewrite (List.filter_ext _ _ Hw). reflexivity. }
  unfold GetUserStockHoldingsUpToDate, GetUserStockHoldings, bind, attempt,
    db_query, db_exec.
  destruct (faults w) as [|[] fs]; cbn -[holdings_query holdingsMap];
    rewrite ?Hq; reflexivity.
Qed.

Lemma GetUserStockHoldingsUpToDate_current_witness :
  GetUserStockHoldingsUpToDate 1 scenario.T scenario.after_A
  = GetUserStockHoldings 1 scenario.after_A.
Proof.
  apply (GetUserStockHoldingsUpToDate_current 1 scenario.T scenario.after_A).
  intros r [<-|[]]. cbn. lia.
Defined.

Lemma GetHistoricalINR_answers userID w :
  faults w = [] -> exists vs, fst (GetHistoricalINR userID w) = inr vs.
Proof.
  intros Hf. unfold GetHistoricalINR. unfold bind at 1. rewrite NowUTC_run.
  unfold bind at 1, attempt at 1. rewrite db_query_ok by exact Hf.
  destruct (first_by _ _) as [row|]; cbn [first_or_not_found].
  - apply GetHistoricalINR_loop_never_fails.
  - cbn [errors_Is_RecordNotFound]. eexists. reflexivity.
Qed.

Lemma GetStats_answers userID w :
  faults w = [] -> exists st, fst (GetStats userID w) = inr st.
Proof.
  intros Hf. unfold GetStats. unfold bind at 1.
  destruct (GetTodayRewards_ok userID w Hf) as [rewards ->].
  unfold bind at 1, attempt at 1. rewrite GetUserStockHoldings_ok by exact Hf.
  unfold bind, ret.
  match goal with |- context [sum_values ?p ?l ?a w] =>
    destruct (sum_values_never_fails p l a w) as [v Hv];
    destruct (sum_values p l a w) as [r w'] end.
  cbn [fst] in Hv. subst r. eexists. reflexivity.
Qed.

Lemma GetPortfolio_answers_iff userID w :
  (exists p, fst (GetPortfolio userID w) = inr p)
  <-> exists h, fst (GetUserStockHoldings userID w) = inr h.
Proof.
  unfold GetPortfolio. unfold bind at 1, attempt at 1.
  destruct (GetUserStockHoldings userID w) as [[e|h] w1]; cbn [fst].
  - split; intros [x Hx]; discriminate.
  - split; [eauto|intros _]. unfold bind, ret.
    match goal with |- context [GetPortfolio_loop ?l ?i ?a w1] =>
      destruct (GetPortfolio_loop_never_fails l i a w1) as [res Hres];
      destruct (GetPortfolio_loop l i a w1) as [r w2] end.
    cbn [fst] in Hres. subst r. eexists. reflexivity.
Qed.

(** X27.  The four [GET] handlers answer 400, without calling a service,
    when the user id is not a number; with a number they answer 200
    whenever the store answers, and leave the grants and the ledger as
    they were in every case; [GET /portfolio] answers 500 exactly when
    the holdings query fails, so not when a price lookup fails. *)
Theorem GET_handlers_status userID w :
  (controllers.GetTodayStocks None w = (400, w)
   /\ controllers.GetHistoricalINR None w = (400, w)
   /\ controllers.GetStats None w = (400, w)
   /\ controllers.GetPortfolio None w = (400, w))
  /\ (faults w = [] ->
      fst (controllers.GetTodayStocks (Some userID) w) = 200
      /\ fst (controllers.GetHistoricalINR (Some userID) w) = 200
      /\ fst (controllers.GetStats (Some userID) w) = 200
      /\ fst (controllers.GetPortfolio (Some userID) w) = 200)
  /\ (same_ledger w (snd (controllers.GetTodayStocks (Some userID) w))
      /\ same_ledger w (snd (controllers.GetHistoricalINR (Some userID) w))
      /\ same_ledger w (snd (controllers.GetStats (Some userID) w))
      /\ same_ledger w (snd (controllers.GetPortfolio (Some userID) w)))
  /\ (fst (controllers.GetPortfolio (Some userID) w) = 500
      <-> exists e, fst (GetUserStockHoldings userID w) = inl e).
Proof.
  split; [repeat split|]. split; [|split].
  - intros Hf.
    unfold controllers.GetTodayStocks, controllers.GetHistoricalINR,
      controllers.GetStats, controllers.GetPortfolio.
    destruct (GetTodayRewards_ok userID w Hf) as [rewards ->].
    destruct (GetHistoricalINR_answers userID w Hf) as [vs Hvs].
    destruct (GetStats_answers userID w Hf) as [st Hst].
    destruct (proj2 (GetPortfolio_answers_iff userID w)) as [p Hp].
    { rewrite GetUserStockHoldings_ok by exact Hf. eexists. reflexivity. }
    destruct (GetHistoricalINR userID w) as [r1 w1].
    destruct (GetStats userID w) as [r2 w2].
    destruct (GetPortfolio userID w) as [r3 w3].
    cbn [fst] in Hvs, Hst, Hp. subst r1 r2 r3. repeat split.
  - unfold controllers.GetTodayStocks, controllers.GetHistoricalINR,
      controllers.GetStats, controllers.GetPortfolio.
    pose proof (GetTodayRewards_frame userID w) as [H1 _].
    pose proof (GetHistoricalINR_frame userID w) as [H2 _].
    pose proof (GetStats_frame userID w) as [H3 _].
    pose proof (GetPortfolio_frame userID w) as [H4 _].
    destruct (GetTodayRewards userID w) as [[?|?] ?].
    all: destruct (GetHistoricalINR userID w) as [[?|?] ?].
    all: destruct (GetStats userID w) as [[?|?] ?].
    all: destruct (GetPortfolio userID w) as [[?|?] ?].
    all: cbn [fst snd] in *; (split; [|split; [|split]]); assumption.
  - pose proof (GetPortfolio_answers_iff userID w) as Hiff.
    unfold controllers.GetPortfolio.
    destruct (GetPortfolio userID w) as [[e|p] w1]; cbn [fst] in *.
    + split; [intros _|reflexivity].
      destruct (GetUserStockHoldings userID w) as [[e'|h] w2]; cbn [fst] in *;
        [eauto|].
      destruct (proj2 Hiff) as [p Hp]; [eauto|discriminate].
    + split; [discriminate|]. intros [e He].
      destruct (proj1 Hiff) as [h Hh]; [eauto|]. congruence.
Qed.

Lemma GET_handlers_status_witness :
  fst (controllers.GetTodayStocks (Some 1) scenario.after_A) = 200
  /\ fst (controllers.GetHistoricalINR (Some 1) scenario.after_A) = 200
  /\ fst (controllers.GetStats (Some 1) scenario.after_A) = 200
  /\ fst (controllers.GetPortfolio (Some 1) scenario.after_A) = 200.
Proof.
  apply (GET_handlers_status 1 scenario.after_A). reflexivity.
Defined.

End EdgeCases.

(* ===================================================================== *)
(** * The days of a history, whatever fails                               *)
(* ===================================================================== *)

Section HistoryDays.

Lemma GetHistoricalINR_loop_dates userID dates : forall result w values w',
  GetHistoricalINR_loop userID dates result w = (inr values, w') ->
  exists new,
    values = result ++ new
    /\ map date new `sublist_of` dates
    /\ Forall (fun v => exp (valueINR v) = -4) new.
Proof.
  induction dates as [|d rest IH]; intros result w values w';
    cbn [GetHistoricalINR_loop].
  - unfold ret. intros E. injection E as <- _. exists [].
    rewrite app_nil_r. repeat split; constructor.
  - unfold bind at 1, attempt at 1.
    destruct (GetUserStockHoldingsUpToDate userID (EndOfDayUTC d) w)
      as [[e|holdings] w1].
    + intros E. apply IH in E as (new & -> & Hsub & Hexp). exists new.
      split; [reflexivity|]. split; [apply sublist_cons, Hsub|exact Hexp].
    + unfold bind at 1.
      destruct (sum_values _ _ _ w1) as [[e|v] w2]; [discriminate|].
      intros E. apply IH in E as (new & -> & Hsub & Hexp).
      exists (mkDailyValue d (RoundINR v) :: new).
      split; [rewrite <- app_assoc; reflexivity|].
      split; [cbn [map date]; apply sublist_skip, Hsub|].
      constructor; [apply exp_Round|exact Hexp].
Qed.

Lemma increasing_sublist l l' :
  l' `sublist_of` l -> increasing l -> increasing l'.
Proof.
  induction 1 as [|x l1 l2 Hsub IH|x l1 l2 Hsub IH]; cbn [increasing].
  - auto.
  - intros [Hx Hl]. split; [|apply IH, Hl].
    apply List.Forall_forall. intros u Hu. rewrite List.Forall_forall in Hx.
    apply Hx, list_elem_of_In. eapply elem_of_sublist; [|exact Hsub].
    apply list_elem_of_In, Hu.
  - intros [_ Hl]. apply IH, Hl.
Qed.

Lemma increasing_days first n : forall a,
  increasing (map (fun i => first + Z.of_nat i * nsPerDay) (seq a n)).
Proof.
  pose proof nsPerDay_pos as HD.
  induction n as [|n IH]; intros a; cbn [seq map increasing]; [exact I|].
  split; [|apply IH].
  apply List.Forall_forall. intros u Hu.
  apply List.in_map_iff in Hu as (i & <- & Hi). apply List.in_seq in Hi. nia.
Qed.

(** X28.  Whichever requests to the store fail, the days of a history that
    [GetHistoricalINR] returns are starts of UTC days, in increasing order
    and none twice, none before the day of the user's first grant and none
    after yesterday; every value has 4 decimals; and the grants and the
    ledger are as they were. *)
Theorem GetHistoricalINR_days_in_range userID w values w' :
  GetHistoricalINR userID w = (inr values, w') ->
  increasing (map date values)
  /\ Forall
       (fun v => StartOfDayUTC (date v) = date v
                 /\ date v < StartOfDayUTC (now w)
                 /\ exp (valueINR v) = -4) values
  /\ (forall g, first_grant userID (store w) = Some g ->
        Forall (fun v => StartOfDayUTC (re_timestamp g) <= date v) values)
  /\ (first_grant userID (store w) = None -> values = [])
  /\ same_ledger w w'.
Proof.
  intros E.
  assert (Hframe : same_ledger w w').
  { pose proof (GetHistoricalINR_frame userID w) as [H _]. rewrite E in H. exact H. }
  revert E. unfold GetHistoricalINR. unfold bind at 1. rewrite NowUTC_run.
  unfold bind at 1, attempt at 1.
  match goal with |- context [db_query ?q w] =>
    destruct (db_query_cases q w) as (fs & _ & _ & Hr);
    destruct (db_query q w) as [r w1] end.
  cbn [fst] in Hr. fold (first_grant userID (store w)) in Hr.
  destruct Hr as [->| ->]; [discriminate|].
  destruct (first_grant userID (store w)) as [g|]; cbn [first_or_not_found].
  - intros E. apply GetHistoricalINR_loop_dates in E as (new & -> & Hsub & Hexp).
    cbn [app] in *. cbn [scan_reward RewardEvent_Timestamp] in Hsub.
    rewrite GetPastDates_days, StartOfDay_idem, GetYesterday_before_today in Hsub.
    replace (StartOfDayUTC (StartOfDayUTC (now w) - nsPerDay))
      with (StartOfDayUTC (now w) - nsPerDay) in Hsub.
    2:{ destruct (StartOfDay_multiple (now w)) as [k Hk]. rewrite Hk.
        replace (k * nsPerDay - nsPerDay) with ((k - 1) * nsPerDay) by lia.
        symmetry. apply StartOfDay_unique. pose proof nsPerDay_pos. lia. }
    assert (Hin : forall v, In v new ->
              In (date v)
                (days_from_through (StartOfDayUTC (re_timestamp g))
                   (StartOfDayUTC (now w) - nsPerDay))).
    { intros v Hv. apply list_elem_of_In. eapply elem_of_sublist; [|exact Hsub].
      apply list_elem_of_In, List.in_map, Hv. }
    split; [|split; [|split; [|split]]].
    + eapply increasing_sublist; [exact Hsub|]. apply increasing_days.
    + apply List.Forall_forall. intros v Hv. specialize (Hin v Hv).
      pose proof (days_from_through_bound _ _ _ Hin) as Hb.
      rewrite List.Forall_forall in Hexp. split; [|split; [|apply Hexp, Hv]].
      * unfold days_from_through in Hin.
        apply List.in_map_iff in Hin as (i & <- & _).
        destruct (StartOfDay_multiple (re_timestamp g)) as [k ->].
        replace (k * nsPerDay + Z.of_nat i * nsPerDay)
          with ((k + Z.of_nat i) * nsPerDay) by lia.
        apply StartOfDay_unique. pose proof nsPerDay_pos. lia.
      * pose proof nsPerDay_pos. lia.
    + intros g' Eg. injection Eg as <-. apply List.Forall_forall. intros v Hv.
      apply (days_from_through_bound _ _ _ (Hin v Hv)).
    + discriminate.
    + exact Hframe.
  - cbn [errors_Is_RecordNotFound]. unfold ret. intros E. injection E as <- _.
    split; [exact I|]. split; [constructor|]. split; [discriminate|].
    split; [reflexivity|exact Hframe].
Qed.

Lemma GetHistoricalINR_days_in_range_witness :
  exists values w',
    GetHistoricalINR 1 scenario.third_request_fails = (inr values, w')
    /\ map date values = [scenario.day_2025_01_23]
    /\ Forall
         (fun v => StartOfDayUTC (date v) = date v
                   /\ date v < StartOfDayUTC (now scenario.third_request_fails)
                   /\ exp (valueINR v) = -4) values.
Proof.
  destruct (GetHistoricalINR 1 scenario.third_request_fails) as [r w'] eqn:E.
  assert (Hr : exists values,
             r = inr values /\ map date values = [scenario.day_2025_01_23]).
  { apply (f_equal fst) in E. cbn [fst] in E. rewrite <- E.
    eexists. split; vm_compute; reflexivity. }
  destruct Hr as (values & -> & Hdates). exists values, w'.
  split; [reflexivity|]. split; [exact Hdates|].
  apply (GetHistoricalINR_days_in_range 1 scenario.third_request_fails values w' E).
Defined.

End HistoryDays.
